(** * USI I2C slave state machine (i2c_machine.c): model and properties

    The firmware is a singleton bound to one USI peripheral.  Its C globals,
    the function-static [post_ack] and the memory-mapped registers it touches
    are gathered in one record; every C function becomes a computation in a
    small state-and-failure monad, where failure stands for an array access
    outside its bounds (undefined in C) or for a start handler whose spin
    loop has consumed every pin sample it was given. *)

From Stdlib Require Import ZArith Lia Bool.
From stdpp Require Import base list.

Local Open Scope Z_scope.

(** ** Build configuration (i2c_slave_defs.h) *)

Record config := Config {
  I2C_SLAVE_ADDR : Z;
  I2C_N_REG : Z;
  I2C_SDA : Z;
  I2C_SCL : Z;
  (** [Some m] when the header defines I2C_GLOBAL_WRITE_MASK as [m] *)
  I2C_GLOBAL_WRITE_MASK : option Z;
  (** [const uint8_t i2c_w_mask[I2C_N_REG]], read only when no global mask *)
  i2c_w_mask : list Z
}.

(** ** Constants of i2c_machine.c *)

Definition I2C_SDA_DIR_OUT : Z := 1.
Definition I2C_SDA_DIR_IN : Z := 0.

Definition I2C_STATE_ADDR_MATCH : Z := 0.
Definition I2C_STATE_REG_ADDR : Z := 1.
Definition I2C_STATE_MASTER_READ : Z := 2.
Definition I2C_STATE_MASTER_WRITE : Z := 3.
Definition I2C_STATE_IDLE : Z := 4.

(** Modelled from the spec: the bit positions of the USI status and control
    registers come from the device header avr/io.h, which is not part of the
    repository.  The spec fixes the layout the code relies on: [0xF0] clears
    the start, overflow and stop flags, and the counter field starts at bit
    0. *)
Definition USISIF : Z := 7.
Definition USIOIF : Z := 6.
Definition USIPF : Z := 5.
Definition USICNT0 : Z := 0.
Definition USISIE : Z := 7.
Definition USIOIE : Z := 6.
Definition USIWM0 : Z := 4.
Definition USICS1 : Z := 3.

(** ** Machine state *)

(** Truncation to [uint8_t]. *)
Definition u8 (x : Z) : Z := x mod 256.

Record state := State {
  i2c_update : Z;        (* volatile uint8_t i2c_update *)
  i2c_state : Z;         (* volatile uint8_t i2c_state *)
  i2c_offset : Z;        (* volatile uint8_t i2c_offset *)
  post_ack : Z;          (* static uint8_t post_ack, overflow handler *)
  i2c_reg : list Z;      (* volatile uint8_t i2c_reg[I2C_N_REG] *)
  USIDR : Z;             (* USI shift register *)
  USISR : Z;             (* USI status register *)
  USICR : Z;             (* USI control register *)
  USI_DDR : Z;           (* DDRB *)
  USI_PORT : Z;          (* PORTB *)
  sreg_i : bool          (* global interrupt enable, cli()/sei() *)
}.

Definition set_i2c_update (v : Z) (s : state) : state :=
  State v (i2c_state s) (i2c_offset s) (post_ack s) (i2c_reg s)
        (USIDR s) (USISR s) (USICR s) (USI_DDR s) (USI_PORT s) (sreg_i s).
Definition set_i2c_state (v : Z) (s : state) : state :=
  State (i2c_update s) v (i2c_offset s) (post_ack s) (i2c_reg s)
        (USIDR s) (USISR s) (USICR s) (USI_DDR s) (USI_PORT s) (sreg_i s).
Definition set_i2c_offset (v : Z) (s : state) : state :=
  State (i2c_update s) (i2c_state s) v (post_ack s) (i2c_reg s)
        (USIDR s) (USISR s) (USICR s) (USI_DDR s) (USI_PORT s) (sreg_i s).
Definition set_post_ack (v : Z) (s : state) : state :=
  State (i2c_update s) (i2c_state s) (i2c_offset s) v (i2c_reg s)
        (USIDR s) (USISR s) (USICR s) (USI_DDR s) (USI_PORT s) (sreg_i s).
Definition set_i2c_reg (v : list Z) (s : state) : state :=
  State (i2c_update s) (i2c_state s) (i2c_offset s) (post_ack s) v
        (USIDR s) (USISR s) (USICR s) (USI_DDR s) (USI_PORT s) (sreg_i s).
Definition set_USIDR (v : Z) (s : state) : state :=
  State (i2c_update s) (i2c_state s) (i2c_offset s) (post_ack s) (i2c_reg s)
        v (USISR s) (USICR s) (USI_DDR s) (USI_PORT s) (sreg_i s).
Definition set_USISR (v : Z) (s : state) : state :=
  State (i2c_update s) (i2c_state s) (i2c_offset s) (post_ack s) (i2c_reg s)
        (USIDR s) v (USICR s) (USI_DDR s) (USI_PORT s) (sreg_i s).
Definition set_USICR (v : Z) (s : state) : state :=
  State (i2c_update s) (i2c_state s) (i2c_offset s) (post_ack s) (i2c_reg s)
        (USIDR s) (USISR s) v (USI_DDR s) (USI_PORT s) (sreg_i s).
Definition set_USI_DDR (v : Z) (s : state) : state :=
  State (i2c_update s) (i2c_state s) (i2c_offset s) (post_ack s) (i2c_reg s)
        (USIDR s) (USISR s) (USICR s) v (USI_PORT s) (sreg_i s).
Definition set_USI_PORT (v : Z) (s : state) : state :=
  State (i2c_update s) (i2c_state s) (i2c_offset s) (post_ack s) (i2c_reg s)
        (USIDR s) (USISR s) (USICR s) (USI_DDR s) v (sreg_i s).
Definition set_sreg_i (v : bool) (s : state) : state :=
  State (i2c_update s) (i2c_state s) (i2c_offset s) (post_ack s) (i2c_reg s)
        (USIDR s) (USISR s) (USICR s) (USI_DDR s) (USI_PORT s) v.

(** ** The monad of handler bodies *)

Definition M (A : Type) : Type := state -> option (A * state).

Definition ret {A} (a : A) : M A := fun s => Some (a, s).
Definition bind {A B} (m : M A) (k : A -> M B) : M B :=
  fun s => match m s with
           | Some (a, s') => k a s'
           | None => None
           end.
Definition undefined {A} : M A := fun _ => None.
Definition load {A} (f : state -> A) : M A := fun s => Some (f s, s).
Definition store {A} (set : A -> state -> state) (v : A) : M unit :=
  fun s => Some (tt, set v s).
Definition when (b : bool) (m : M unit) : M unit :=
  if b then m else ret tt.

Declare Scope isr_scope.
Delimit Scope isr_scope with isr.
Notation "x <- m ; k" := (bind m (fun x => k))
  (at level 20, m at level 100, k at level 200, only parsing) : isr_scope.
Notation "' p <- m ; k" := (bind m (fun x => match x with p => k end))
  (at level 20, p pattern, m at level 100, k at level 200, only parsing)
  : isr_scope.
Notation "m ;; k" := (bind m (fun _ => k))
  (at level 100, k at level 200, only parsing, right associativity) : isr_scope.

(** The state a computation leaves behind, when it returns. *)
Definition exec {A} (m : M A) (s : state) : option state :=
  match m s with Some (_, s') => Some s' | None => None end.

(** C truth value of an integer. *)
Definition truthy (x : Z) : bool := negb (x =? 0).

(** ** The USI status register

    Modelled from the spec: the hardware register contract.  The start,
    overflow and stop flags are cleared by writing a one to them and keep
    their value when a zero is written; the data-collision bit (bit 4) is
    read-only; the low four bits written become the new counter value. *)
Definition usisr_write (old v : Z) : Z :=
  Z.lor (Z.land (Z.land old 0xF0) (Z.lnot (Z.land v 0xE0))) (Z.land v 0x0F).

Definition write_USISR (v : Z) : M unit :=
  fun s => Some (tt, set_USISR (usisr_write (USISR s) v) s).

Section Firmware.

Variable cfg : config.

Local Open Scope isr_scope.

Definition NAK : M unit := store set_USIDR 0x80.
Definition ACK : M unit := store set_USIDR 0x00.

(** [while (PINB & (1 << I2C_SCL));] over the successive values read from
    the input port.  [None] when every sample given still shows SCL high. *)
Fixpoint wait_scl_low (pinb : list Z) : option unit :=
  match pinb with
  | [] => None
  | v :: rest =>
      if truthy (Z.land v (Z.shiftl 1 (I2C_SCL cfg))) then wait_scl_low rest
      else Some tt
  end.

Definition spin_on_scl (pinb : list Z) : M unit :=
  fun s => match wait_scl_low pinb with
           | Some _ => Some (tt, s)
           | None => None
           end.

(** ISR(USI_START_vect) *)
Definition usi_start_isr (pinb : list Z) : M unit :=
  store set_i2c_state 0 ;;
  spin_on_scl pinb ;;
  write_USISR 0xF0.

(** [i2c_w_mask[i]] and [i2c_reg[i]]; an index outside the array is
    undefined behaviour. *)
Definition w_mask_at (i : Z) : M Z :=
  match i2c_w_mask cfg !! Z.to_nat i with
  | Some m => ret m
  | None => undefined
  end.

Definition reg_at (i : Z) : M Z :=
  r <- load i2c_reg ;
  match r !! Z.to_nat i with
  | Some v => ret v
  | None => undefined
  end.

Definition reg_store (i : Z) (v : Z) : M unit :=
  r <- load i2c_reg ;
  if decide (Z.to_nat i < length r)%nat
  then store set_i2c_reg (<[Z.to_nat i := v]> r)
  else undefined.

(** ISR(USI_OVERFLOW_vect) *)
Definition usi_overflow_isr : M unit :=
  pa <- load post_ack ;
  '(sda_direction, usisr_tmp) <-
    (if negb (truthy pa) then
       (* Work that needs to be done before the ACK cycle *)
       st <- load i2c_state ;
       sda_direction <-
         (if st =? I2C_STATE_ADDR_MATCH then
            d <- load USIDR ;
            let tmp := u8 (Z.shiftr d 1) in
            if truthy tmp && negb (tmp =? I2C_SLAVE_ADDR cfg) then
              (* Transition h *)
              store set_i2c_state I2C_STATE_IDLE ;;
              NAK ;;
              ret I2C_SDA_DIR_OUT
            else
              d <- load USIDR ;
              (if truthy (Z.land d 1) then
                 (* Transition b *)
                 store set_i2c_state I2C_STATE_MASTER_READ
               else
                 (* Transition a *)
                 store set_i2c_offset 0 ;;
                 store set_i2c_state I2C_STATE_REG_ADDR ;;
                 store set_i2c_update 1) ;;
              ACK ;;
              ret I2C_SDA_DIR_OUT
          else if st =? I2C_STATE_REG_ADDR then
            d <- load USIDR ;
            if d >? I2C_N_REG cfg - 1 then
              (* Transition i *)
              store set_i2c_state I2C_STATE_IDLE ;;
              NAK ;;
              ret I2C_SDA_DIR_OUT
            else
              (* Transition d *)
              d <- load USIDR ;
              store set_i2c_offset (u8 d) ;;
              store set_i2c_state I2C_STATE_MASTER_WRITE ;;
              ACK ;;
              ret I2C_SDA_DIR_OUT
          else if st =? I2C_STATE_MASTER_READ then
            store set_USIDR 0 ;;
            (* Listen for master NAK *)
            ret I2C_SDA_DIR_IN
          else if st =? I2C_STATE_MASTER_WRITE then
            off <- load i2c_offset ;
            tmp <- match I2C_GLOBAL_WRITE_MASK cfg with
                   | Some g => ret (u8 g)
                   | None => m <- w_mask_at off ; ret (u8 m)
                   end ;
            when (truthy tmp)
              ((* Only heed writeable bits *)
               r <- reg_at off ;
               reg_store off (u8 (Z.land r (Z.lnot tmp))) ;;
               r <- reg_at off ;
               d <- load USIDR ;
               reg_store off (u8 (Z.lor r (Z.land d tmp)))) ;;
            u <- load i2c_update ;
            store set_i2c_update (u8 (u + 1)) ;;
            off <- load i2c_offset ;
            store set_i2c_offset (u8 (off + 1)) ;;
            ACK ;;
            ret I2C_SDA_DIR_OUT
          else
            NAK ;;
            ret I2C_SDA_DIR_OUT) ;
       (* Counter will overflow again after ACK cycle *)
       store set_post_ack 1 ;;
       ret (sda_direction, Z.lor 0xD0 (Z.shiftl 14 USICNT0))
     else
       (* Work that needs to be done after the ACK cycle *)
       st <- load i2c_state ;
       sda_direction <-
         (if st =? I2C_STATE_MASTER_READ then
            d <- load USIDR ;
            if truthy d then
              (* Transition e *)
              store set_i2c_offset 0 ;;
              store set_i2c_state I2C_STATE_IDLE ;;
              ret I2C_SDA_DIR_IN
            else
              (* Transition f *)
              off <- load i2c_offset ;
              r <- reg_at off ;
              store set_i2c_offset (u8 (off + 1)) ;;
              store set_USIDR r ;;
              ret I2C_SDA_DIR_OUT
          else ret I2C_SDA_DIR_IN) ;
       store set_post_ack 0 ;;
       ret (sda_direction, 0xD0)) ;
  off <- load i2c_offset ;
  when (off >? I2C_N_REG cfg - 1) (store set_i2c_offset 0) ;;
  (* Set up SDA direction for next operation *)
  ddr <- load USI_DDR ;
  (if sda_direction =? I2C_SDA_DIR_OUT then
     store set_USI_DDR (u8 (Z.lor ddr (Z.shiftl 1 (I2C_SDA cfg))))
   else
     store set_USI_DDR (u8 (Z.land ddr (Z.lnot (Z.shiftl 1 (I2C_SDA cfg)))))) ;;
  (* Clear flags and set counter *)
  write_USISR usisr_tmp.

(** i2c_init() *)
Definition i2c_init : M unit :=
  store set_i2c_state 0 ;;
  store set_USICR
    (Z.lor (Z.lor (Z.lor (Z.shiftl 1 USISIE) (Z.shiftl 1 USIOIE))
                  (Z.shiftl 3 USIWM0))
           (Z.shiftl 1 USICS1)) ;;
  ddr <- load USI_DDR ;
  store set_USI_DDR (u8 (Z.lor ddr (Z.shiftl 1 (I2C_SCL cfg)))) ;;
  ddr <- load USI_DDR ;
  store set_USI_DDR (u8 (Z.land ddr (Z.lnot (Z.shiftl 1 (I2C_SDA cfg))))) ;;
  port <- load USI_PORT ;
  store set_USI_PORT
    (u8 (Z.lor port (Z.lor (Z.shiftl 1 (I2C_SDA cfg))
                           (Z.shiftl 1 (I2C_SCL cfg))))) ;;
  write_USISR 0xF0.

(** i2c_transaction_ongoing() *)
Definition i2c_transaction_ongoing : M Z :=
  st <- load i2c_state ;
  if negb (st =? I2C_STATE_IDLE) && negb (st =? I2C_STATE_ADDR_MATCH)
  then ret 1
  else ret 0.

Definition cli : M unit := store set_sreg_i false.
Definition sei : M unit := store set_sreg_i true.

(** i2c_check_stop() *)
Definition i2c_check_stop : M Z :=
  let ret0 := 0 in
  st <- load i2c_state ;
  u <- load i2c_update ;
  if (st =? I2C_STATE_MASTER_WRITE) && truthy u then
    cli ;;
    tmp <- load USISR ;
    ret1 <-
      (if truthy (Z.land tmp (Z.shiftl 1 USIPF)) then
         store set_i2c_state I2C_STATE_IDLE ;;
         u <- load i2c_update ;
         store set_i2c_update 0 ;;
         ret u
       else ret ret0) ;
    sei ;;
    ret ret1
  else ret ret0.

End Firmware.

(** ** The bus seen from the peripheral

    Modelled from the spec: the part of the USI hardware that turns bus
    activity into register contents and interrupts (hardware register
    contract, wire protocol and glossary).  Only the events of a master
    transmitting are modelled; both interrupts are taken to be enabled, so
    every event that raises a flag runs its handler. *)

Inductive bus_event :=
  | START (pinb : list Z)  (* start condition; values PINB shows the handler *)
  | BYTE (b : Z)           (* eight data bits from the master, then the ACK slot *)
  | STOP.                  (* stop condition *)

Definition hw_set_flag (bit : Z) (s : state) : state :=
  set_USISR (Z.lor (USISR s) (Z.shiftl 1 bit)) s.

(** The counter overflows: the overflow flag is raised and the counter is
    back at zero. *)
Definition hw_overflow (s : state) : state :=
  set_USISR (Z.lor (Z.land (USISR s) 0xF0) (Z.shiftl 1 USIOIF)) s.

(** Eight clocks with the master driving SDA. *)
Definition hw_shift_in (b : Z) (s : state) : state :=
  hw_overflow (set_USIDR (u8 b) s).

Section Bus.

Variable cfg : config.

(** Level of SDA in a slot the master leaves released: the slave pulls the
    line low when its SDA driver is enabled and the top bit of the shift
    register, or the port bit, is zero. *)
Definition sda_level (s : state) : Z :=
  if Z.testbit (USI_DDR s) (I2C_SDA cfg)
     && negb (Z.testbit (USIDR s) 7 && Z.testbit (USI_PORT s) (I2C_SDA cfg))
  then 0 else 1.

(** One clock: the register shifts left and takes the level of SDA. *)
Definition hw_ack_clock (s : state) : state :=
  hw_overflow (set_USIDR (u8 (2 * USIDR s) + sda_level s) s).

Definition run_event (e : bus_event) (s : state) : option state :=
  match e with
  | START pinb => exec (usi_start_isr cfg pinb) (hw_set_flag USISIF s)
  | BYTE b =>
      match exec (usi_overflow_isr cfg) (hw_shift_in b s) with
      | Some s1 => exec (usi_overflow_isr cfg) (hw_ack_clock s1)
      | None => None
      end
  | STOP => Some (hw_set_flag USIPF s)
  end.

Fixpoint run_bus (es : list bus_event) (s : state) : option state :=
  match es with
  | [] => Some s
  | e :: es' =>
      match run_event e s with
      | Some s' => run_bus es' s'
      | None => None
      end
  end.

End Bus.

(** Reset values: the C initialisers and cleared I/O registers, over the
    application's register file. *)
Definition power_on (regs : list Z) : state :=
  State 0 0 0 0 regs 0 0 0 0 0 false.

(** The firmware boots on the reset state, then the bus events happen. *)
Definition boot_and_run (cfg : config) (regs : list Z) (es : list bus_event)
    : option state :=
  match exec (i2c_init cfg) (power_on regs) with
  | Some s0 => run_bus cfg es s0
  | None => None
  end.

(** The two headers shipped with the sources.  The first leaves the mask
    array to the application; the second fixes a global mask. *)
Definition defs_example (w_mask : list Z) : config :=
  Config 0x40 2 0 2 None w_mask.

Definition N_LEDS : Z := 16.
Definition I2C_N_GLB_REG : Z := 4.
Definition defs_leds : config :=
  Config 0x40 (I2C_N_GLB_REG + N_LEDS * 3) 5 7 (Some 0xFF) [].

(** ** Vocabulary of the properties *)

(** A value a [uint8_t] can hold. *)
Definition byte (x : Z) : Prop := 0 <= x < 256.

(** The C variables of the engine, without the hardware registers. *)
Definition vars (s : state) : Z * Z * Z * Z * list Z :=
  (i2c_update s, i2c_state s, i2c_offset s, post_ack s, i2c_reg s).

(** What the slave puts on the ACK slot: the shift register holds the ACK
    or NAK pattern and the SDA driver is enabled. *)
Definition drives_ack (cfg : config) (s : state) : Prop :=
  USIDR s = 0x00 /\ Z.testbit (USI_DDR s) (I2C_SDA cfg) = true.

Definition drives_nak (cfg : config) (s : state) : Prop :=
  USIDR s = 0x80 /\ Z.testbit (USI_DDR s) (I2C_SDA cfg) = true.

(** *** Specification side

    The next definitions follow the words of the specification, not the
    code; the theorems compare the handlers with them. *)

(** The write mask configured for register [r]: the global mask, or the
    entry of the mask array. *)
Definition write_mask (cfg : config) (r : nat) : option Z :=
  match I2C_GLOBAL_WRITE_MASK cfg with
  | Some g => Some g
  | None => i2c_w_mask cfg !! r
  end.

(** The merge of a received byte: [(old & ~mask) | (received & mask)]. *)
Definition masked_write (old received mask : Z) : Z :=
  Z.lor (Z.land old (Z.lnot mask)) (Z.land received mask).

(** The offset after one data byte: incremented, back to 0 at I2C_N_REG. *)
Definition next_offset (cfg : config) (off : Z) : Z :=
  if off + 1 =? I2C_N_REG cfg then 0 else off + 1.

(** A burst of data bytes starting at [off]: each byte is merged under the
    mask of the register it lands on and the offset moves on.  Returns the
    final offset and register file. *)
Fixpoint write_burst (cfg : config) (off : Z) (ds : list Z) (reg : list Z)
    : Z * list Z :=
  match ds with
  | [] => (off, reg)
  | d :: ds' =>
      match reg !! Z.to_nat off, write_mask cfg (Z.to_nat off) with
      | Some old, Some mask =>
          write_burst cfg (next_offset cfg off) ds'
            (<[Z.to_nat off := masked_write old d mask]> reg)
      | _, _ => (off, reg)
      end
  end.

(** *** What the C declarations guarantee *)

(** The configuration is one the declarations admit: a register count an
    8-bit offset can reach, and masks that are bytes, one per register. *)
Definition wf_config (cfg : config) : Prop :=
  0 < I2C_N_REG cfg <= 256 /\
  match I2C_GLOBAL_WRITE_MASK cfg with
  | Some g => byte g
  | None =>
      length (i2c_w_mask cfg) = Z.to_nat (I2C_N_REG cfg) /\
      Forall byte (i2c_w_mask cfg)
  end.

(** [i2c_reg] has I2C_N_REG entries, all bytes. *)
Definition wf_regs (cfg : config) (reg : list Z) : Prop :=
  length reg = Z.to_nat (I2C_N_REG cfg) /\ Forall byte reg.

(** Only the sizes: the arrays have the length of their declarations. *)
Definition arrays_sized (cfg : config) (s : state) : Prop :=
  length (i2c_reg s) = Z.to_nat (I2C_N_REG cfg) /\
  (I2C_GLOBAL_WRITE_MASK cfg = None ->
   length (i2c_w_mask cfg) = Z.to_nat (I2C_N_REG cfg)).

(** *** Code side: pieces of the overflow handler named for the proofs *)

(** The mask the handler loads into [tmp] for the register at [off]. *)
Definition effective_mask (cfg : config) (off : Z) : option Z :=
  match I2C_GLOBAL_WRITE_MASK cfg with
  | Some g => Some (u8 g)
  | None => u8 <$> (i2c_w_mask cfg !! Z.to_nat off)
  end.

(** The two read-modify-write statements of transition g on one byte. *)
Definition merge_masked (old d tmp : Z) : Z :=
  u8 (Z.lor (u8 (Z.land old (Z.lnot tmp))) (Z.land d tmp)).

(** The tail of the handler: clamp the offset, set the SDA direction,
    rewrite the status register. *)
Definition overflow_exit (cfg : config) (sda_direction usisr_tmp : Z)
    (s : state) : state :=
  let s1 := if i2c_offset s >? I2C_N_REG cfg - 1 then set_i2c_offset 0 s else s in
  let s2 :=
    if sda_direction =? I2C_SDA_DIR_OUT
    then set_USI_DDR (u8 (Z.lor (USI_DDR s1) (Z.shiftl 1 (I2C_SDA cfg)))) s1
    else set_USI_DDR
           (u8 (Z.land (USI_DDR s1) (Z.lnot (Z.shiftl 1 (I2C_SDA cfg))))) s1 in
  set_USISR (usisr_write (USISR s2) usisr_tmp) s2.

(** *** Runs of the engine *)

(** What the engine can be asked to do. *)
Inductive engine_op :=
  | OpInit
  | OpStart (pinb : list Z)
  | OpOverflow
  | OpCheckStop
  | OpOngoing.

Definition run_op (cfg : config) (op : engine_op) (s : state) : option state :=
  match op with
  | OpInit => exec (i2c_init cfg) s
  | OpStart pinb => exec (usi_start_isr cfg pinb) s
  | OpOverflow => exec (usi_overflow_isr cfg) s
  | OpCheckStop => exec i2c_check_stop s
  | OpOngoing => exec i2c_transaction_ongoing s
  end.

(** Any interleaving of engine operations with hardware activity, which
    changes registers of the peripheral but none of the C variables. *)
Inductive engine_trace (cfg : config) : state -> state -> Prop :=
  | trace_done s : engine_trace cfg s s
  | trace_op s op s1 s2 :
      run_op cfg op s = Some s1 -> engine_trace cfg s1 s2 ->
      engine_trace cfg s s2
  | trace_hw s s1 s2 :
      vars s1 = vars s -> engine_trace cfg s1 s2 -> engine_trace cfg s s2.

(** *** The master reads

    Modelled from the spec: what the USI hardware does while the master
    clocks a byte out of the slave and then answers in the ACK slot itself
    (hardware register contract: the shift register sources SDA, most
    significant bit first, and takes in the level of SDA on every clock). *)

(** One clock with the master listening. *)
Definition hw_clock (cfg : config) (s : state) : state :=
  set_USIDR (u8 (2 * USIDR s) + sda_level cfg s) s.

(** [n] clocks; the levels the master sees on SDA are collected in [acc],
    most significant bit first. *)
Fixpoint clock_out (cfg : config) (n : nat) (acc : Z) (s : state)
    : Z * state :=
  match n with
  | O => (acc, s)
  | S n' => clock_out cfg n' (2 * acc + sda_level cfg s) (hw_clock cfg s)
  end.

(** The ACK slot when the master answers: it pulls SDA low to ACK and
    leaves it released to NAK. *)
Definition hw_ack_clock_by_master (cfg : config) (ack : bool) (s : state)
    : state :=
  hw_overflow
    (set_USIDR (u8 (2 * USIDR s) + (if ack then 0 else sda_level cfg s)) s).

(** The master reads one byte and answers it with [ack]: eight clocks, the
    overflow handler, the ACK slot, the overflow handler again.  Returns the
    byte the master saw. *)
Definition master_read (cfg : config) (ack : bool) (s : state)
    : option (Z * state) :=
  let '(b, s1) := clock_out cfg 8 0 s in
  match exec (usi_overflow_isr cfg) (hw_overflow s1) with
  | Some s2 =>
      match exec (usi_overflow_isr cfg) (hw_ack_clock_by_master cfg ack s2) with
      | Some s3 => Some (b, s3)
      | None => None
      end
  | None => None
  end.

Fixpoint master_reads (cfg : config) (acks : list bool) (s : state)
    : option (list Z * state) :=
  match acks with
  | [] => Some ([], s)
  | ack :: rest =>
      match master_read cfg ack s with
      | Some (b, s1) =>
          match master_reads cfg rest s1 with
          | Some (bs, s2) => Some (b :: bs, s2)
          | None => None
          end
      | None => None
      end
  end.

(** Specification side: [n] registers read in a row from [off], wrapping at
    I2C_N_REG. *)
Fixpoint read_seq (cfg : config) (off : Z) (n : nat) (reg : list Z) : list Z :=
  match n with
  | O => []
  | S n' =>
      match reg !! Z.to_nat off with
      | Some v => v :: read_seq cfg (next_offset cfg off) n' reg
      | None => []
      end
  end.

(** The slave has a byte on offer: MASTER_READ between two bytes, the
    register at [cur] in the shift register, the SDA driver on and the port
    bit high, the offset already moved on. *)
Definition offering (cfg : config) (cur : Z) (s : state) : Prop :=
  i2c_state s = I2C_STATE_MASTER_READ /\
  post_ack s = 0 /\
  Z.testbit (USI_DDR s) (I2C_SDA cfg) = true /\
  Z.testbit (USI_PORT s) (I2C_SDA cfg) = true /\
  i2c_reg s !! Z.to_nat cur = Some (USIDR s) /\
  i2c_offset s = next_offset cfg cur.

(** The shift register alone, over one clock and over [n] clocks, when the
    slave drives SDA. *)
Definition rotl (d : Z) : Z :=
  u8 (2 * d) + (if Z.testbit d 7 then 1 else 0).

Fixpoint rot_out (n : nat) (acc d : Z) : Z * Z :=
  match n with
  | O => (acc, d)
  | S n' => rot_out n' (2 * acc + (if Z.testbit d 7 then 1 else 0)) (rotl d)
  end.

(** *** The transition table of the source

    The comment above the handlers lists the valid state transitions by
    letter: a, b, h out of ADDR_MATCH; d, c, i out of REG_ADDR; f, e out of
    MASTER_READ; g, c out of MASTER_WRITE; j out of IDLE. *)
Definition documented_transition (from to : Z) : Prop :=
  (from = I2C_STATE_ADDR_MATCH /\
   (to = I2C_STATE_REG_ADDR \/ to = I2C_STATE_MASTER_READ \/
    to = I2C_STATE_IDLE)) \/
  (from = I2C_STATE_REG_ADDR /\
   (to = I2C_STATE_MASTER_WRITE \/ to = I2C_STATE_IDLE)) \/
  (from = I2C_STATE_MASTER_READ /\
   (to = I2C_STATE_MASTER_READ \/ to = I2C_STATE_IDLE)) \/
  (from = I2C_STATE_MASTER_WRITE /\
   (to = I2C_STATE_MASTER_WRITE \/ to = I2C_STATE_IDLE)) \/
  (from = I2C_STATE_IDLE /\ to = I2C_STATE_ADDR_MATCH).

(** *** The stop poller under interrupts

    i2c_check_stop() once more, statement by statement: a program point
    for each access to a volatile object or to the interrupt flag, and the
    two locals of the function.  [tmp] is declared inside the block and is
    written before it is read; it reads 0 until then. *)
Inductive check_stop_pc :=
  | at_test_state     (* i2c_state == I2C_STATE_MASTER_WRITE *)
  | at_test_update    (* && i2c_update *)
  | at_cli            (* cli(); *)
  | at_read_USISR     (* uint8_t tmp = USISR; if (tmp & (1 << USIPF)) *)
  | at_set_state      (* i2c_state = I2C_STATE_IDLE; *)
  | at_snapshot       (* ret = i2c_update; *)
  | at_clear          (* i2c_update = 0; *)
  | at_sei            (* sei(); *)
  | at_return.        (* return ret; *)

Record check_stop_frame := Frame {
  frame_pc : check_stop_pc;
  frame_ret : Z;        (* uint8_t ret = 0 *)
  frame_tmp : Z         (* uint8_t tmp *)
}.

Definition check_stop_entry : check_stop_frame := Frame at_test_state 0 0.

(** The program points between cli() and sei(): the next statement is one
    of the critical section, sei() included. *)
Definition in_critical_section (p : check_stop_pc) : bool :=
  match p with
  | at_read_USISR | at_set_state | at_snapshot | at_clear | at_sei => true
  | at_test_state | at_test_update | at_cli | at_return => false
  end.

(** The two interrupt sources of the peripheral. *)
Inductive interrupt :=
  | IrqStart (pinb : list Z)
  | IrqOverflow.

(** What can happen next on the processor while the poller runs. *)
Inductive cpu_event :=
  | EvStep                        (* the poller executes its statement *)
  | EvIrq (i : interrupt)         (* the peripheral requests an interrupt *)
  | EvHw (usidr usisr : Z).       (* the peripheral shifts, counts, flags *)

Section Interrupts.

Variable cfg : config.

Local Open Scope isr_scope.

(** The statement at the program point of [f]. *)
Definition check_stop_step (f : check_stop_frame) : M check_stop_frame :=
  match frame_pc f with
  | at_test_state =>
      st <- load i2c_state ;
      ret (Frame (if st =? I2C_STATE_MASTER_WRITE
                  then at_test_update else at_return)
                 (frame_ret f) (frame_tmp f))
  | at_test_update =>
      u <- load i2c_update ;
      ret (Frame (if truthy u then at_cli else at_return)
                 (frame_ret f) (frame_tmp f))
  | at_cli =>
      cli ;;
      ret (Frame at_read_USISR (frame_ret f) (frame_tmp f))
  | at_read_USISR =>
      tmp <- load USISR ;
      ret (Frame (if truthy (Z.land tmp (Z.shiftl 1 USIPF))
                  then at_set_state else at_sei)
                 (frame_ret f) tmp)
  | at_set_state =>
      store set_i2c_state I2C_STATE_IDLE ;;
      ret (Frame at_snapshot (frame_ret f) (frame_tmp f))
  | at_snapshot =>
      u <- load i2c_update ;
      ret (Frame at_clear u (frame_tmp f))
  | at_clear =>
      store set_i2c_update 0 ;;
      ret (Frame at_sei (frame_ret f) (frame_tmp f))
  | at_sei =>
      sei ;;
      ret (Frame at_return (frame_ret f) (frame_tmp f))
  | at_return => ret f
  end.

Definition handler (i : interrupt) : M unit :=
  match i with
  | IrqStart pinb => usi_start_isr cfg pinb
  | IrqOverflow => usi_overflow_isr cfg
  end.

(** Modelled from the spec: a single hardware thread with nested-disabled
    interrupts.  A requested handler is entered only while the global
    interrupt flag is set; entering clears the flag, so the handler runs to
    its end, and the return from interrupt sets it again.  While the flag
    is clear the request is not served. *)
Definition take_interrupt (i : interrupt) : M unit :=
  en <- load sreg_i ;
  if en : bool then
    store set_sreg_i false ;;
    handler i ;;
    store set_sreg_i true
  else ret tt.

Definition cpu_step (e : cpu_event) (c : check_stop_frame * state)
    : option (check_stop_frame * state) :=
  match e with
  | EvStep => check_stop_step (fst c) (snd c)
  | EvIrq i =>
      match take_interrupt i (snd c) with
      | Some (_, s') => Some (fst c, s')
      | None => None
      end
  | EvHw usidr usisr => Some (fst c, set_USISR usisr (set_USIDR usidr (snd c)))
  end.

(** A schedule: the poller's statements interleaved with interrupt
    requests and hardware activity, in the order they happen. *)
Fixpoint cpu_run (evs : list cpu_event) (c : check_stop_frame * state)
    : option (check_stop_frame * state) :=
  match evs with
  | [] => Some c
  | e :: evs' =>
      match cpu_step e c with
      | Some c' => cpu_run evs' c'
      | None => None
      end
  end.

End Interrupts.

(** What holds inside the critical section entered at state [s1], read off
    the statements executed so far; nothing is claimed once the poller has
    left it. *)
Definition critical_section_inv (s1 : state) (c : check_stop_frame * state)
    : Prop :=
  let f := fst c in
  let s := snd c in
  match frame_pc f with
  | at_test_state | at_test_update | at_cli => False
  | at_read_USISR =>
      sreg_i s = false /\ vars s = vars s1 /\ frame_ret f = 0
  | at_set_state =>
      sreg_i s = false /\ vars s = vars s1 /\ frame_ret f = 0 /\
      Z.testbit (frame_tmp f) USIPF = true
  | at_snapshot =>
      sreg_i s = false /\
      vars s = (i2c_update s1, I2C_STATE_IDLE, i2c_offset s1, post_ack s1,
                i2c_reg s1) /\
      frame_ret f = 0 /\ Z.testbit (frame_tmp f) USIPF = true
  | at_clear =>
      sreg_i s = false /\
      vars s = (i2c_update s1, I2C_STATE_IDLE, i2c_offset s1, post_ack s1,
                i2c_reg s1) /\
      frame_ret f = i2c_update s1 /\ Z.testbit (frame_tmp f) USIPF = true
  | at_sei =>
      sreg_i s = false /\
      if Z.testbit (frame_tmp f) USIPF
      then vars s = (0, I2C_STATE_IDLE, i2c_offset s1, post_ack s1,
                     i2c_reg s1) /\
           frame_ret f = i2c_update s1
      else vars s = vars s1 /\ frame_ret f = 0
  | at_return => True
  end.

(** What holds at every program point of the poller entered with
    [ret = 0]. *)
Definition check_stop_inv (c : check_stop_frame * state) : Prop :=
  match frame_pc (fst c) with
  | at_test_state | at_test_update | at_cli => frame_ret (fst c) = 0
  | at_read_USISR => frame_ret (fst c) = 0 /\ sreg_i (snd c) = false
  | at_set_state | at_snapshot | at_clear | at_sei => sreg_i (snd c) = false
  | at_return => True
  end.

(** ** Arithmetic of bytes and flags *)

#[local] Arguments Z.testbit : simpl never.
#[local] Arguments Z.shiftl : simpl never.
#[local] Arguments Z.shiftr : simpl never.
#[local] Arguments Z.land : simpl never.
#[local] Arguments Z.lor : simpl never.
#[local] Arguments Z.lnot : simpl never.
#[local] Arguments Z.modulo : simpl never.
#[local] Arguments Z.mul : simpl never.
#[local] Arguments Z.add : simpl never.

Lemma u8_byte x : byte (u8 x).
Proof. unfold byte, u8. apply Z.mod_pos_bound. lia. Qed.

Lemma u8_small x : byte x -> u8 x = x.
Proof. unfold byte, u8. intros H. apply Z.mod_small. exact H. Qed.

Lemma u8_testbit x p : 0 <= p < 8 -> Z.testbit (u8 x) p = Z.testbit x p.
Proof.
  intros Hp. unfold u8. change 256 with (2 ^ 8).
  apply Z.mod_pow2_bits_low. lia.
Qed.

Lemma u8_testbit_high x p : 8 <= p -> Z.testbit (u8 x) p = false.
Proof.
  intros Hp. unfold u8. change 256 with (2 ^ 8).
  apply Z.mod_pow2_bits_high. lia.
Qed.

Lemma byte_testbit_high x p : byte x -> 8 <= p -> Z.testbit x p = false.
Proof.
  intros Hx Hp. rewrite <- (u8_small x Hx). now apply u8_testbit_high.
Qed.

Lemma truthy_flag x k : 0 <= k -> truthy (Z.land x (Z.shiftl 1 k)) = Z.testbit x k.
Proof.
  intros Hk. unfold truthy. rewrite Z.shiftl_1_l.
  destruct (Z.testbit x k) eqn:Hb.
  - destruct (Z.eqb_spec (Z.land x (2 ^ k)) 0) as [E|]; [|reflexivity].
    exfalso. assert (Hc : Z.testbit (Z.land x (2 ^ k)) k = true).
    { rewrite Z.land_spec, Hb, Z.pow2_bits_true; auto. }
    rewrite E, Z.bits_0 in Hc. discriminate.
  - destruct (Z.eqb_spec (Z.land x (2 ^ k)) 0) as [|N]; [reflexivity|].
    exfalso. apply N. apply Z.bits_inj'. intros n Hn.
    rewrite Z.land_spec, Z.bits_0.
    destruct (Z.eq_dec n k) as [->|Hne].
    + now rewrite Hb.
    + rewrite (Z.pow2_bits_false k n) by lia. apply andb_false_r.
Qed.

Lemma truthy_lsb x : truthy (Z.land x 1) = Z.testbit x 0.
Proof. exact (truthy_flag x 0 (Z.le_refl 0)). Qed.

Lemma ddr_set_bit ddr k :
  0 <= k < 8 -> Z.testbit (u8 (Z.lor ddr (Z.shiftl 1 k))) k = true.
Proof.
  intros Hk. rewrite u8_testbit by lia.
  rewrite Z.lor_spec, Z.shiftl_1_l, Z.pow2_bits_true by lia.
  apply orb_true_r.
Qed.

Lemma ddr_clear_bit ddr k :
  0 <= k < 8 -> Z.testbit (u8 (Z.land ddr (Z.lnot (Z.shiftl 1 k)))) k = false.
Proof.
  intros Hk. rewrite u8_testbit by lia.
  rewrite Z.land_spec, Z.lnot_spec, Z.shiftl_1_l, Z.pow2_bits_true by lia.
  apply andb_false_r.
Qed.

Lemma shiftr1_byte d : byte d -> byte (Z.shiftr d 1).
Proof.
  unfold byte. intros H. rewrite Z.shiftr_div_pow2 by lia.
  change (2 ^ 1) with 2. split.
  - apply Z.div_pos; lia.
  - apply Z.div_lt_upper_bound; lia.
Qed.

(** ** Initialisation *)

Lemma i2c_init_total cfg s : exists s', i2c_init cfg s = Some (tt, s').
Proof. unfold i2c_init, bind, store, load, write_USISR. eauto. Qed.

Lemma i2c_init_state cfg s s' :
  exec (i2c_init cfg) s = Some s' -> i2c_state s' = 0.
Proof.
  unfold exec, i2c_init, bind, store, load, write_USISR. cbn.
  intros H. injection H as <-. reflexivity.
Qed.

(** C1, as the code has it: [i2c_init] always returns and leaves
    [i2c_state] at 0, which is I2C_STATE_ADDR_MATCH, the same value the
    declaration of [i2c_state] gives it at reset, and is not
    I2C_STATE_IDLE; [i2c_transaction_ongoing] then reports 0. *)
Theorem C1_init_state_addr_match (cfg : config) (s : state) :
  exists s',
    exec (i2c_init cfg) s = Some s' /\
    i2c_state s' = I2C_STATE_ADDR_MATCH /\
    i2c_state s' <> I2C_STATE_IDLE /\
    (forall regs, i2c_state (power_on regs) = I2C_STATE_ADDR_MATCH) /\
    i2c_transaction_ongoing s' = Some (0, s').
Proof.
  destruct (i2c_init_total cfg s) as [s' Hs'].
  assert (He : exec (i2c_init cfg) s = Some s') by (unfold exec; now rewrite Hs').
  pose proof (i2c_init_state cfg s s' He) as Hst.
  exists s'. repeat split.
  - exact He.
  - exact Hst.
  - rewrite Hst. discriminate.
  - unfold i2c_transaction_ongoing, bind, load. rewrite Hst. reflexivity.
Qed.

(** C1 fails as stated: after [i2c_init] on the reset state the protocol
    state is not I2C_STATE_IDLE. *)
Lemma C1_init_not_idle :
  ~ (forall s', exec (i2c_init (defs_example [0xFF; 0x0F])) (power_on [0; 0])
                = Some s' -> i2c_state s' = I2C_STATE_IDLE).
Proof.
  intros H. specialize (H _ eq_refl). vm_compute in H. discriminate.
Qed.

(** ** The overflow handler, branch by branch *)

Ltac isr_unfold :=
  unfold exec, usi_overflow_isr, usi_start_isr, i2c_check_stop,
    i2c_transaction_ongoing, i2c_init, spin_on_scl, w_mask_at, reg_at,
    reg_store, NAK, ACK, cli, sei, when, bind, load, store, ret, undefined,
    write_USISR.

Ltac isr_finish :=
  unfold overflow_exit; cbn;
  repeat match goal with
         | |- context [?a >? ?b] => destruct (a >? b); cbn
         end;
  reflexivity.

Section ExitFacts.

Variables (cfg : config) (sda tmp : Z) (s : state).

Lemma exit_state : i2c_state (overflow_exit cfg sda tmp s) = i2c_state s.
Proof. unfold overflow_exit. repeat case_match; reflexivity. Qed.

Lemma exit_update : i2c_update (overflow_exit cfg sda tmp s) = i2c_update s.
Proof. unfold overflow_exit. repeat case_match; reflexivity. Qed.

Lemma exit_post_ack : post_ack (overflow_exit cfg sda tmp s) = post_ack s.
Proof. unfold overflow_exit. repeat case_match; reflexivity. Qed.

Lemma exit_reg : i2c_reg (overflow_exit cfg sda tmp s) = i2c_reg s.
Proof. unfold overflow_exit. repeat case_match; reflexivity. Qed.

Lemma exit_USIDR : USIDR (overflow_exit cfg sda tmp s) = USIDR s.
Proof. unfold overflow_exit. repeat case_match; reflexivity. Qed.

Lemma exit_USI_PORT : USI_PORT (overflow_exit cfg sda tmp s) = USI_PORT s.
Proof. unfold overflow_exit. repeat case_match; reflexivity. Qed.

Lemma exit_USISR :
  USISR (overflow_exit cfg sda tmp s) = usisr_write (USISR s) tmp.
Proof. unfold overflow_exit. repeat case_match; reflexivity. Qed.

Lemma exit_offset :
  i2c_offset (overflow_exit cfg sda tmp s)
  = if i2c_offset s >? I2C_N_REG cfg - 1 then 0 else i2c_offset s.
Proof. unfold overflow_exit. repeat case_match; reflexivity. Qed.

Lemma exit_sda_out :
  0 <= I2C_SDA cfg < 8 ->
  Z.testbit (USI_DDR (overflow_exit cfg I2C_SDA_DIR_OUT tmp s)) (I2C_SDA cfg)
  = true.
Proof.
  intros H. unfold overflow_exit. cbn. case_match; cbn; now apply ddr_set_bit.
Qed.

Lemma exit_sda_in :
  0 <= I2C_SDA cfg < 8 ->
  Z.testbit (USI_DDR (overflow_exit cfg I2C_SDA_DIR_IN tmp s)) (I2C_SDA cfg)
  = false.
Proof.
  intros H. unfold overflow_exit. cbn. case_match; cbn; now apply ddr_clear_bit.
Qed.

End ExitFacts.

(** Resolves the load of the write mask from [effective_mask _ _ = Some _]. *)
Ltac load_mask Hm :=
  unfold effective_mask in Hm;
  match type of Hm with
  | context [I2C_GLOBAL_WRITE_MASK ?c] =>
      destruct (I2C_GLOBAL_WRITE_MASK c);
      [ injection Hm as Hm
      | match type of Hm with
        | context [?l !! ?i] =>
            destruct (l !! i); [cbn in Hm; injection Hm as Hm | discriminate]
        end ]
  end; cbn; rewrite Hm.

Section OverflowBranches.

Variables (cfg : config) (s : state).

(** Transition h *)
Lemma overflow_h :
  truthy (post_ack s) = false ->
  i2c_state s = I2C_STATE_ADDR_MATCH ->
  truthy (u8 (Z.shiftr (USIDR s) 1))
    && negb (u8 (Z.shiftr (USIDR s) 1) =? I2C_SLAVE_ADDR cfg) = true ->
  usi_overflow_isr cfg s
  = Some (tt, overflow_exit cfg I2C_SDA_DIR_OUT 0xDE
                (set_post_ack 1 (set_USIDR 0x80
                   (set_i2c_state I2C_STATE_IDLE s)))).
Proof.
  intros Hpa Hst Hm. isr_unfold. cbn. rewrite Hpa. cbn. rewrite Hst. cbn.
  rewrite Hm. isr_finish.
Qed.

(** Transition a *)
Lemma overflow_a :
  truthy (post_ack s) = false ->
  i2c_state s = I2C_STATE_ADDR_MATCH ->
  truthy (u8 (Z.shiftr (USIDR s) 1))
    && negb (u8 (Z.shiftr (USIDR s) 1) =? I2C_SLAVE_ADDR cfg) = false ->
  truthy (Z.land (USIDR s) 1) = false ->
  usi_overflow_isr cfg s
  = Some (tt, overflow_exit cfg I2C_SDA_DIR_OUT 0xDE
                (set_post_ack 1 (set_USIDR 0x00
                   (set_i2c_update 1
                      (set_i2c_state I2C_STATE_REG_ADDR
                         (set_i2c_offset 0 s)))))).
Proof.
  intros Hpa Hst Hm Hrw. isr_unfold. cbn. rewrite Hpa. cbn. rewrite Hst. cbn.
  rewrite Hm. cbn. rewrite Hrw. isr_finish.
Qed.

(** Transition b *)
Lemma overflow_b :
  truthy (post_ack s) = false ->
  i2c_state s = I2C_STATE_ADDR_MATCH ->
  truthy (u8 (Z.shiftr (USIDR s) 1))
    && negb (u8 (Z.shiftr (USIDR s) 1) =? I2C_SLAVE_ADDR cfg) = false ->
  truthy (Z.land (USIDR s) 1) = true ->
  usi_overflow_isr cfg s
  = Some (tt, overflow_exit cfg I2C_SDA_DIR_OUT 0xDE
                (set_post_ack 1 (set_USIDR 0x00
                   (set_i2c_state I2C_STATE_MASTER_READ s)))).
Proof.
  intros Hpa Hst Hm Hrw. isr_unfold. cbn. rewrite Hpa. cbn. rewrite Hst. cbn.
  rewrite Hm. cbn. rewrite Hrw. isr_finish.
Qed.

(** Transition i *)
Lemma overflow_i :
  truthy (post_ack s) = false ->
  i2c_state s = I2C_STATE_REG_ADDR ->
  (USIDR s >? I2C_N_REG cfg - 1) = true ->
  usi_overflow_isr cfg s
  = Some (tt, overflow_exit cfg I2C_SDA_DIR_OUT 0xDE
                (set_post_ack 1 (set_USIDR 0x80
                   (set_i2c_state I2C_STATE_IDLE s)))).
Proof.
  intros Hpa Hst Hm. isr_unfold. cbn. rewrite Hpa. cbn. rewrite Hst. cbn.
  rewrite Hm. isr_finish.
Qed.

(** Transition d *)
Lemma overflow_d :
  truthy (post_ack s) = false ->
  i2c_state s = I2C_STATE_REG_ADDR ->
  (USIDR s >? I2C_N_REG cfg - 1) = false ->
  usi_overflow_isr cfg s
  = Some (tt, overflow_exit cfg I2C_SDA_DIR_OUT 0xDE
                (set_post_ack 1 (set_USIDR 0x00
                   (set_i2c_state I2C_STATE_MASTER_WRITE
                      (set_i2c_offset (u8 (USIDR s)) s))))).
Proof.
  intros Hpa Hst Hm. isr_unfold. cbn. rewrite Hpa. cbn. rewrite Hst. cbn.
  rewrite Hm. isr_finish.
Qed.

(** Transition g.  [tmp] is the mask the handler works with. *)
Lemma overflow_g (tmp old : Z) :
  truthy (post_ack s) = false ->
  i2c_state s = I2C_STATE_MASTER_WRITE ->
  effective_mask cfg (i2c_offset s) = Some tmp ->
  truthy tmp = true ->
  i2c_reg s !! Z.to_nat (i2c_offset s) = Some old ->
  usi_overflow_isr cfg s
  = Some (tt, overflow_exit cfg I2C_SDA_DIR_OUT 0xDE
                (set_post_ack 1 (set_USIDR 0x00
                   (set_i2c_offset (u8 (i2c_offset s + 1))
                      (set_i2c_update (u8 (i2c_update s + 1))
                         (set_i2c_reg
                            (<[Z.to_nat (i2c_offset s) :=
                                 merge_masked old (USIDR s) tmp]> (i2c_reg s))
                            s)))))).
Proof.
  intros Hpa Hst Hm Ht Hold.
  pose proof (lookup_lt_Some _ _ _ Hold) as Hlt.
  isr_unfold. cbn. rewrite Hpa. cbn. rewrite Hst. cbn.
  load_mask Hm.
  all: rewrite Ht; cbn; rewrite Hold; cbn.
  all: destruct (decide (Z.to_nat (i2c_offset s) < length (i2c_reg s))%nat)
    as [_|N]; [|contradiction]; cbn.
  all: rewrite list_lookup_insert_eq by assumption; cbn.
  all: rewrite length_insert.
  all: destruct (decide (Z.to_nat (i2c_offset s) < length (i2c_reg s))%nat)
    as [_|N]; [|contradiction]; cbn.
  all: rewrite list_insert_insert_eq; isr_finish.
Qed.

(** Transition g on a register with no writable bit. *)
Lemma overflow_g_ro (tmp : Z) :
  truthy (post_ack s) = false ->
  i2c_state s = I2C_STATE_MASTER_WRITE ->
  effective_mask cfg (i2c_offset s) = Some tmp ->
  truthy tmp = false ->
  usi_overflow_isr cfg s
  = Some (tt, overflow_exit cfg I2C_SDA_DIR_OUT 0xDE
                (set_post_ack 1 (set_USIDR 0x00
                   (set_i2c_offset (u8 (i2c_offset s + 1))
                      (set_i2c_update (u8 (i2c_update s + 1)) s))))).
Proof.
  intros Hpa Hst Hm Ht.
  isr_unfold. cbn. rewrite Hpa. cbn. rewrite Hst. cbn.
  load_mask Hm.
  all: rewrite Ht; cbn; isr_finish.
Qed.

(** After the ACK slot nothing happens outside MASTER_READ. *)
Lemma overflow_post_idle :
  truthy (post_ack s) = true ->
  i2c_state s <> I2C_STATE_MASTER_READ ->
  usi_overflow_isr cfg s
  = Some (tt, overflow_exit cfg I2C_SDA_DIR_IN 0xD0 (set_post_ack 0 s)).
Proof.
  intros Hpa Hst. isr_unfold. cbn. rewrite Hpa. cbn.
  destruct (Z.eqb_spec (i2c_state s) I2C_STATE_MASTER_READ) as [E|_];
    [contradiction|]. isr_finish.
Qed.

End OverflowBranches.

(** ** Address match *)

Lemma addr_mismatch_iff (cfg : config) (d : Z) :
  byte d ->
  truthy (u8 (Z.shiftr d 1))
    && negb (u8 (Z.shiftr d 1) =? I2C_SLAVE_ADDR cfg) = true
  <-> Z.shiftr d 1 <> 0 /\ Z.shiftr d 1 <> I2C_SLAVE_ADDR cfg.
Proof.
  intros Hd. rewrite (u8_small _ (shiftr1_byte d Hd)). unfold truthy.
  rewrite andb_true_iff, !negb_true_iff, !Z.eqb_neq. reflexivity.
Qed.

(** C4: before the ACK slot in ADDR_MATCH, an address that is neither zero
    nor ours is NAKed and the state becomes IDLE; our address and the zero
    address are ACKed, going to REG_ADDR with the offset cleared and the
    update counter set when bit 0 is 0, and to MASTER_READ when bit 0 is 1. *)
Theorem C4_address_match (cfg : config) (s : state) :
  0 <= I2C_SDA cfg < 8 ->
  byte (USIDR s) ->
  post_ack s = 0 ->
  i2c_state s = I2C_STATE_ADDR_MATCH ->
  exists s',
    usi_overflow_isr cfg s = Some (tt, s') /\
    (Z.shiftr (USIDR s) 1 <> 0 /\ Z.shiftr (USIDR s) 1 <> I2C_SLAVE_ADDR cfg ->
       drives_nak cfg s' /\ i2c_state s' = I2C_STATE_IDLE) /\
    (Z.shiftr (USIDR s) 1 = 0 \/ Z.shiftr (USIDR s) 1 = I2C_SLAVE_ADDR cfg ->
       drives_ack cfg s' /\
       (Z.testbit (USIDR s) 0 = false ->
          i2c_state s' = I2C_STATE_REG_ADDR /\
          i2c_offset s' = 0 /\ i2c_update s' = 1) /\
       (Z.testbit (USIDR s) 0 = true ->
          i2c_state s' = I2C_STATE_MASTER_READ)).
Proof.
  intros Hsda Hd Hpa Hst.
  assert (Hpa' : truthy (post_ack s) = false) by (now rewrite Hpa).
  pose proof (addr_mismatch_iff cfg (USIDR s) Hd) as Hiff.
  destruct (truthy (u8 (Z.shiftr (USIDR s) 1))
            && negb (u8 (Z.shiftr (USIDR s) 1) =? I2C_SLAVE_ADDR cfg)) eqn:Hm.
  - (* transition h *)
    eexists. split; [now apply overflow_h|]. split.
    + intros _. unfold drives_nak.
      rewrite exit_USIDR, exit_state, exit_sda_out by assumption. now cbn.
    + intros [E|E]; destruct (proj1 Hiff eq_refl) as [N0 N1]; contradiction.
  - assert (Hno : ~ (Z.shiftr (USIDR s) 1 <> 0 /\
                     Z.shiftr (USIDR s) 1 <> I2C_SLAVE_ADDR cfg)).
    { intros H. apply Hiff in H. discriminate. }
    destruct (truthy (Z.land (USIDR s) 1)) eqn:Hrw;
      pose proof Hrw as Hbit; rewrite truthy_lsb in Hbit.
    + (* transition b *)
      eexists. split; [now apply overflow_b|]. split; [tauto|].
      intros _. unfold drives_ack.
      rewrite exit_USIDR, exit_state, exit_sda_out by assumption.
      split; [now cbn|]. split; intros Hb; [congruence|reflexivity].
    + (* transition a *)
      eexists. split; [now apply overflow_a|]. split; [tauto|].
      intros _. unfold drives_ack.
      rewrite exit_USIDR, exit_state, exit_update, exit_offset,
        exit_sda_out by assumption.
      split; [now cbn|]. split; intros Hb; [|congruence].
      cbn. repeat split. now destruct (0 >? I2C_N_REG cfg - 1).
Qed.

Lemma C4_address_match_witness :
  exists s',
    usi_overflow_isr (defs_example [0xFF; 0x0F])
      (set_USIDR 0x80 (power_on [0; 0])) = Some (tt, s') /\
    i2c_state s' = I2C_STATE_REG_ADDR /\ i2c_update s' = 1.
Proof.
  destruct (C4_address_match (defs_example [0xFF; 0x0F])
              (set_USIDR 0x80 (power_on [0; 0])))
    as (s' & Hs' & _ & Hack); cbn; unfold byte; try lia; try reflexivity.
  exists s'. split; [exact Hs'|].
  destruct Hack as (_ & Ha & _); [right; reflexivity|].
  destruct Ha as (H1 & _ & H3); [reflexivity|]. now split.
Defined.

(** ** Stop poller *)

(** The poller run as one piece: it always returns, fires exactly on
    MASTER_WRITE with a positive counter and the stop flag, and never
    touches the registers. *)
Lemma check_stop_sequential (s : state) :
  0 <= i2c_update s ->
  exists r s',
    i2c_check_stop s = Some (r, s') /\
    i2c_reg s' = i2c_reg s /\
    (i2c_state s = I2C_STATE_MASTER_WRITE /\ 0 < i2c_update s /\
     Z.testbit (USISR s) USIPF = true ->
       r = i2c_update s /\ r <> 0 /\
       i2c_state s' = I2C_STATE_IDLE /\ i2c_update s' = 0) /\
    (~ (i2c_state s = I2C_STATE_MASTER_WRITE /\ 0 < i2c_update s /\
        Z.testbit (USISR s) USIPF = true) ->
       r = 0 /\ i2c_state s' = i2c_state s /\
       i2c_update s' = i2c_update s) /\
    (r <> 0 <->
       i2c_state s = I2C_STATE_MASTER_WRITE /\ 0 < i2c_update s /\
       Z.testbit (USISR s) USIPF = true).
Proof.
  intros Hu.
  pose proof (truthy_flag (USISR s) USIPF) as Hpf.
  specialize (Hpf ltac:(unfold USIPF; lia)).
  isr_unfold. cbn.
  destruct (Z.eqb_spec (i2c_state s) I2C_STATE_MASTER_WRITE) as [Est|Nst];
    unfold truthy at 1;
    destruct (Z.eqb_spec (i2c_update s) 0) as [Eu|Nu]; cbn;
    try rewrite Hpf;
    destruct (Z.testbit (USISR s) USIPF) eqn:Epf; cbn;
    eexists; eexists; (split; [reflexivity|]); cbn;
    repeat split; try tauto; try lia; try congruence;
    try (intros (? & ? & ?); first [lia | congruence]);
    try (intros ?; exfalso; first [lia | congruence | tauto]).
Qed.

Ltac poll_cbn :=
  cbn [repeat cpu_run cpu_step fst snd check_stop_step frame_pc frame_ret
       frame_tmp cli sei bind load store ret andb].

Ltac poll_cbn_in H :=
  cbn [repeat cpu_run cpu_step fst snd check_stop_step frame_pc frame_ret
       frame_tmp cli sei bind load store ret andb] in H.

Lemma check_stop_statements (cfg : config) (s : state) :
  exists f s',
    cpu_run cfg (repeat EvStep 8) (check_stop_entry, s) = Some (f, s') /\
    frame_pc f = at_return /\
    i2c_check_stop s = Some (frame_ret f, s').
Proof.
  unfold i2c_check_stop, check_stop_entry. poll_cbn.
  destruct (i2c_state s =? I2C_STATE_MASTER_WRITE); poll_cbn;
    [destruct (truthy (i2c_update s)); poll_cbn;
     [change (USISR (set_sreg_i false s)) with (USISR s);
      destruct (truthy (Z.land (USISR s) (Z.shiftl 1 USIPF))); poll_cbn|]|];
    eexists; eexists; (split; [reflexivity|split; reflexivity]).
Qed.

(** While the interrupt flag is clear a request is not served. *)
Lemma irq_not_served (cfg : config) (i : interrupt)
    (c : check_stop_frame * state) :
  sreg_i (snd c) = false -> cpu_step cfg (EvIrq i) c = Some c.
Proof.
  intros H. destruct c as [f s]. cbn [cpu_step fst snd] in *.
  unfold take_interrupt, bind, load. rewrite H. reflexivity.
Qed.

Lemma cpu_step_frame (cfg : config) (e : cpu_event) c c' :
  cpu_step cfg e c = Some c' -> e <> EvStep -> fst c' = fst c.
Proof.
  intros H He. destruct e as [|i|d r]; [contradiction| |]; cbn [cpu_step] in H.
  - destruct (take_interrupt cfg i (snd c)) as [[[] s']|]; [|discriminate].
    injection H as H; subst; reflexivity.
  - injection H as H; subst; reflexivity.
Qed.

Lemma cpu_step_inv (cfg : config) (e : cpu_event) c c' :
  cpu_step cfg e c = Some c' -> check_stop_inv c -> check_stop_inv c'.
Proof.
  intros H Hinv. destruct c as [[p r t] s]. destruct e as [|i|d u].
  - unfold check_stop_inv in *. cbn [fst snd frame_pc frame_ret] in Hinv.
    destruct p; poll_cbn_in H; injection H as H; subst;
      cbn [fst snd frame_pc frame_ret];
      repeat match goal with
             | |- context [if ?b then _ else _] => destruct b
             end;
      cbn [frame_pc]; intuition.
  - destruct (sreg_i s) eqn:Hi.
    + pose proof (cpu_step_frame cfg _ _ _ H ltac:(discriminate)) as Hf.
      unfold check_stop_inv in *. rewrite Hf.
      cbn [fst snd frame_pc frame_ret] in *.
      destruct p; intuition congruence.
    + rewrite irq_not_served in H by exact Hi. injection H as H; subst; assumption.
  - cbn [cpu_step fst snd] in H. injection H as H; subst.
    unfold check_stop_inv in *. cbn [fst snd frame_pc frame_ret] in *.
    exact Hinv.
Qed.

Lemma cpu_run_inv (cfg : config) (evs : list cpu_event) c c' :
  cpu_run cfg evs c = Some c' -> check_stop_inv c -> check_stop_inv c'.
Proof.
  revert c. induction evs as [|e evs IH]; intros c H Hinv; cbn [cpu_run] in H.
  - injection H as H; subst; assumption.
  - destruct (cpu_step cfg e c) as [c1|] eqn:E; [|discriminate].
    apply (IH c1 H). exact (cpu_step_inv cfg e c c1 E Hinv).
Qed.

Lemma cpu_step_critical (cfg : config) (s1 : state) (e : cpu_event) c c' :
  cpu_step cfg e c = Some c' ->
  critical_section_inv s1 c -> critical_section_inv s1 c'.
Proof.
  intros H Hinv. destruct c as [[p r t] s]. destruct e as [|i|d u].
  - unfold critical_section_inv in *.
    cbn [fst snd frame_pc frame_ret frame_tmp] in Hinv.
    pose proof (truthy_flag (USISR s) USIPF ltac:(unfold USIPF; lia)) as Hpf.
    destruct p; try contradiction; poll_cbn_in H; injection H as H; subst;
      cbn [fst snd frame_pc frame_ret frame_tmp].
    + rewrite Hpf.
      destruct (Z.testbit (USISR s) USIPF) eqn:Eb;
        cbn [frame_pc frame_ret frame_tmp]; rewrite ?Eb; intuition.
    + unfold vars in *. cbn. intuition congruence.
    + unfold vars in *. cbn. intuition congruence.
    + destruct Hinv as (Hi & Hv & Hr & Ht). rewrite Ht.
      unfold vars in *. cbn. intuition congruence.
    + exact I.
    + exact I.
  - assert (Hi : sreg_i s = false \/ p = at_return).
    { unfold critical_section_inv in Hinv.
      cbn [fst snd frame_pc] in Hinv.
      destruct p; try contradiction; intuition. }
    destruct Hi as [Hi | ->].
    + rewrite irq_not_served in H by exact Hi. injection H as H; subst; assumption.
    + pose proof (cpu_step_frame cfg _ _ _ H ltac:(discriminate)) as Hf.
      unfold critical_section_inv. rewrite Hf. exact I.
  - cbn [cpu_step fst snd] in H. injection H as H; subst.
    unfold critical_section_inv in *. exact Hinv.
Qed.

Lemma cpu_run_critical (cfg : config) (s1 : state) (evs : list cpu_event)
    c c' :
  cpu_run cfg evs c = Some c' ->
  critical_section_inv s1 c -> critical_section_inv s1 c'.
Proof.
  revert c. induction evs as [|e evs IH]; intros c H Hinv; cbn [cpu_run] in H.
  - injection H as H; subst; assumption.
  - destruct (cpu_step cfg e c) as [c1|] eqn:E; [|discriminate].
    apply (IH c1 H). exact (cpu_step_critical cfg s1 e c c1 E Hinv).
Qed.

Lemma cpu_run_app (cfg : config) (evs1 evs2 : list cpu_event) c :
  cpu_run cfg (evs1 ++ evs2) c
  = match cpu_run cfg evs1 c with
    | Some c1 => cpu_run cfg evs2 c1
    | None => None
    end.
Proof.
  revert c. induction evs1 as [|e evs1 IH]; intros c; cbn [cpu_run app].
  - reflexivity.
  - destruct (cpu_step cfg e c); [apply IH|reflexivity].
Qed.

(** C5: [i2c_check_stop] always returns; when the state is MASTER_WRITE,
    the update counter is positive and the stop flag of USISR is set, it
    returns the counter, which is not zero, sets the state to IDLE and
    clears the counter; otherwise it returns 0 and leaves state, counter
    and registers as they were.  The register array is never touched.
    The same result is reached by the statements of the function executed
    one by one.  The update is atomic: in every schedule of the poller's
    statements with interrupt requests and hardware activity, the
    interrupt flag is clear at each program point between cli() and sei(),
    so no handler is served there; and whatever is requested meanwhile,
    when the poller reaches sei() it has either found the stop flag in the
    value it read from USISR, returns the counter as it was when
    interrupts were disabled and has set the state to IDLE and the counter
    to 0, or has not found it and left every variable as it was; sei()
    then enables interrupts again. *)
Theorem C5_check_stop (cfg : config) (s : state) :
  0 <= i2c_update s ->
  (exists r s',
    i2c_check_stop s = Some (r, s') /\
    i2c_reg s' = i2c_reg s /\
    (i2c_state s = I2C_STATE_MASTER_WRITE /\ 0 < i2c_update s /\
     Z.testbit (USISR s) USIPF = true ->
       r = i2c_update s /\ r <> 0 /\
       i2c_state s' = I2C_STATE_IDLE /\ i2c_update s' = 0) /\
    (~ (i2c_state s = I2C_STATE_MASTER_WRITE /\ 0 < i2c_update s /\
        Z.testbit (USISR s) USIPF = true) ->
       r = 0 /\ i2c_state s' = i2c_state s /\
       i2c_update s' = i2c_update s) /\
    (r <> 0 <->
       i2c_state s = I2C_STATE_MASTER_WRITE /\ 0 < i2c_update s /\
       Z.testbit (USISR s) USIPF = true) /\
    exists f,
      cpu_run cfg (repeat EvStep 8) (check_stop_entry, s) = Some (f, s') /\
      frame_pc f = at_return /\ frame_ret f = r) /\
  (forall evs f1 s1,
     cpu_run cfg evs (check_stop_entry, s) = Some (f1, s1) ->
     in_critical_section (frame_pc f1) = true ->
     sreg_i s1 = false /\
     forall i, cpu_step cfg (EvIrq i) (f1, s1) = Some (f1, s1)) /\
  (forall evs1 f1 s1 evs2 f2 s2,
     cpu_run cfg evs1 (check_stop_entry, s) = Some (f1, s1) ->
     frame_pc f1 = at_read_USISR ->
     cpu_run cfg evs2 (f1, s1) = Some (f2, s2) ->
     frame_pc f2 = at_sei ->
     (if Z.testbit (frame_tmp f2) USIPF
      then frame_ret f2 = i2c_update s1 /\
           vars s2 = (0, I2C_STATE_IDLE, i2c_offset s1, post_ack s1,
                      i2c_reg s1)
      else frame_ret f2 = 0 /\ vars s2 = vars s1) /\
     cpu_step cfg EvStep (f2, s2)
     = Some (Frame at_return (frame_ret f2) (frame_tmp f2),
             set_sreg_i true s2)).
Proof.
  intros Hu. split; [|split].
  - destruct (check_stop_sequential s Hu)
      as (r & s' & Hr & Hreg & Hyes & Hno & Hiff).
    exists r, s'. repeat (split; [assumption|]).
    destruct (check_stop_statements cfg s) as (f & s2 & Hrun & Hpc & Hseq).
    rewrite Hr in Hseq. injection Hseq as Hret Hs. subst s2.
    exists f. auto.
  - intros evs f1 s1 Hrun Hpc.
    pose proof (cpu_run_inv cfg evs _ _ Hrun eq_refl) as Hinv.
    assert (Hi : sreg_i s1 = false).
    { unfold check_stop_inv in Hinv. cbn [fst snd] in Hinv.
      destruct (frame_pc f1); try discriminate; intuition. }
    split; [exact Hi|]. intros i. now apply irq_not_served.
  - intros evs1 f1 s1 evs2 f2 s2 Hrun1 Hpc1 Hrun2 Hpc2.
    pose proof (cpu_run_inv cfg evs1 _ _ Hrun1 eq_refl) as Hinv.
    unfold check_stop_inv in Hinv. cbn [fst snd] in Hinv.
    rewrite Hpc1 in Hinv. destruct Hinv as [Hret Hi].
    assert (Hc1 : critical_section_inv s1 (f1, s1)).
    { unfold critical_section_inv. cbn [fst snd]. rewrite Hpc1. auto. }
    pose proof (cpu_run_critical cfg s1 evs2 _ _ Hrun2 Hc1) as Hc2.
    unfold critical_section_inv in Hc2. cbn [fst snd] in Hc2.
    rewrite Hpc2 in Hc2. destruct Hc2 as [_ Hc2]. split.
    + destruct (Z.testbit (frame_tmp f2) USIPF); intuition.
    + destruct f2 as [p r t]. cbn [frame_pc] in Hpc2. subst p. reflexivity.
Qed.

Lemma C5_check_stop_witness :
  let s0 := set_sreg_i true (set_USISR 0x20 (set_i2c_update 2
              (set_i2c_state I2C_STATE_MASTER_WRITE (power_on [0; 0])))) in
  let cfg := defs_example [0xFF; 0x0F] in
  (exists r s',
     i2c_check_stop s0 = Some (r, s') /\ r = 2 /\
     i2c_state s' = I2C_STATE_IDLE) /\
  (exists f2 s2,
     cpu_run cfg
       ([EvStep; EvIrq IrqOverflow; EvStep; EvStep] ++
        [EvIrq IrqOverflow; EvStep; EvIrq (IrqStart [0]); EvStep;
         EvHw 0x55 0x00; EvStep; EvIrq IrqOverflow; EvStep])
       (check_stop_entry, s0) = Some (f2, s2) /\
     frame_pc f2 = at_sei /\ frame_ret f2 = 3 /\
     i2c_state s2 = I2C_STATE_IDLE /\ i2c_update s2 = 0 /\
     sreg_i s2 = false).
Proof.
  intros s0 cfg.
  destruct (C5_check_stop cfg s0 ltac:(cbn; lia)) as (Hseq & Hcrit & Hatom).
  split.
  - destruct Hseq as (r & s' & Hr & _ & Hyes & _).
    exists r, s'. split; [exact Hr|].
    destruct Hyes as (H1 & _ & H3 & _).
    + cbn. repeat split.
    + now split.
  - destruct (cpu_run cfg [EvStep; EvIrq IrqOverflow; EvStep; EvStep]
                (check_stop_entry, s0)) as [[f1 s1]|] eqn:E1;
      [|vm_compute in E1; discriminate].
    destruct (cpu_run cfg
                [EvIrq IrqOverflow; EvStep; EvIrq (IrqStart [0]); EvStep;
                 EvHw 0x55 0x00; EvStep; EvIrq IrqOverflow; EvStep]
                (f1, s1)) as [[f2 s2]|] eqn:E2;
      [|vm_compute in E1; injection E1 as Hf Hs; subst f1 s1;
        vm_compute in E2; discriminate].
    assert (Hpc1 : frame_pc f1 = at_read_USISR).
    { vm_compute in E1. injection E1 as Hf Hs. subst f1. reflexivity. }
    assert (Hu1 : i2c_update s1 = 3).
    { vm_compute in E1. injection E1 as Hf Hs. subst s1. reflexivity. }
    assert (Hpc2 : frame_pc f2 = at_sei /\
                   Z.testbit (frame_tmp f2) USIPF = true).
    { vm_compute in E1. injection E1 as Hf Hs. subst f1 s1.
      vm_compute in E2. injection E2 as Hf Hs. subst f2. split; reflexivity. }
    destruct Hpc2 as [Hpc2 Htmp].
    destruct (Hatom _ f1 s1 _ f2 s2 E1 Hpc1 E2 Hpc2) as [Hres _].
    destruct (Hcrit _ f2 s2 ltac:(rewrite (cpu_run_app cfg), E1; exact E2)
                ltac:(rewrite Hpc2; reflexivity)) as [Hi _].
    rewrite Htmp in Hres. destruct Hres as [Hret Hv].
    exists f2, s2. split; [rewrite (cpu_run_app cfg), E1; exact E2|].
    unfold vars in Hv. injection Hv as Hupd Hst _ _ _.
    repeat split; congruence.
Defined.

(** ** Master write, one byte *)

Lemma effective_write_mask cfg off m :
  write_mask cfg (Z.to_nat off) = Some m ->
  effective_mask cfg off = Some (u8 m).
Proof.
  unfold write_mask, effective_mask.
  destruct (I2C_GLOBAL_WRITE_MASK cfg); [now intros [= ->]|].
  now intros ->.
Qed.

Lemma masked_write_testbit old d m p :
  Z.testbit (masked_write old d m) p
  = (Z.testbit old p && negb (Z.testbit m p)) || (Z.testbit d p && Z.testbit m p).
Proof.
  unfold masked_write.
  destruct (Z.neg_nonneg_cases p) as [Hp|Hp].
  - now rewrite !Z.testbit_neg_r.
  - now rewrite Z.lor_spec, !Z.land_spec, Z.lnot_spec.
Qed.

Lemma merge_masked_testbit old d tmp p :
  0 <= p < 8 ->
  Z.testbit (merge_masked old d tmp) p
  = (Z.testbit old p && negb (Z.testbit tmp p))
    || (Z.testbit d p && Z.testbit tmp p).
Proof.
  intros Hp. unfold merge_masked.
  rewrite u8_testbit, Z.lor_spec, u8_testbit, !Z.land_spec, Z.lnot_spec by lia.
  reflexivity.
Qed.

Lemma merge_masked_spec old d m :
  byte old -> byte d ->
  merge_masked old d (u8 m) = masked_write old d (u8 m).
Proof.
  intros Hold Hd. apply Z.bits_inj'. intros p Hp.
  rewrite masked_write_testbit.
  destruct (Z.lt_ge_cases p 8) as [Hlt|Hge].
  - apply merge_masked_testbit. lia.
  - unfold merge_masked. rewrite u8_testbit_high by lia.
    rewrite (byte_testbit_high old), (byte_testbit_high d) by assumption.
    reflexivity.
Qed.

Lemma masked_write_byte old d m : byte old -> byte d -> byte (masked_write old d (u8 m)).
Proof.
  intros Hold Hd. rewrite <- merge_masked_spec by assumption. apply u8_byte.
Qed.

Lemma masked_write_0 old d : masked_write old d 0 = old.
Proof.
  unfold masked_write. rewrite Z.land_0_r, Z.lor_0_r.
  change (Z.lnot 0) with (-1). apply Z.land_m1_r.
Qed.

Lemma truthy_false x : truthy x = false <-> x = 0.
Proof. unfold truthy. rewrite negb_false_iff. apply Z.eqb_eq. Qed.

Lemma truthy_true x : truthy x = true <-> x <> 0.
Proof. unfold truthy. rewrite negb_true_iff. apply Z.eqb_neq. Qed.

Lemma exit_offset_next cfg off :
  0 <= off < I2C_N_REG cfg -> I2C_N_REG cfg <= 256 ->
  (if u8 (off + 1) >? I2C_N_REG cfg - 1 then 0 else u8 (off + 1))
  = next_offset cfg off.
Proof.
  intros Hoff Hn. unfold next_offset, u8.
  destruct (Z.eqb_spec (off + 1) (I2C_N_REG cfg)) as [E|N].
  - destruct (Z.eq_dec (off + 1) 256) as [E'|N'].
    + rewrite E'. change (256 mod 256) with 0. now destruct (0 >? _).
    + rewrite Z.mod_small by lia. destruct (Z.gtb_spec (off + 1) (I2C_N_REG cfg - 1)); lia.
  - rewrite Z.mod_small by lia.
    destruct (Z.gtb_spec (off + 1) (I2C_N_REG cfg - 1)); lia.
Qed.

Lemma next_offset_range cfg off :
  0 <= off < I2C_N_REG cfg -> 0 <= next_offset cfg off < I2C_N_REG cfg.
Proof.
  intros H. unfold next_offset. destruct (Z.eqb_spec (off + 1) (I2C_N_REG cfg)); lia.
Qed.

(** C8: before the ACK slot in MASTER_WRITE the register under the offset
    becomes [(old & ~mask) | (received & mask)], the byte is ACKed, the
    update counter is incremented (as a byte) and the offset is incremented,
    going back to 0 when it reaches I2C_N_REG. *)
Theorem C8_master_write_byte (cfg : config) (s : state) (old mask : Z) :
  0 <= I2C_SDA cfg < 8 ->
  I2C_N_REG cfg <= 256 ->
  post_ack s = 0 ->
  i2c_state s = I2C_STATE_MASTER_WRITE ->
  0 <= i2c_offset s < I2C_N_REG cfg ->
  i2c_reg s !! Z.to_nat (i2c_offset s) = Some old ->
  write_mask cfg (Z.to_nat (i2c_offset s)) = Some mask ->
  byte old -> byte mask -> byte (USIDR s) ->
  exists s',
    usi_overflow_isr cfg s = Some (tt, s') /\
    i2c_reg s'
    = <[Z.to_nat (i2c_offset s) := masked_write old (USIDR s) mask]> (i2c_reg s) /\
    drives_ack cfg s' /\
    i2c_update s' = (i2c_update s + 1) mod 256 /\
    i2c_offset s' = next_offset cfg (i2c_offset s) /\
    i2c_state s' = I2C_STATE_MASTER_WRITE.
Proof.
  intros Hsda Hn Hpa Hst Hoff Hold Hmask Bold Bmask Bd.
  apply truthy_false in Hpa.
  pose proof (effective_write_mask _ _ _ Hmask) as Hm.
  rewrite (u8_small mask Bmask) in Hm.
  destruct (truthy mask) eqn:Ht.
  - eexists. split; [now apply (overflow_g cfg s mask old)|].
    unfold drives_ack.
    rewrite exit_reg, exit_USIDR, exit_update, exit_offset, exit_state,
      exit_sda_out by assumption. cbn.
    rewrite <- (u8_small mask Bmask) at 1.
    rewrite merge_masked_spec, (u8_small mask Bmask) by assumption.
    rewrite exit_offset_next by assumption. repeat split; assumption.
  - eexists. split; [now apply (overflow_g_ro cfg s mask)|].
    unfold drives_ack.
    rewrite exit_reg, exit_USIDR, exit_update, exit_offset, exit_state,
      exit_sda_out by assumption. cbn.
    apply truthy_false in Ht. subst mask.
    rewrite masked_write_0, list_insert_id by assumption.
    rewrite exit_offset_next by assumption. repeat split; assumption.
Qed.

Lemma C8_master_write_byte_witness :
  exists s',
    usi_overflow_isr (defs_example [0xFF; 0x0F])
      (set_USIDR 0xF5 (set_i2c_offset 1
         (set_i2c_state I2C_STATE_MASTER_WRITE (power_on [0; 0]))))
    = Some (tt, s') /\
    i2c_reg s' = [0; 0x05] /\ i2c_offset s' = 0.
Proof.
  destruct (C8_master_write_byte (defs_example [0xFF; 0x0F])
              (set_USIDR 0xF5 (set_i2c_offset 1
                 (set_i2c_state I2C_STATE_MASTER_WRITE (power_on [0; 0]))))
              0 0x0F)
    as (s' & Hs' & Hreg & _ & _ & Hoff & _).
  all: try (vm_compute; intuition congruence).
  exists s'. split; [exact Hs'|]. split; [exact Hreg|exact Hoff].
Defined.

(** ** Bus events and the firmware variables *)

Lemma run_bus_app cfg es1 es2 s :
  run_bus cfg (es1 ++ es2) s
  = match run_bus cfg es1 s with
    | Some s' => run_bus cfg es2 s'
    | None => None
    end.
Proof.
  revert s. induction es1 as [|e es1 IH]; intros s; cbn; [reflexivity|].
  destruct (run_event cfg e s); [apply IH|reflexivity].
Qed.

Lemma run_start cfg pinb s :
  wait_scl_low cfg pinb = Some tt ->
  exists s',
    run_event cfg (START pinb) s = Some s' /\
    vars s' = (i2c_update s, I2C_STATE_ADDR_MATCH, i2c_offset s, post_ack s,
               i2c_reg s).
Proof.
  intros Hw. cbn. isr_unfold. cbn. rewrite Hw. eexists. split; reflexivity.
Qed.

Lemma run_stop cfg s :
  exists s',
    run_event cfg STOP s = Some s' /\ vars s' = vars s /\
    Z.testbit (USISR s') USIPF = true.
Proof.
  eexists. split; [reflexivity|]. split; [reflexivity|].
  cbn. rewrite Z.lor_spec, Z.shiftl_1_l, Z.pow2_bits_true by (unfold USIPF; lia).
  apply orb_true_r.
Qed.

(** A byte from the master: if the handler, run on the shifted-in byte,
    leaves a state other than MASTER_READ, the second run of the handler
    only closes the ACK slot. *)
Lemma run_byte cfg b s s1 :
  usi_overflow_isr cfg (hw_shift_in b s) = Some (tt, s1) ->
  post_ack s1 = 1 ->
  i2c_state s1 <> I2C_STATE_MASTER_READ ->
  0 <= i2c_offset s1 <= I2C_N_REG cfg - 1 ->
  exists s',
    run_event cfg (BYTE b) s = Some s' /\
    vars s' = (i2c_update s1, i2c_state s1, i2c_offset s1, 0, i2c_reg s1).
Proof.
  intros H1 Hpa Hst Hoff.
  change (run_event cfg (BYTE b) s)
    with (match exec (usi_overflow_isr cfg) (hw_shift_in b s) with
          | Some s1 => exec (usi_overflow_isr cfg) (hw_ack_clock cfg s1)
          | None => None
          end).
  unfold exec. rewrite H1, overflow_post_idle.
  - eexists. split; [reflexivity|]. unfold vars.
    rewrite exit_update, exit_state, exit_offset, exit_post_ack, exit_reg.
    cbn. destruct (Z.gtb_spec (i2c_offset s1) (I2C_N_REG cfg - 1)); [lia|].
    reflexivity.
  - cbn. now rewrite Hpa.
  - exact Hst.
Qed.

Lemma addr_match_bool (cfg : config) (d : Z) :
  byte d ->
  Z.shiftr d 1 = 0 \/ Z.shiftr d 1 = I2C_SLAVE_ADDR cfg ->
  truthy (u8 (Z.shiftr d 1))
    && negb (u8 (Z.shiftr d 1) =? I2C_SLAVE_ADDR cfg) = false.
Proof.
  intros Bd Hm.
  destruct (truthy (u8 (Z.shiftr d 1))
            && negb (u8 (Z.shiftr d 1) =? I2C_SLAVE_ADDR cfg)) eqn:E;
    [|reflexivity].
  apply (addr_mismatch_iff cfg d Bd) in E. tauto.
Qed.

Section ByteKinds.

Variables (cfg : config) (s : state).

Hypothesis Hpa : post_ack s = 0.

(** The address byte with the write bit. *)
Lemma run_byte_addr_w (a : Z) :
  i2c_state s = I2C_STATE_ADDR_MATCH ->
  0 < I2C_N_REG cfg ->
  byte a ->
  Z.shiftr a 1 = 0 \/ Z.shiftr a 1 = I2C_SLAVE_ADDR cfg ->
  Z.testbit a 0 = false ->
  exists s',
    run_event cfg (BYTE a) s = Some s' /\
    vars s' = (1, I2C_STATE_REG_ADDR, 0, 0, i2c_reg s).
Proof.
  intros Hst Hn Ba Hm Hw.
  edestruct (run_byte cfg a s) as (s' & Hs' & Hv).
  - apply overflow_a.
    + cbn. now rewrite Hpa.
    + exact Hst.
    + cbn. rewrite (u8_small a Ba). now apply addr_match_bool.
    + cbn. rewrite (u8_small a Ba), truthy_lsb. exact Hw.
  - now rewrite exit_post_ack.
  - rewrite exit_state. cbn. discriminate.
  - rewrite exit_offset. cbn.
    destruct (Z.gtb_spec 0 (I2C_N_REG cfg - 1)); lia.
  - exists s'. split; [exact Hs'|]. rewrite Hv.
    rewrite exit_update, exit_state, exit_offset, exit_reg. cbn.
    destruct (Z.gtb_spec 0 (I2C_N_REG cfg - 1)); reflexivity.
Qed.

(** The register-offset byte, in range. *)
Lemma run_byte_offset (b : Z) :
  i2c_state s = I2C_STATE_REG_ADDR ->
  0 <= b < I2C_N_REG cfg ->
  b < 256 ->
  exists s',
    run_event cfg (BYTE b) s = Some s' /\
    vars s' = (i2c_update s, I2C_STATE_MASTER_WRITE, b, 0, i2c_reg s).
Proof.
  intros Hst Hb Hb'.
  assert (Bb : byte b) by (unfold byte; lia).
  assert (Hgt : (u8 b >? I2C_N_REG cfg - 1) = false).
  { rewrite (u8_small b Bb). destruct (Z.gtb_spec b (I2C_N_REG cfg - 1)); lia. }
  edestruct (run_byte cfg b s) as (s' & Hs' & Hv).
  - apply overflow_d.
    + cbn. now rewrite Hpa.
    + exact Hst.
    + cbn. exact Hgt.
  - now rewrite exit_post_ack.
  - rewrite exit_state. cbn. discriminate.
  - rewrite exit_offset. cbn. rewrite (u8_small (u8 b) (u8_byte b)), Hgt.
    rewrite (u8_small b Bb). lia.
  - exists s'. split; [exact Hs'|]. rewrite Hv.
    rewrite exit_update, exit_state, exit_offset, exit_reg. cbn.
    rewrite (u8_small (u8 b) (u8_byte b)), Hgt, (u8_small b Bb). reflexivity.
Qed.

(** The register-offset byte, out of range. *)
Lemma run_byte_offset_bad (b : Z) :
  i2c_state s = I2C_STATE_REG_ADDR ->
  0 < I2C_N_REG cfg ->
  0 <= i2c_offset s < I2C_N_REG cfg ->
  I2C_N_REG cfg <= b < 256 ->
  exists s',
    run_event cfg (BYTE b) s = Some s' /\
    vars s' = (i2c_update s, I2C_STATE_IDLE, i2c_offset s, 0, i2c_reg s).
Proof.
  intros Hst Hn Hoff Hb.
  assert (Bb : byte b) by (unfold byte; lia).
  assert (Hgt : (u8 b >? I2C_N_REG cfg - 1) = true).
  { rewrite (u8_small b Bb). destruct (Z.gtb_spec b (I2C_N_REG cfg - 1)); lia. }
  assert (Hc : (i2c_offset s >? I2C_N_REG cfg - 1) = false).
  { destruct (Z.gtb_spec (i2c_offset s) (I2C_N_REG cfg - 1)); lia. }
  edestruct (run_byte cfg b s) as (s' & Hs' & Hv).
  - apply overflow_i.
    + cbn. now rewrite Hpa.
    + exact Hst.
    + cbn. exact Hgt.
  - now rewrite exit_post_ack.
  - rewrite exit_state. cbn. discriminate.
  - rewrite exit_offset. cbn. rewrite Hc. lia.
  - exists s'. split; [exact Hs'|]. rewrite Hv.
    rewrite exit_update, exit_state, exit_offset, exit_reg. cbn.
    rewrite Hc. reflexivity.
Qed.

(** A data byte. *)
Lemma run_byte_data (d old mask : Z) :
  i2c_state s = I2C_STATE_MASTER_WRITE ->
  I2C_N_REG cfg <= 256 ->
  0 <= i2c_offset s < I2C_N_REG cfg ->
  i2c_reg s !! Z.to_nat (i2c_offset s) = Some old ->
  write_mask cfg (Z.to_nat (i2c_offset s)) = Some mask ->
  byte old -> byte mask -> byte d ->
  exists s',
    run_event cfg (BYTE d) s = Some s' /\
    vars s' = (u8 (i2c_update s + 1), I2C_STATE_MASTER_WRITE,
               next_offset cfg (i2c_offset s), 0,
               <[Z.to_nat (i2c_offset s) := masked_write old d mask]>
                 (i2c_reg s)).
Proof.
  intros Hst Hn Hoff Hold Hmask Bold Bmask Bd.
  pose proof (effective_write_mask _ _ _ Hmask) as Hm.
  rewrite (u8_small mask Bmask) in Hm.
  pose proof (next_offset_range cfg _ Hoff) as Hnext.
  destruct (truthy mask) eqn:Ht.
  - edestruct (run_byte cfg d s) as (s' & Hs' & Hv).
    + apply (overflow_g cfg _ mask old); cbn; try assumption.
      now rewrite Hpa.
    + now rewrite exit_post_ack.
    + rewrite exit_state. cbn. rewrite Hst. discriminate.
    + rewrite exit_offset. cbn. rewrite exit_offset_next by assumption. lia.
    + exists s'. split; [exact Hs'|]. rewrite Hv.
      rewrite exit_update, exit_state, exit_offset, exit_reg. cbn.
      rewrite exit_offset_next, Hst by assumption.
      rewrite (u8_small d Bd).
      rewrite <- (u8_small mask Bmask) at 1.
      rewrite merge_masked_spec, (u8_small mask Bmask) by assumption.
      reflexivity.
  - edestruct (run_byte cfg d s) as (s' & Hs' & Hv).
    + apply (overflow_g_ro cfg _ mask); cbn; try assumption.
      now rewrite Hpa.
    + now rewrite exit_post_ack.
    + rewrite exit_state. cbn. rewrite Hst. discriminate.
    + rewrite exit_offset. cbn. rewrite exit_offset_next by assumption. lia.
    + exists s'. split; [exact Hs'|]. rewrite Hv.
      rewrite exit_update, exit_state, exit_offset, exit_reg. cbn.
      rewrite exit_offset_next, Hst by assumption.
      apply truthy_false in Ht. subst mask.
      rewrite masked_write_0, list_insert_id by assumption.
      reflexivity.
Qed.

End ByteKinds.

(** ** Write transactions *)

Lemma wf_lookup cfg reg off :
  wf_config cfg -> wf_regs cfg reg -> 0 <= off < I2C_N_REG cfg ->
  exists old mask,
    reg !! Z.to_nat off = Some old /\
    write_mask cfg (Z.to_nat off) = Some mask /\
    byte old /\ byte mask.
Proof.
  intros [Hn Hm] [Hlen Hb] Hoff.
  assert (Hlt : (Z.to_nat off < Z.to_nat (I2C_N_REG cfg))%nat) by lia.
  destruct (lookup_lt_is_Some_2 reg (Z.to_nat off)) as [old Hold]; [lia|].
  assert (Bold : byte old) by exact (Forall_lookup_1 byte _ _ _ Hb Hold).
  unfold write_mask. destruct (I2C_GLOBAL_WRITE_MASK cfg) as [g|].
  - exists old, g. exact (conj Hold (conj eq_refl (conj Bold Hm))).
  - destruct Hm as [Hlm Hbm].
    destruct (lookup_lt_is_Some_2 (i2c_w_mask cfg) (Z.to_nat off)) as [m Hmm];
      [lia|].
    assert (Bm : byte m) by exact (Forall_lookup_1 byte _ _ _ Hbm Hmm).
    exists old, m. exact (conj Hold (conj Hmm (conj Bold Bm))).
Qed.

Lemma u8_succ_l u n : u8 (u8 (u + 1) + n) = u8 (u + (1 + n)).
Proof. unfold u8. rewrite Zplus_mod_idemp_l. f_equal. lia. Qed.

(** A burst of data bytes in MASTER_WRITE. *)
Lemma run_data_bytes (cfg : config) :
  wf_config cfg ->
  forall (ds : list Z) (s : state),
    Forall byte ds ->
    post_ack s = 0 ->
    i2c_state s = I2C_STATE_MASTER_WRITE ->
    byte (i2c_update s) ->
    0 <= i2c_offset s < I2C_N_REG cfg ->
    wf_regs cfg (i2c_reg s) ->
    exists s',
      run_bus cfg (BYTE <$> ds) s = Some s' /\
      vars s' = (u8 (i2c_update s + Z.of_nat (length ds)),
                 I2C_STATE_MASTER_WRITE,
                 (write_burst cfg (i2c_offset s) ds (i2c_reg s)).1, 0,
                 (write_burst cfg (i2c_offset s) ds (i2c_reg s)).2).
Proof.
  intros Hcfg ds.
  induction ds as [|d ds IH]; intros s Hds Hpa Hst Hu Hoff Hreg.
  - exists s. split; [reflexivity|]. cbn. unfold vars.
    rewrite Hpa, Hst, Z.add_0_r, (u8_small _ Hu). reflexivity.
  - destruct (wf_lookup cfg _ _ Hcfg Hreg Hoff)
      as (old & mask & Hold & Hmask & Bold & Bmask).
    apply Forall_cons in Hds as [Bd Hds].
    destruct (run_byte_data cfg s Hpa d old mask) as (s1 & Hs1 & Hv1);
      try assumption; [apply Hcfg|].
    injection Hv1 as Hu1 Hst1 Hoff1 Hpa1 Hreg1.
    destruct (IH s1) as (s' & Hs' & Hv'); try assumption.
    + rewrite Hu1. apply u8_byte.
    + rewrite Hoff1. now apply next_offset_range.
    + rewrite Hreg1. destruct Hreg as [Hlen Hb]. split.
      * now rewrite length_insert.
      * apply Forall_insert; [assumption|].
        rewrite <- (u8_small mask Bmask). now apply masked_write_byte.
    + exists s'. split.
      * cbn [fmap list_fmap run_bus]. change (run_bus cfg (BYTE d :: (BYTE <$> ds)) s
          = Some s'). cbn [run_bus]. rewrite Hs1. exact Hs'.
      * rewrite Hv', Hu1, Hoff1, Hreg1. cbn [write_burst length].
        rewrite Hold, Hmask, u8_succ_l. repeat f_equal. lia.
Qed.

(** START, address with the write bit, register offset. *)
Lemma run_write_header (cfg : config) (s : state) (pinb : list Z) (a b : Z) :
  0 < I2C_N_REG cfg ->
  post_ack s = 0 ->
  wait_scl_low cfg pinb = Some tt ->
  byte a ->
  Z.shiftr a 1 = 0 \/ Z.shiftr a 1 = I2C_SLAVE_ADDR cfg ->
  Z.testbit a 0 = false ->
  0 <= b < I2C_N_REG cfg ->
  b < 256 ->
  exists s',
    run_bus cfg [START pinb; BYTE a; BYTE b] s = Some s' /\
    vars s' = (1, I2C_STATE_MASTER_WRITE, b, 0, i2c_reg s).
Proof.
  intros Hn Hpa Hw Ba Hm Hrw Hb Hb'.
  destruct (run_start cfg pinb s Hw) as (s1 & Hs1 & Hv1).
  injection Hv1 as Hu1 Hst1 Hoff1 Hpa1 Hreg1.
  destruct (run_byte_addr_w cfg s1 ltac:(congruence) a) as (s2 & Hs2 & Hv2);
    try assumption.
  injection Hv2 as Hu2 Hst2 Hoff2 Hpa2 Hreg2.
  destruct (run_byte_offset cfg s2 Hpa2 b) as (s3 & Hs3 & Hv3);
    try assumption.
  exists s3. split.
  - cbn [run_bus]. rewrite Hs1, Hs2, Hs3. reflexivity.
  - rewrite Hv3. congruence.
Qed.

(** The stop poller on the two sides of its test. *)
Lemma check_stop_fires (s : state) :
  i2c_state s = I2C_STATE_MASTER_WRITE ->
  i2c_update s <> 0 ->
  Z.testbit (USISR s) USIPF = true ->
  i2c_check_stop s
  = Some (i2c_update s,
          set_sreg_i true (set_i2c_update 0
            (set_i2c_state I2C_STATE_IDLE (set_sreg_i false s)))).
Proof.
  intros Hst Hu Hpf.
  pose proof (truthy_flag (USISR s) USIPF ltac:(unfold USIPF; lia)) as Hf.
  rewrite Hpf in Hf. apply truthy_true in Hu.
  isr_unfold. cbn. rewrite Hst, Hu. cbn. rewrite Hf. reflexivity.
Qed.

Lemma check_stop_quiet (s : state) :
  i2c_state s <> I2C_STATE_MASTER_WRITE \/ i2c_update s = 0 ->
  i2c_check_stop s = Some (0, s).
Proof.
  intros H. isr_unfold. cbn.
  destruct H as [H|H].
  - apply Z.eqb_neq in H. now rewrite H.
  - apply truthy_false in H. rewrite H. now rewrite andb_false_r.
Qed.

Ltac bytes := repeat constructor; unfold byte; lia.

Lemma defs_example_wf (w_mask : list Z) :
  length w_mask = 2%nat -> Forall byte w_mask ->
  wf_config (defs_example w_mask).
Proof.
  intros Hl Hb. split; [cbn; lia|]. cbn. split; [exact Hl|exact Hb].
Qed.

Lemma defs_leds_wf : wf_config defs_leds.
Proof. split; [cbn; unfold N_LEDS, I2C_N_GLB_REG; lia|]. cbn. unfold byte. lia. Qed.

(** A whole write transaction: header, data bytes, stop. *)
Lemma run_write_transaction (cfg : config) (s : state) (pinb : list Z)
    (a b : Z) (ds : list Z) :
  wf_config cfg ->
  wf_regs cfg (i2c_reg s) ->
  post_ack s = 0 ->
  wait_scl_low cfg pinb = Some tt ->
  byte a ->
  Z.shiftr a 1 = 0 \/ Z.shiftr a 1 = I2C_SLAVE_ADDR cfg ->
  Z.testbit a 0 = false ->
  0 <= b < I2C_N_REG cfg ->
  Forall byte ds ->
  exists s',
    run_bus cfg ([START pinb; BYTE a; BYTE b] ++ (BYTE <$> ds) ++ [STOP]) s
    = Some s' /\
    vars s' = (u8 (1 + Z.of_nat (length ds)), I2C_STATE_MASTER_WRITE,
               (write_burst cfg b ds (i2c_reg s)).1, 0,
               (write_burst cfg b ds (i2c_reg s)).2) /\
    Z.testbit (USISR s') USIPF = true.
Proof.
  intros Hcfg Hreg Hpa Hw Ba Hm Hrw Hb Hds.
  pose proof Hcfg as [Hn _].
  destruct (run_write_header cfg s pinb a b) as (s1 & Hs1 & Hv1);
    try assumption; try lia.
  injection Hv1 as Hu1 Hst1 Hoff1 Hpa1 Hreg1.
  destruct (run_data_bytes cfg Hcfg ds s1) as (s2 & Hs2 & Hv2);
    try assumption.
  - rewrite Hu1. unfold byte. lia.
  - now rewrite Hoff1.
  - now rewrite Hreg1.
  - destruct (run_stop cfg s2) as (s3 & Hs3 & Hv3 & Hpf).
    exists s3. split; [|split; [|exact Hpf]].
    + rewrite run_bus_app, Hs1, run_bus_app, Hs2. cbn [run_bus]. now rewrite Hs3.
    + rewrite Hv3, Hv2, Hu1, Hoff1, Hreg1. reflexivity.
Qed.

(** ** Stop right after the register offset *)

(** C2, as the code has it: after START, the address with the write bit and
    one offset byte, a STOP finds the update counter at 1, where the address
    match put it, and the registers untouched.  The poller then returns 1,
    goes to IDLE and clears the counter when the offset byte was a valid
    index; when it was not, the state is already IDLE, the poller returns 0
    and the counter stays at 1. *)
Theorem C2_stop_after_offset (cfg : config) (s : state) (pinb : list Z)
    (a b : Z) :
  0 < I2C_N_REG cfg ->
  post_ack s = 0 ->
  wait_scl_low cfg pinb = Some tt ->
  byte a ->
  Z.shiftr a 1 = 0 \/ Z.shiftr a 1 = I2C_SLAVE_ADDR cfg ->
  Z.testbit a 0 = false ->
  byte b ->
  exists s',
    run_bus cfg [START pinb; BYTE a; BYTE b; STOP] s = Some s' /\
    i2c_update s' = 1 /\
    i2c_reg s' = i2c_reg s /\
    (b < I2C_N_REG cfg ->
       exists s'',
         i2c_check_stop s' = Some (1, s'') /\
         i2c_state s'' = I2C_STATE_IDLE /\
         i2c_update s'' = 0 /\
         i2c_reg s'' = i2c_reg s) /\
    (I2C_N_REG cfg <= b ->
       i2c_state s' = I2C_STATE_IDLE /\
       i2c_check_stop s' = Some (0, s')).
Proof.
  intros Hn Hpa Hw Ba Hm Hrw Bb.
  destruct (run_start cfg pinb s Hw) as (s1 & Hs1 & Hv1).
  injection Hv1 as Hu1 Hst1 Hoff1 Hpa1 Hreg1.
  destruct (run_byte_addr_w cfg s1 ltac:(congruence) a) as (s2 & Hs2 & Hv2);
    try assumption.
  injection Hv2 as Hu2 Hst2 Hoff2 Hpa2 Hreg2.
  destruct (Z.lt_ge_cases b (I2C_N_REG cfg)) as [Hlt|Hge].
  - destruct (run_byte_offset cfg s2 Hpa2 b) as (s3 & Hs3 & Hv3);
      try assumption; try (unfold byte in Bb; lia).
    injection Hv3 as Hu3 Hst3 Hoff3 Hpa3 Hreg3.
    destruct (run_stop cfg s3) as (s4 & Hs4 & Hv4 & Hpf).
    injection Hv4 as Hu4 Hst4 Hoff4 Hpa4 Hreg4.
    exists s4. split; [cbn [run_bus]; now rewrite Hs1, Hs2, Hs3, Hs4|].
    split; [congruence|]. split; [congruence|]. split; [|lia].
    intros _. eexists. split.
    + rewrite check_stop_fires; try congruence.
      do 2 f_equal. congruence.
    + cbn. repeat split. congruence.
  - destruct (run_byte_offset_bad cfg s2 Hpa2 b) as (s3 & Hs3 & Hv3);
      try assumption; try (unfold byte in Bb; lia).
    injection Hv3 as Hu3 Hst3 Hoff3 Hpa3 Hreg3.
    destruct (run_stop cfg s3) as (s4 & Hs4 & Hv4 & Hpf).
    injection Hv4 as Hu4 Hst4 Hoff4 Hpa4 Hreg4.
    exists s4. split; [cbn [run_bus]; now rewrite Hs1, Hs2, Hs3, Hs4|].
    split; [congruence|]. split; [congruence|]. split; [lia|].
    intros _. split; [congruence|].
    apply check_stop_quiet. left. rewrite Hst4, Hst3. discriminate.
Qed.

Lemma C2_stop_after_offset_witness :
  exists s',
    run_bus (defs_example [0xFF; 0x0F]) [START [0]; BYTE 0x80; BYTE 0x01; STOP]
      (power_on [0; 0]) = Some s' /\
    i2c_update s' = 1.
Proof.
  destruct (C2_stop_after_offset (defs_example [0xFF; 0x0F]) (power_on [0; 0])
              [0] 0x80 0x01) as (s' & Hs' & Hu & _).
  all: try (vm_compute; intuition congruence).
  exists s'. split; [exact Hs'|exact Hu].
Defined.

(** C2 fails as stated: on the sample configuration the counter is 1 after
    the sequence and the poller returns 1. *)
Lemma C2_update_counter_not_zero :
  ~ (forall s',
       boot_and_run (defs_example [0xFF; 0x0F]) [0; 0]
         [START [0]; BYTE 0x80; BYTE 0x01; STOP] = Some s' ->
       i2c_update s' = 0 /\ exists s'', i2c_check_stop s' = Some (0, s'')).
Proof.
  intros H.
  destruct (boot_and_run (defs_example [0xFF; 0x0F]) [0; 0]
              [START [0]; BYTE 0x80; BYTE 0x01; STOP]) as [s'|] eqn:E;
    vm_compute in E; [|discriminate].
  destruct (H s' eq_refl) as [Hu _]. injection E as <-.
  vm_compute in Hu. discriminate.
Qed.

Lemma i2c_init_vars cfg s :
  exists s',
    exec (i2c_init cfg) s = Some s' /\
    vars s' = (i2c_update s, I2C_STATE_ADDR_MATCH, i2c_offset s, post_ack s,
               i2c_reg s).
Proof. isr_unfold. cbn. eexists. split; reflexivity. Qed.

(** ** The wrapped write of the end-to-end scenarios *)

(** C3, as the code has it: with I2C_SLAVE_ADDR 0x40, two registers, masks
    0xFF and 0x0F and both registers 0 at boot, the sequence START 0x80 0x01
    0x11 0x22 0x33 STOP leaves the registers at 0x22 and 0x03: the last byte
    lands on register 1 again and its low nibble replaces the 1 written
    first. *)
Theorem C3_wrapped_write (pinb : list Z) :
  wait_scl_low (defs_example [0xFF; 0x0F]) pinb = Some tt ->
  exists s',
    boot_and_run (defs_example [0xFF; 0x0F]) [0x00; 0x00]
      [START pinb; BYTE 0x80; BYTE 0x01; BYTE 0x11; BYTE 0x22; BYTE 0x33; STOP]
    = Some s' /\
    i2c_reg s' = [0x22; 0x03].
Proof.
  intros Hw. unfold boot_and_run.
  destruct (i2c_init_vars (defs_example [0xFF; 0x0F]) (power_on [0; 0]))
    as (s0 & Hs0 & Hv0).
  injection Hv0 as Hu0 Hst0 Hoff0 Hpa0 Hreg0. rewrite Hs0.
  assert (Hcfg : wf_config (defs_example [0xFF; 0x0F]))
    by (apply defs_example_wf; [reflexivity|bytes]).
  assert (Hregs : wf_regs (defs_example [0xFF; 0x0F]) (i2c_reg s0))
    by (rewrite Hreg0; split; [reflexivity|bytes]).
  destruct (run_write_transaction (defs_example [0xFF; 0x0F]) s0 pinb
              0x80 0x01 [0x11; 0x22; 0x33] Hcfg Hregs Hpa0 Hw)
    as (s' & Hs' & Hv' & _).
  - unfold byte. lia.
  - right. reflexivity.
  - reflexivity.
  - cbn. lia.
  - bytes.
  - exists s'. split; [exact Hs'|].
    injection Hv' as _ _ _ _ Hreg. rewrite Hreg, Hreg0. reflexivity.
Qed.

Lemma C3_wrapped_write_witness :
  exists s',
    boot_and_run (defs_example [0xFF; 0x0F]) [0x00; 0x00]
      [START [0x04; 0x00]; BYTE 0x80; BYTE 0x01; BYTE 0x11; BYTE 0x22;
       BYTE 0x33; STOP]
    = Some s' /\
    i2c_reg s' = [0x22; 0x03].
Proof. apply (C3_wrapped_write [0x04; 0x00]). reflexivity. Defined.

(** C3 fails as stated: the sequence does not leave the registers at 0x22
    and 0x01. *)
Lemma C3_wrapped_write_not_0x01 :
  ~ (forall s',
       boot_and_run (defs_example [0xFF; 0x0F]) [0x00; 0x00]
         [START [0]; BYTE 0x80; BYTE 0x01; BYTE 0x11; BYTE 0x22; BYTE 0x33; STOP]
       = Some s' ->
       i2c_reg s' = [0x22; 0x01]).
Proof.
  intros H.
  destruct (boot_and_run (defs_example [0xFF; 0x0F]) [0; 0]
              [START [0]; BYTE 0x80; BYTE 0x01; BYTE 0x11; BYTE 0x22;
               BYTE 0x33; STOP]) as [s'|] eqn:E;
    vm_compute in E; [|discriminate].
  specialize (H s' eq_refl). injection E as <-.
  vm_compute in H. discriminate.
Qed.

(** ** The update counter is a byte *)

(** C9: in a write transaction the counter is set to 1 by the address match
    and incremented by each data byte, modulo 256.  After 255 data bytes it
    is 0 again and the poller returns 0 and changes nothing, although the
    registers hold what the burst wrote; whenever the counter is not 0 the
    poller returns it. *)
Theorem C9_update_counter_wraps (cfg : config) (s : state) (pinb : list Z)
    (a b : Z) (ds : list Z) :
  wf_config cfg ->
  wf_regs cfg (i2c_reg s) ->
  post_ack s = 0 ->
  wait_scl_low cfg pinb = Some tt ->
  byte a ->
  Z.shiftr a 1 = 0 \/ Z.shiftr a 1 = I2C_SLAVE_ADDR cfg ->
  Z.testbit a 0 = false ->
  0 <= b < I2C_N_REG cfg ->
  Forall byte ds ->
  exists s',
    run_bus cfg ([START pinb; BYTE a; BYTE b] ++ (BYTE <$> ds) ++ [STOP]) s
    = Some s' /\
    i2c_update s' = (1 + Z.of_nat (length ds)) mod 256 /\
    i2c_reg s' = (write_burst cfg b ds (i2c_reg s)).2 /\
    (length ds = 255%nat ->
       i2c_update s' = 0 /\ i2c_check_stop s' = Some (0, s')) /\
    (i2c_update s' <> 0 ->
       exists s'', i2c_check_stop s' = Some (i2c_update s', s'')).
Proof.
  intros Hcfg Hreg Hpa Hw Ba Hm Hrw Hb Hds.
  destruct (run_write_transaction cfg s pinb a b ds)
    as (s' & Hs' & Hv' & Hpf); try assumption.
  injection Hv' as Hu Hst Hoff Hpa' Hreg'.
  exists s'. split; [exact Hs'|]. split; [exact Hu|]. split; [exact Hreg'|].
  split.
  - intros Hlen. assert (H0 : i2c_update s' = 0) by (rewrite Hu, Hlen; reflexivity).
    split; [exact H0|]. apply check_stop_quiet. now right.
  - intros Hnz. eexists. now apply check_stop_fires.
Qed.

Lemma C9_update_counter_wraps_witness :
  exists s',
    run_bus defs_leds
      ([START [0]; BYTE 0x80; BYTE 0x00] ++ (BYTE <$> replicate 255 0xAB)
       ++ [STOP])
      (power_on (replicate 52 0)) = Some s' /\
    i2c_check_stop s' = Some (0, s') /\
    i2c_reg s' !! 0%nat = Some 0xAB.
Proof.
  destruct (C9_update_counter_wraps defs_leds (power_on (replicate 52 0)) [0]
              0x80 0x00 (replicate 255 0xAB))
    as (s' & Hs' & _ & Hreg & Hwrap & _).
  - exact defs_leds_wf.
  - split; [reflexivity|]. apply Forall_replicate. unfold byte. lia.
  - reflexivity.
  - reflexivity.
  - unfold byte. lia.
  - right. reflexivity.
  - reflexivity.
  - vm_compute. split; [discriminate|reflexivity].
  - apply Forall_replicate. unfold byte. lia.
  - exists s'. split; [exact Hs'|]. split.
    + apply Hwrap. reflexivity.
    + rewrite Hreg. vm_compute. reflexivity.
Defined.

(** ** Registers without a writable bit *)

(** C10: a data byte for a register whose mask is 0 is ACKed, counted and
    moves the offset on, and the register file stays as it was; a write
    transaction of one such byte makes the poller return a non-zero value
    with every register unchanged. *)
Theorem C10_read_only_register (cfg : config) :
  (forall s : state,
     0 <= I2C_SDA cfg < 8 ->
     post_ack s = 0 ->
     i2c_state s = I2C_STATE_MASTER_WRITE ->
     effective_mask cfg (i2c_offset s) = Some 0x00 ->
     exists s',
       usi_overflow_isr cfg s = Some (tt, s') /\
       drives_ack cfg s' /\
       i2c_update s' = (i2c_update s + 1) mod 256 /\
       i2c_offset s'
       = (if (i2c_offset s + 1) mod 256 >? I2C_N_REG cfg - 1 then 0
          else (i2c_offset s + 1) mod 256) /\
       i2c_state s' = I2C_STATE_MASTER_WRITE /\
       i2c_reg s' = i2c_reg s) /\
  (forall (s : state) (pinb : list Z) (a b d : Z),
     wf_config cfg ->
     wf_regs cfg (i2c_reg s) ->
     post_ack s = 0 ->
     wait_scl_low cfg pinb = Some tt ->
     byte a ->
     Z.shiftr a 1 = 0 \/ Z.shiftr a 1 = I2C_SLAVE_ADDR cfg ->
     Z.testbit a 0 = false ->
     0 <= b < I2C_N_REG cfg ->
     byte d ->
     effective_mask cfg b = Some 0x00 ->
     exists s' r s'',
       run_bus cfg [START pinb; BYTE a; BYTE b; BYTE d; STOP] s = Some s' /\
       i2c_check_stop s' = Some (r, s'') /\
       r <> 0 /\
       i2c_reg s' = i2c_reg s /\
       i2c_reg s'' = i2c_reg s).
Proof.
  split.
  - intros s Hsda Hpa Hst Hm. apply truthy_false in Hpa.
    eexists. split; [now apply (overflow_g_ro cfg s 0)|].
    unfold drives_ack.
    rewrite exit_USIDR, exit_update, exit_offset, exit_state, exit_reg,
      exit_sda_out by assumption.
    cbn. repeat split. exact Hst.
  - intros s pinb a b d Hcfg Hreg Hpa Hw Ba Hmatch Hrw Hb Bd Hm.
    destruct (run_write_transaction cfg s pinb a b [d])
      as (s' & Hs' & Hv' & Hpf); try assumption;
      [constructor; [exact Bd|constructor]|].
    injection Hv' as Hu Hst Hoff Hpa' Hreg'.
    destruct (wf_lookup cfg _ _ Hcfg Hreg Hb)
      as (old & mask & Hold & Hmask & Bold & Bmask).
    assert (mask = 0).
    { pose proof (effective_write_mask _ _ _ Hmask) as E.
      rewrite Hm, (u8_small mask Bmask) in E. congruence. }
    subst mask.
    assert (Hsame : i2c_reg s' = i2c_reg s).
    { rewrite Hreg'. cbn [write_burst]. rewrite Hold, Hmask. cbn [snd].
      rewrite masked_write_0. now apply list_insert_id. }
    exists s'. eexists. eexists. split; [exact Hs'|].
    split; [apply check_stop_fires; try assumption; rewrite Hu; discriminate|].
    split; [rewrite Hu; discriminate|]. split; [exact Hsame|]. exact Hsame.
Qed.

Lemma C10_read_only_register_witness :
  exists s' r s'',
    run_bus (defs_example [0xFF; 0x00])
      [START [0]; BYTE 0x80; BYTE 0x01; BYTE 0xAB; STOP] (power_on [0x12; 0x34])
    = Some s' /\
    i2c_check_stop s' = Some (r, s'') /\ r <> 0 /\
    i2c_reg s'' = [0x12; 0x34].
Proof.
  destruct (proj2 (C10_read_only_register (defs_example [0xFF; 0x00]))
              (power_on [0x12; 0x34]) [0] 0x80 0x01 0xAB)
    as (s' & r & s'' & Hs' & Hr & Hnz & _ & Hreg).
  - apply defs_example_wf; [reflexivity|bytes].
  - split; [reflexivity|bytes].
  - reflexivity.
  - reflexivity.
  - unfold byte. lia.
  - right. reflexivity.
  - reflexivity.
  - vm_compute. split; [discriminate|reflexivity].
  - unfold byte. lia.
  - reflexivity.
  - exists s', r, s''. repeat split; assumption.
Defined.

(** ** The offset stays inside the register file *)

(** Case analysis over every test the overflow handler makes. *)
Ltac isr_cases :=
  repeat (cbn;
    match goal with
    | |- context [if ?b then _ else _] => destruct b eqn:?
    | |- context [match I2C_GLOBAL_WRITE_MASK ?c with _ => _ end] =>
        destruct (I2C_GLOBAL_WRITE_MASK c) eqn:?
    | |- context [match ?l !! ?i with _ => _ end] => destruct (l !! i) eqn:?
    end).

Ltac gtb_facts :=
  repeat match goal with
         | H : (_ >? _) = true |- _ => apply Z.gtb_lt in H
         | H : (_ >? _) = false |- _ => rewrite Z.gtb_ltb, Z.ltb_ge in H
         end.

Lemma overflow_offset (cfg : config) (s s' : state) :
  exec (usi_overflow_isr cfg) s = Some s' ->
  0 <= i2c_offset s ->
  0 < I2C_N_REG cfg ->
  0 <= i2c_offset s' < I2C_N_REG cfg.
Proof.
  intros H Hoff Hn. revert H. isr_unfold. isr_cases.
  all: intros [= <-]; cbn; gtb_facts.
  all: try pose proof (u8_byte (USIDR s)).
  all: try pose proof (u8_byte (i2c_offset s + 1)).
  all: unfold byte in *; lia.
Qed.

Lemma overflow_returns (cfg : config) (s : state) :
  arrays_sized cfg s ->
  0 <= i2c_offset s < I2C_N_REG cfg ->
  exists s', usi_overflow_isr cfg s = Some (tt, s').
Proof.
  intros [Hlen Hmask] Hoff.
  assert (Hlt : (Z.to_nat (i2c_offset s) < length (i2c_reg s))%nat) by lia.
  isr_unfold. isr_cases.
  all: try (eexists; reflexivity).
  all: exfalso.
  all: repeat match goal with
         | H : _ !! _ = None |- _ => apply lookup_ge_None_1 in H
         | H : context [length (<[_ := _]> _)] |- _ => rewrite length_insert in H
         | H : decide _ = right _ |- _ => clear H
         end.
  all: try specialize (Hmask eq_refl); try lia.
Qed.

Lemma start_offset (cfg : config) (pinb : list Z) (s s' : state) :
  exec (usi_start_isr cfg pinb) s = Some s' -> i2c_offset s' = i2c_offset s.
Proof.
  isr_unfold. cbn. destruct (wait_scl_low cfg pinb); [|discriminate].
  now intros [= <-].
Qed.

Lemma start_returns (cfg : config) (pinb : list Z) (s : state) :
  wait_scl_low cfg pinb = Some tt ->
  exists s', usi_start_isr cfg pinb s = Some (tt, s').
Proof. intros Hw. isr_unfold. cbn. rewrite Hw. eexists. reflexivity. Qed.

(** C6: entered with the offset below I2C_N_REG, the overflow handler and the
    start handler both return, given arrays of the declared size and a
    sample with SCL low, and leave the offset below I2C_N_REG, whatever the
    protocol state and the received byte; the calls the application makes
    do not move the offset. *)
Theorem C6_offset_in_range (cfg : config) (s : state) :
  0 <= i2c_offset s < I2C_N_REG cfg ->
  (forall s', exec (usi_overflow_isr cfg) s = Some s' ->
     0 <= i2c_offset s' < I2C_N_REG cfg) /\
  (forall pinb s', exec (usi_start_isr cfg pinb) s = Some s' ->
     0 <= i2c_offset s' < I2C_N_REG cfg) /\
  (arrays_sized cfg s -> exists s', exec (usi_overflow_isr cfg) s = Some s') /\
  (forall pinb, wait_scl_low cfg pinb = Some tt ->
     exists s', exec (usi_start_isr cfg pinb) s = Some s') /\
  (exists s', exec (i2c_init cfg) s = Some s' /\ i2c_offset s' = i2c_offset s) /\
  (exists r s', i2c_check_stop s = Some (r, s') /\ i2c_offset s' = i2c_offset s) /\
  (exists r, i2c_transaction_ongoing s = Some (r, s)).
Proof.
  intros Hoff.
  split; [|split; [|split; [|split; [|split; [|split]]]]].
  - intros s' Hs'. eapply overflow_offset; [eassumption|lia|lia].
  - intros pinb s' Hs'. rewrite (start_offset _ _ _ _ Hs'). exact Hoff.
  - intros Hsz. destruct (overflow_returns cfg s Hsz Hoff) as [s' Hs'].
    exists s'. unfold exec. now rewrite Hs'.
  - intros pinb Hw. destruct (start_returns cfg pinb s Hw) as [s' Hs'].
    exists s'. unfold exec. now rewrite Hs'.
  - destruct (i2c_init_vars cfg s) as (s' & Hs' & Hv).
    exists s'. split; [exact Hs'|]. now injection Hv.
  - isr_unfold. isr_cases; eexists; eexists; split; reflexivity.
  - isr_unfold. isr_cases; eexists; reflexivity.
Qed.

Lemma C6_offset_in_range_witness :
  exists s',
    exec (usi_overflow_isr (defs_example [0xFF; 0x0F]))
      (set_USIDR 0x7E (set_i2c_offset 1
         (set_i2c_state I2C_STATE_MASTER_WRITE (power_on [0; 0]))))
    = Some s' /\
    0 <= i2c_offset s' < 2.
Proof.
  destruct (C6_offset_in_range (defs_example [0xFF; 0x0F])
              (set_USIDR 0x7E (set_i2c_offset 1
                 (set_i2c_state I2C_STATE_MASTER_WRITE (power_on [0; 0])))))
    as (Hrange & _ & Hret & _).
  - cbn. lia.
  - destruct Hret as [s' Hs']; [split; [reflexivity|intros _; reflexivity]|].
    exists s'. split; [exact Hs'|]. exact (Hrange s' Hs').
Defined.

(** ** Read-only bits *)

Lemma effective_mask_write_mask cfg off :
  effective_mask cfg off = u8 <$> write_mask cfg (Z.to_nat off).
Proof.
  unfold effective_mask, write_mask.
  now destruct (I2C_GLOBAL_WRITE_MASK cfg).
Qed.

(** The overflow handler leaves the register file alone, except in
    transition g, where it merges the received byte into one register. *)
Lemma overflow_reg (cfg : config) (s s' : state) :
  exec (usi_overflow_isr cfg) s = Some s' ->
  i2c_reg s' = i2c_reg s \/
  (post_ack s = 0 /\ i2c_state s = I2C_STATE_MASTER_WRITE /\
   exists tmp old,
     effective_mask cfg (i2c_offset s) = Some tmp /\
     i2c_reg s !! Z.to_nat (i2c_offset s) = Some old /\
     i2c_reg s'
     = <[Z.to_nat (i2c_offset s) := merge_masked old (USIDR s) tmp]>
         (i2c_reg s)).
Proof.
  intros H.
  destruct (truthy (post_ack s)) eqn:Hpa.
  { left. revert H. isr_unfold. cbn. rewrite Hpa. isr_cases; now intros [= <-]. }
  destruct (Z.eqb_spec (i2c_state s) I2C_STATE_MASTER_WRITE) as [Hst|Hst].
  - destruct (effective_mask cfg (i2c_offset s)) as [tmp|] eqn:Hm.
    + destruct (truthy tmp) eqn:Ht.
      * destruct (i2c_reg s !! Z.to_nat (i2c_offset s)) as [old|] eqn:Hold.
        -- right. apply truthy_false in Hpa as Hpa0.
           split; [exact Hpa0|]. split; [exact Hst|].
           exists tmp, old. split; [reflexivity|]. split; [reflexivity|].
           unfold exec in H.
           rewrite (overflow_g cfg s tmp old Hpa Hst Hm Ht Hold) in H.
           injection H as <-. now rewrite exit_reg.
        -- exfalso. revert H. isr_unfold. cbn. rewrite Hpa. cbn.
           rewrite Hst. cbn. load_mask Hm.
           all: rewrite Ht; cbn; rewrite Hold; cbn; discriminate.
      * left. unfold exec in H.
        rewrite (overflow_g_ro cfg s tmp Hpa Hst Hm Ht) in H.
        injection H as <-. now rewrite exit_reg.
    + exfalso. revert H. unfold effective_mask in Hm.
      isr_unfold. cbn. rewrite Hpa. cbn. rewrite Hst. cbn.
      destruct (I2C_GLOBAL_WRITE_MASK cfg); [discriminate Hm|].
      destruct (i2c_w_mask cfg !! Z.to_nat (i2c_offset s)); [discriminate Hm|].
      cbn. discriminate.
  - left. apply Z.eqb_neq in Hst. revert H. isr_unfold. cbn.
    rewrite Hpa. cbn. rewrite Hst. isr_cases; now intros [= <-].
Qed.

(** No other operation writes a register. *)
Lemma other_ops_reg (cfg : config) (op : engine_op) (s s' : state) :
  run_op cfg op s = Some s' -> op <> OpOverflow -> i2c_reg s' = i2c_reg s.
Proof.
  intros H Hop. destruct op; [ | | contradiction | | ]; cbn [run_op] in H.
  - destruct (i2c_init_vars cfg s) as (s1 & Hs1 & Hv).
    rewrite Hs1 in H. injection H as <-. now injection Hv.
  - revert H. isr_unfold. cbn. destruct (wait_scl_low cfg pinb); [|discriminate].
    now intros [= <-].
  - revert H. isr_unfold. isr_cases; now intros [= <-].
  - revert H. isr_unfold. isr_cases; now intros [= <-].
Qed.

Lemma op_keeps_read_only_bit (cfg : config) (op : engine_op) (s s1 : state)
    (r : nat) (p mask v : Z) :
  run_op cfg op s = Some s1 ->
  write_mask cfg r = Some mask ->
  Z.testbit mask p = false ->
  i2c_reg s !! r = Some v ->
  byte v ->
  exists v1,
    i2c_reg s1 !! r = Some v1 /\ byte v1 /\ Z.testbit v1 p = Z.testbit v p.
Proof.
  intros H Hmask Hbit Hv Bv.
  assert (Hsame : i2c_reg s1 = i2c_reg s ->
                  exists v1, i2c_reg s1 !! r = Some v1 /\ byte v1 /\
                             Z.testbit v1 p = Z.testbit v p).
  { intros ->. exists v. auto. }
  destruct op; try (apply Hsame; eapply other_ops_reg; [eassumption|discriminate]).
  apply overflow_reg in H as [Heq|(_ & _ & tmp & old & Hm & Hold & Hreg)];
    [now apply Hsame|].
  rewrite Hreg.
  destruct (Nat.eq_dec (Z.to_nat (i2c_offset s)) r) as [<-|Hne].
  - rewrite list_lookup_insert_eq by (eapply lookup_lt_Some; eassumption).
    eexists. split; [reflexivity|]. split; [apply u8_byte|].
    rewrite Hold in Hv. injection Hv as ->.
    rewrite effective_mask_write_mask, Hmask in Hm. injection Hm as <-.
    destruct (Z.neg_nonneg_cases p) as [Hneg|Hnn];
      [now rewrite !Z.testbit_neg_r|].
    destruct (Z.lt_ge_cases p 8) as [Hlt|Hge].
    + rewrite merge_masked_testbit, u8_testbit, Hbit by lia.
      cbn. now rewrite andb_true_r, andb_false_r, orb_false_r.
    + unfold merge_masked. rewrite u8_testbit_high by lia.
      symmetry. now apply byte_testbit_high.
  - rewrite list_lookup_insert_ne by assumption. exists v. auto.
Qed.

(** C7: along any run of the engine, interleaved with hardware activity, a
    bit of a register whose write-mask bit is 0 keeps the value it had; and
    an operation that changes the register file at all is the overflow
    handler before the ACK slot in MASTER_WRITE. *)
Theorem C7_read_only_bits (cfg : config) :
  (forall (s s' : state) (r : nat) (p mask v : Z),
     engine_trace cfg s s' ->
     write_mask cfg r = Some mask ->
     Z.testbit mask p = false ->
     i2c_reg s !! r = Some v ->
     byte v ->
     exists v', i2c_reg s' !! r = Some v' /\ Z.testbit v' p = Z.testbit v p) /\
  (forall (op : engine_op) (s s' : state),
     run_op cfg op s = Some s' ->
     i2c_reg s' <> i2c_reg s ->
     op = OpOverflow /\ post_ack s = 0 /\
     i2c_state s = I2C_STATE_MASTER_WRITE).
Proof.
  split.
  - intros s s' r p mask v Htr Hmask Hbit. revert v.
    induction Htr as [s|s op s1 s2 Hop Htr IH|s s1 s2 Hhw Htr IH];
      intros v Hv Bv.
    + exists v. auto.
    + destruct (op_keeps_read_only_bit cfg op s s1 r p mask v)
        as (v1 & Hv1 & Bv1 & Hb1); try assumption.
      destruct (IH v1 Hv1 Bv1) as (v' & Hv' & Hb').
      exists v'. split; [exact Hv'|]. congruence.
    + apply IH; [|exact Bv]. injection Hhw as _ _ _ _ Hreg. now rewrite Hreg.
  - intros op s s' Hop Hne.
    destruct op;
      try (exfalso; apply Hne; eapply other_ops_reg; [eassumption|discriminate]).
    apply overflow_reg in Hop as [Heq|(Hpa & Hst & _)]; [contradiction|].
    repeat split; assumption.
Qed.

Lemma C7_read_only_bits_witness :
  exists v',
    i2c_reg (set_USIDR 0xF5 (set_i2c_offset 1
               (set_i2c_state I2C_STATE_MASTER_WRITE (power_on [0; 0xA0]))))
      !! 1%nat = Some 0xA0 /\
    forall s',
      run_op (defs_example [0xFF; 0x0F]) OpOverflow
        (set_USIDR 0xF5 (set_i2c_offset 1
           (set_i2c_state I2C_STATE_MASTER_WRITE (power_on [0; 0xA0]))))
      = Some s' ->
      i2c_reg s' !! 1%nat = Some v' /\ Z.testbit v' 7 = true.
Proof.
  exists 0xA5. split; [reflexivity|]. intros s' Hs'.
  destruct (proj1 (C7_read_only_bits (defs_example [0xFF; 0x0F]))
              (set_USIDR 0xF5 (set_i2c_offset 1
                 (set_i2c_state I2C_STATE_MASTER_WRITE (power_on [0; 0xA0]))))
              s' 1%nat 7 0x0F 0xA0)
    as (v' & Hv' & Hb).
  - eapply trace_op; [exact Hs'|apply trace_done].
  - reflexivity.
  - reflexivity.
  - reflexivity.
  - unfold byte. lia.
  - vm_compute in Hs'. injection Hs' as <-. split; reflexivity.
Defined.

(** * Further properties of the handlers *)

Ltac closed_goal := vm_compute; intuition congruence.

(** ** The remaining branches of the overflow handler *)

Section MoreBranches.

Variables (cfg : config) (s : state).

(** MASTER_READ before the ACK slot: listen for the master. *)
Lemma overflow_read_pre :
  truthy (post_ack s) = false ->
  i2c_state s = I2C_STATE_MASTER_READ ->
  usi_overflow_isr cfg s
  = Some (tt, overflow_exit cfg I2C_SDA_DIR_IN 0xDE
                (set_post_ack 1 (set_USIDR 0 s))).
Proof.
  intros Hpa Hst. isr_unfold. cbn. rewrite Hpa. cbn. rewrite Hst. cbn.
  isr_finish.
Qed.

(** The default branch of the switch. *)
Lemma overflow_default :
  truthy (post_ack s) = false ->
  i2c_state s <> I2C_STATE_ADDR_MATCH ->
  i2c_state s <> I2C_STATE_REG_ADDR ->
  i2c_state s <> I2C_STATE_MASTER_READ ->
  i2c_state s <> I2C_STATE_MASTER_WRITE ->
  usi_overflow_isr cfg s
  = Some (tt, overflow_exit cfg I2C_SDA_DIR_OUT 0xDE
                (set_post_ack 1 (set_USIDR 0x80 s))).
Proof.
  intros Hpa H0 H1 H2 H3. apply Z.eqb_neq in H0, H1, H2, H3.
  isr_unfold. cbn. rewrite Hpa. cbn. rewrite H0, H1, H2, H3. cbn.
  isr_finish.
Qed.

(** Transition e *)
Lemma overflow_e :
  truthy (post_ack s) = true ->
  i2c_state s = I2C_STATE_MASTER_READ ->
  truthy (USIDR s) = true ->
  usi_overflow_isr cfg s
  = Some (tt, overflow_exit cfg I2C_SDA_DIR_IN 0xD0
                (set_post_ack 0 (set_i2c_state I2C_STATE_IDLE
                   (set_i2c_offset 0 s)))).
Proof.
  intros Hpa Hst Hd. isr_unfold. cbn. rewrite Hpa. cbn. rewrite Hst. cbn.
  rewrite Hd. cbn. isr_finish.
Qed.

(** Transition f *)
Lemma overflow_f (v : Z) :
  truthy (post_ack s) = true ->
  i2c_state s = I2C_STATE_MASTER_READ ->
  truthy (USIDR s) = false ->
  i2c_reg s !! Z.to_nat (i2c_offset s) = Some v ->
  usi_overflow_isr cfg s
  = Some (tt, overflow_exit cfg I2C_SDA_DIR_OUT 0xD0
                (set_post_ack 0 (set_USIDR v
                   (set_i2c_offset (u8 (i2c_offset s + 1)) s)))).
Proof.
  intros Hpa Hst Hd Hv. isr_unfold. cbn. rewrite Hpa. cbn. rewrite Hst. cbn.
  rewrite Hd. cbn. rewrite Hv. cbn. isr_finish.
Qed.

End MoreBranches.

Lemma clamp_in_range cfg off :
  0 <= off < I2C_N_REG cfg ->
  (if off >? I2C_N_REG cfg - 1 then 0 else off) = off.
Proof. intros H. destruct (Z.gtb_spec off (I2C_N_REG cfg - 1)); lia. Qed.

(** X1: before the ACK slot in REG_ADDR a received byte below I2C_N_REG is
    ACKed, becomes the offset and opens MASTER_WRITE; any other byte is
    NAKed, the state becomes IDLE and the offset stays.  Registers and
    update counter are not touched either way. *)
Theorem X1_register_address (cfg : config) (s : state) :
  0 <= I2C_SDA cfg < 8 ->
  byte (USIDR s) ->
  post_ack s = 0 ->
  i2c_state s = I2C_STATE_REG_ADDR ->
  0 <= i2c_offset s < I2C_N_REG cfg ->
  exists s',
    usi_overflow_isr cfg s = Some (tt, s') /\
    i2c_reg s' = i2c_reg s /\
    i2c_update s' = i2c_update s /\
    (USIDR s < I2C_N_REG cfg ->
       drives_ack cfg s' /\
       i2c_state s' = I2C_STATE_MASTER_WRITE /\
       i2c_offset s' = USIDR s) /\
    (I2C_N_REG cfg <= USIDR s ->
       drives_nak cfg s' /\
       i2c_state s' = I2C_STATE_IDLE /\
       i2c_offset s' = i2c_offset s).
Proof.
  intros Hsda Bd Hpa Hst Hoff. apply truthy_false in Hpa.
  destruct (Z.gtb_spec (USIDR s) (I2C_N_REG cfg - 1)) as [Hgt|Hle].
  - eexists. split; [apply overflow_i; try assumption|].
    + destruct (Z.gtb_spec (USIDR s) (I2C_N_REG cfg - 1)); [reflexivity|lia].
    + unfold drives_nak.
      rewrite exit_reg, exit_update, exit_USIDR, exit_state, exit_offset,
        exit_sda_out by assumption.
      cbn. rewrite clamp_in_range by assumption.
      repeat split; try reflexivity; lia.
  - eexists. split; [apply overflow_d; try assumption|].
    + destruct (Z.gtb_spec (USIDR s) (I2C_N_REG cfg - 1)); [lia|reflexivity].
    + unfold drives_ack.
      rewrite exit_reg, exit_update, exit_USIDR, exit_state, exit_offset,
        exit_sda_out by assumption.
      cbn. rewrite (u8_small _ Bd).
      rewrite clamp_in_range by (unfold byte in Bd; lia).
      repeat split; try reflexivity; lia.
Qed.

Lemma X1_register_address_witness :
  exists s',
    usi_overflow_isr (defs_example [0xFF; 0x0F])
      (set_USIDR 0x05 (set_i2c_state I2C_STATE_REG_ADDR (power_on [0; 0])))
    = Some (tt, s') /\
    i2c_state s' = I2C_STATE_IDLE /\ USIDR s' = 0x80.
Proof.
  destruct (X1_register_address (defs_example [0xFF; 0x0F])
              (set_USIDR 0x05 (set_i2c_state I2C_STATE_REG_ADDR
                                 (power_on [0; 0]))))
    as (s' & Hs' & _ & _ & _ & Hbad);
    [closed_goal .. |].
  exists s'. split; [exact Hs'|].
  destruct Hbad as ((Hd & _) & Hst & _); [vm_compute; discriminate|].
  split; [exact Hst|exact Hd].
Defined.

(** ** Master read, handler by handler *)

(** X2: before the ACK slot in MASTER_READ the handler does not answer: it
    clears the shift register and turns the SDA driver off, so that the
    master's ACK or NAK is what gets shifted in; state, offset, counter and
    registers stay. *)
Theorem X2_read_listens_for_ack (cfg : config) (s : state) :
  0 <= I2C_SDA cfg < 8 ->
  post_ack s = 0 ->
  i2c_state s = I2C_STATE_MASTER_READ ->
  0 <= i2c_offset s < I2C_N_REG cfg ->
  exists s',
    usi_overflow_isr cfg s = Some (tt, s') /\
    USIDR s' = 0 /\
    Z.testbit (USI_DDR s') (I2C_SDA cfg) = false /\
    vars s' = (i2c_update s, I2C_STATE_MASTER_READ, i2c_offset s, 1,
               i2c_reg s).
Proof.
  intros Hsda Hpa Hst Hoff. apply truthy_false in Hpa.
  eexists. split; [now apply overflow_read_pre|].
  unfold vars.
  rewrite exit_USIDR, exit_update, exit_state, exit_offset, exit_post_ack,
    exit_reg, exit_sda_in by assumption.
  cbn. rewrite clamp_in_range, Hst by assumption. repeat split.
Qed.

Lemma X2_read_listens_for_ack_witness :
  exists s',
    usi_overflow_isr (defs_example [0xFF; 0x0F])
      (set_USI_DDR 0x05 (set_USIDR 0x34
         (set_i2c_state I2C_STATE_MASTER_READ (power_on [0x12; 0x34]))))
    = Some (tt, s') /\
    USIDR s' = 0 /\ USI_DDR s' = 0x04.
Proof.
  destruct (X2_read_listens_for_ack (defs_example [0xFF; 0x0F])
              (set_USI_DDR 0x05 (set_USIDR 0x34
                 (set_i2c_state I2C_STATE_MASTER_READ (power_on [0x12; 0x34])))))
    as (s' & Hs' & Hd & _);
    [closed_goal .. |].
  exists s'. split; [exact Hs'|]. split; [exact Hd|].
  vm_compute in Hs'. injection Hs' as <-. reflexivity.
Defined.

(** X3: after the ACK slot in MASTER_READ, a shift register that reads 0
    (the master ACKed) makes the handler load the register under the
    offset into the shift register, turn the SDA driver on and move the
    offset on, wrapping at I2C_N_REG; the register file is only read. *)
Theorem X3_read_continues (cfg : config) (s : state) (v : Z) :
  0 <= I2C_SDA cfg < 8 ->
  I2C_N_REG cfg <= 256 ->
  post_ack s <> 0 ->
  i2c_state s = I2C_STATE_MASTER_READ ->
  USIDR s = 0 ->
  0 <= i2c_offset s < I2C_N_REG cfg ->
  i2c_reg s !! Z.to_nat (i2c_offset s) = Some v ->
  exists s',
    usi_overflow_isr cfg s = Some (tt, s') /\
    USIDR s' = v /\
    Z.testbit (USI_DDR s') (I2C_SDA cfg) = true /\
    vars s' = (i2c_update s, I2C_STATE_MASTER_READ,
               next_offset cfg (i2c_offset s), 0, i2c_reg s).
Proof.
  intros Hsda Hn Hpa Hst Hd Hoff Hv.
  apply truthy_true in Hpa. apply truthy_false in Hd.
  eexists. split; [now apply (overflow_f cfg s v)|].
  unfold vars.
  rewrite exit_USIDR, exit_update, exit_state, exit_offset, exit_post_ack,
    exit_reg, exit_sda_out by assumption.
  cbn. rewrite exit_offset_next, Hst by assumption. repeat split.
Qed.

Lemma X3_read_continues_witness :
  exists s',
    usi_overflow_isr (defs_example [0xFF; 0x0F])
      (set_post_ack 1 (set_i2c_offset 1
         (set_i2c_state I2C_STATE_MASTER_READ (power_on [0x12; 0x34]))))
    = Some (tt, s') /\
    USIDR s' = 0x34 /\ i2c_offset s' = 0.
Proof.
  destruct (X3_read_continues (defs_example [0xFF; 0x0F])
              (set_post_ack 1 (set_i2c_offset 1
                 (set_i2c_state I2C_STATE_MASTER_READ (power_on [0x12; 0x34]))))
              0x34)
    as (s' & Hs' & Hd & _ & Hv);
    [closed_goal .. |].
  exists s'. split; [exact Hs'|]. split; [exact Hd|].
  injection Hv as _ _ Hoff _ _. exact Hoff.
Defined.

(** X4: after the ACK slot in MASTER_READ, a shift register that does not
    read 0 (the master NAKed) ends the read: the state becomes IDLE, the
    offset is reset to 0 and SDA is released; nothing is loaded. *)
Theorem X4_read_ends_on_nak (cfg : config) (s : state) :
  0 <= I2C_SDA cfg < 8 ->
  0 < I2C_N_REG cfg ->
  post_ack s <> 0 ->
  i2c_state s = I2C_STATE_MASTER_READ ->
  USIDR s <> 0 ->
  exists s',
    usi_overflow_isr cfg s = Some (tt, s') /\
    USIDR s' = USIDR s /\
    Z.testbit (USI_DDR s') (I2C_SDA cfg) = false /\
    vars s' = (i2c_update s, I2C_STATE_IDLE, 0, 0, i2c_reg s).
Proof.
  intros Hsda Hn Hpa Hst Hd.
  apply truthy_true in Hpa. apply truthy_true in Hd.
  eexists. split; [now apply overflow_e|].
  unfold vars.
  rewrite exit_USIDR, exit_update, exit_state, exit_offset, exit_post_ack,
    exit_reg, exit_sda_in by assumption.
  cbn. rewrite clamp_in_range by lia. repeat split.
Qed.

Lemma X4_read_ends_on_nak_witness :
  exists s',
    usi_overflow_isr (defs_example [0xFF; 0x0F])
      (set_USIDR 1 (set_post_ack 1 (set_i2c_offset 1
         (set_i2c_state I2C_STATE_MASTER_READ (power_on [0x12; 0x34])))))
    = Some (tt, s') /\
    i2c_state s' = I2C_STATE_IDLE /\ i2c_offset s' = 0.
Proof.
  destruct (X4_read_ends_on_nak (defs_example [0xFF; 0x0F])
              (set_USIDR 1 (set_post_ack 1 (set_i2c_offset 1
                 (set_i2c_state I2C_STATE_MASTER_READ (power_on [0x12; 0x34]))))))
    as (s' & Hs' & _ & _ & Hv);
    [closed_goal .. |].
  exists s'. split; [exact Hs'|].
  injection Hv as _ Hst Hoff _ _. split; [exact Hst|exact Hoff].
Defined.

(** ** Bytes that are not for us *)

(** X5: before the ACK slot, in IDLE or with any state value the switch
    does not name, the handler NAKs whatever was received and keeps state,
    offset, counter and registers. *)
Theorem X5_idle_naks (cfg : config) (s : state) :
  0 <= I2C_SDA cfg < 8 ->
  post_ack s = 0 ->
  ~ (0 <= i2c_state s <= 3) ->
  0 <= i2c_offset s < I2C_N_REG cfg ->
  exists s',
    usi_overflow_isr cfg s = Some (tt, s') /\
    drives_nak cfg s' /\
    vars s' = (i2c_update s, i2c_state s, i2c_offset s, 1, i2c_reg s).
Proof.
  intros Hsda Hpa Hst Hoff. apply truthy_false in Hpa.
  eexists. split.
  - apply overflow_default; try assumption;
      unfold I2C_STATE_ADDR_MATCH, I2C_STATE_REG_ADDR, I2C_STATE_MASTER_READ,
        I2C_STATE_MASTER_WRITE; lia.
  - unfold drives_nak, vars.
    rewrite exit_USIDR, exit_update, exit_state, exit_offset, exit_post_ack,
      exit_reg, exit_sda_out by assumption.
    cbn. rewrite clamp_in_range by assumption. repeat split.
Qed.

Lemma X5_idle_naks_witness :
  exists s',
    usi_overflow_isr defs_leds
      (set_USIDR 0x80 (set_i2c_state I2C_STATE_IDLE (power_on [])))
    = Some (tt, s') /\
    USIDR s' = 0x80 /\ i2c_state s' = I2C_STATE_IDLE.
Proof.
  destruct (X5_idle_naks defs_leds
              (set_USIDR 0x80 (set_i2c_state I2C_STATE_IDLE (power_on []))))
    as (s' & Hs' & (Hd & _) & Hv);
    [closed_goal .. |].
  exists s'. split; [exact Hs'|]. split; [exact Hd|].
  injection Hv as _ Hst _ _ _. exact Hst.
Defined.

(** X6: after the ACK slot, in every state but MASTER_READ, the handler
    only closes the slot: it releases SDA and clears the phase flag; shift
    register, state, offset, counter and registers stay. *)
Theorem X6_ack_slot_closes (cfg : config) (s : state) :
  0 <= I2C_SDA cfg < 8 ->
  post_ack s <> 0 ->
  i2c_state s <> I2C_STATE_MASTER_READ ->
  0 <= i2c_offset s < I2C_N_REG cfg ->
  exists s',
    usi_overflow_isr cfg s = Some (tt, s') /\
    USIDR s' = USIDR s /\
    Z.testbit (USI_DDR s') (I2C_SDA cfg) = false /\
    vars s' = (i2c_update s, i2c_state s, i2c_offset s, 0, i2c_reg s).
Proof.
  intros Hsda Hpa Hst Hoff. apply truthy_true in Hpa.
  eexists. split; [now apply overflow_post_idle|].
  unfold vars.
  rewrite exit_USIDR, exit_update, exit_state, exit_offset, exit_post_ack,
    exit_reg, exit_sda_in by assumption.
  cbn. rewrite clamp_in_range by assumption. repeat split.
Qed.

Lemma X6_ack_slot_closes_witness :
  exists s',
    usi_overflow_isr (defs_example [0xFF; 0x0F])
      (set_USI_DDR 0x01 (set_post_ack 1
         (set_i2c_state I2C_STATE_MASTER_WRITE (power_on [0x12; 0x34]))))
    = Some (tt, s') /\
    USI_DDR s' = 0 /\ post_ack s' = 0.
Proof.
  destruct (X6_ack_slot_closes (defs_example [0xFF; 0x0F])
              (set_USI_DDR 0x01 (set_post_ack 1
                 (set_i2c_state I2C_STATE_MASTER_WRITE (power_on [0x12; 0x34])))))
    as (s' & Hs' & _ & _ & Hv);
    [closed_goal .. |].
  exists s'. split; [exact Hs'|]. split.
  - vm_compute in Hs'. injection Hs' as <-. reflexivity.
  - injection Hv as _ _ _ Hpa _. exact Hpa.
Defined.

(** ** What the overflow handler does to the hardware *)

Lemma testbit_0xF0_0x0F n : Z.testbit 0xF0 n && Z.testbit 0x0F n = false.
Proof.
  destruct (Z.neg_nonneg_cases n) as [Hn|Hn]; [now rewrite !Z.testbit_neg_r|].
  change 0xF0 with (Z.shiftl (Z.ones 4) 4). change 0x0F with (Z.ones 4).
  rewrite Z.shiftl_spec by assumption.
  destruct (Z.lt_ge_cases n 4).
  - rewrite (Z.testbit_neg_r _ (n - 4)) by lia. reflexivity.
  - rewrite (Z.ones_spec_high 4 n) by lia. apply andb_false_r.
Qed.

Lemma usisr_write_testbit old v n :
  0 <= n ->
  Z.testbit (usisr_write old v) n
  = (Z.testbit old n && Z.testbit 0xF0 n
     && negb (Z.testbit v n && Z.testbit 0xE0 n))
    || (Z.testbit v n && Z.testbit 0x0F n).
Proof.
  intros Hn. unfold usisr_write.
  now rewrite Z.lor_spec, !Z.land_spec, Z.lnot_spec, Z.land_spec.
Qed.

Lemma usisr_write_counter old v :
  Z.land (usisr_write old v) 0x0F = Z.land v 0x0F.
Proof.
  apply Z.bits_inj'. intros n Hn.
  rewrite !Z.land_spec, usisr_write_testbit by assumption.
  pose proof (testbit_0xF0_0x0F n) as H.
  destruct (Z.testbit 0xF0 n), (Z.testbit 0x0F n); try discriminate;
    rewrite ?andb_false_r, ?andb_true_r, ?orb_false_r; reflexivity.
Qed.

(** Every path through the handler ends the same way for the phase flag and
    the hardware registers. *)
Lemma overflow_hw (cfg : config) (s s' : state) :
  exec (usi_overflow_isr cfg) s = Some s' ->
  post_ack s' = (if truthy (post_ack s) then 0 else 1) /\
  USISR s' = usisr_write (USISR s) (if truthy (post_ack s) then 0xD0 else 0xDE) /\
  USI_PORT s' = USI_PORT s /\
  USICR s' = USICR s /\
  sreg_i s' = sreg_i s /\
  (USI_DDR s' = u8 (Z.lor (USI_DDR s) (Z.shiftl 1 (I2C_SDA cfg))) \/
   USI_DDR s' = u8 (Z.land (USI_DDR s) (Z.lnot (Z.shiftl 1 (I2C_SDA cfg))))).
Proof.
  isr_unfold. destruct (truthy (post_ack s)) eqn:Hpa; cbn.
  all: isr_cases; intros [= <-]; cbn; auto 10.
Qed.

(** X7: the handler alternates between its two phases on every call.
    Entered with the phase flag clear it sets it and arms the counter with
    14, one clock to the next overflow; entered with the flag set it clears
    it and arms the counter with 0, a whole byte. *)
Theorem X7_phases_alternate (cfg : config) (s s' : state) :
  exec (usi_overflow_isr cfg) s = Some s' ->
  (post_ack s = 0 -> post_ack s' = 1 /\ Z.land (USISR s') 0x0F = 14) /\
  (post_ack s <> 0 -> post_ack s' = 0 /\ Z.land (USISR s') 0x0F = 0).
Proof.
  intros H. destruct (overflow_hw cfg s s' H) as (Hpa & Hsr & _).
  rewrite Hpa, Hsr, usisr_write_counter. split.
  - intros H0. apply truthy_false in H0. rewrite H0. split; reflexivity.
  - intros H1. apply truthy_true in H1. rewrite H1. split; reflexivity.
Qed.

Lemma X7_phases_alternate_witness :
  exists s',
    exec (usi_overflow_isr defs_leds)
      (set_i2c_state I2C_STATE_IDLE (power_on [])) = Some s' /\
    post_ack s' = 1 /\ Z.land (USISR s') 0x0F = 14.
Proof.
  destruct (exec (usi_overflow_isr defs_leds)
              (set_i2c_state I2C_STATE_IDLE (power_on []))) as [s'|] eqn:E;
    [|vm_compute in E; discriminate].
  exists s'. split; [reflexivity|].
  apply (X7_phases_alternate defs_leds _ s' E). reflexivity.
Defined.

(** X8: the handler never clears the stop flag: in both phases the value it
    writes to USISR has a 0 at USIPF, so the flag reads after the handler as
    it did before, while the start and overflow flags read 0. *)
Theorem X8_stop_flag_survives (cfg : config) (s s' : state) :
  exec (usi_overflow_isr cfg) s = Some s' ->
  Z.testbit (USISR s') USIPF = Z.testbit (USISR s) USIPF /\
  Z.testbit (USISR s') USIOIF = false /\
  Z.testbit (USISR s') USISIF = false.
Proof.
  intros H. destruct (overflow_hw cfg s s' H) as (_ & Hsr & _).
  rewrite Hsr, !usisr_write_testbit by (unfold USIPF, USIOIF, USISIF; lia).
  destruct (truthy (post_ack s)); cbn;
    rewrite ?andb_true_r, ?andb_false_r, ?orb_false_r; repeat split.
Qed.

Lemma X8_stop_flag_survives_witness :
  exists s',
    exec (usi_overflow_isr defs_leds)
      (set_USISR 0x60 (set_i2c_state I2C_STATE_IDLE (power_on []))) = Some s' /\
    Z.testbit (USISR s') USIPF = true.
Proof.
  destruct (exec (usi_overflow_isr defs_leds)
              (set_USISR 0x60 (set_i2c_state I2C_STATE_IDLE (power_on []))))
    as [s'|] eqn:E; [|vm_compute in E; discriminate].
  exists s'. split; [reflexivity|].
  destruct (X8_stop_flag_survives defs_leds _ s' E) as (H & _).
  rewrite H. reflexivity.
Defined.

(** X9: of the port the handler touches one bit: every bit of the
    direction register other than SDA, the whole port register, the control
    register and the interrupt flag are after the handler what they were
    before. *)
Theorem X9_only_sda_direction (cfg : config) (s s' : state) :
  0 <= I2C_SDA cfg ->
  byte (USI_DDR s) ->
  exec (usi_overflow_isr cfg) s = Some s' ->
  (forall k, k <> I2C_SDA cfg ->
     Z.testbit (USI_DDR s') k = Z.testbit (USI_DDR s) k) /\
  USI_PORT s' = USI_PORT s /\
  USICR s' = USICR s /\
  sreg_i s' = sreg_i s.
Proof.
  intros Hsda Bd H.
  destruct (overflow_hw cfg s s' H) as (_ & _ & Hport & Hcr & Hi & Hddr).
  split; [|auto]. intros k Hk.
  destruct (Z.neg_nonneg_cases k) as [Hneg|Hnn];
    [now rewrite !Z.testbit_neg_r|].
  destruct (Z.lt_ge_cases k 8) as [Hlt|Hge].
  - destruct Hddr as [-> | ->]; rewrite u8_testbit by lia.
    + rewrite Z.lor_spec, Z.shiftl_1_l, Z.pow2_bits_false by lia.
      apply orb_false_r.
    + rewrite Z.land_spec, Z.lnot_spec, Z.shiftl_1_l, Z.pow2_bits_false by lia.
      apply andb_true_r.
  - rewrite (byte_testbit_high _ _ Bd Hge).
    destruct Hddr as [-> | ->]; now apply u8_testbit_high.
Qed.

Lemma X9_only_sda_direction_witness :
  exists s',
    exec (usi_overflow_isr (defs_example [0xFF; 0x0F]))
      (set_USI_DDR 0x04 (power_on [0; 0])) = Some s' /\
    Z.testbit (USI_DDR s') 2 = true.
Proof.
  destruct (exec (usi_overflow_isr (defs_example [0xFF; 0x0F]))
              (set_USI_DDR 0x04 (power_on [0; 0]))) as [s'|] eqn:E;
    [|vm_compute in E; discriminate].
  exists s'. split; [reflexivity|].
  destruct (X9_only_sda_direction (defs_example [0xFF; 0x0F])
              (set_USI_DDR 0x04 (power_on [0; 0])) s') as (H & _);
    [closed_goal | closed_goal | exact E |].
  rewrite H; [reflexivity|]. vm_compute. discriminate.
Defined.


(** ** The state machine *)

Ltac eqb_facts :=
  repeat match goal with
         | H : (_ =? _) = true |- _ => apply Z.eqb_eq in H
         | H : (_ =? _) = false |- _ => apply Z.eqb_neq in H
         end.

Ltac state_values :=
  unfold I2C_STATE_ADDR_MATCH, I2C_STATE_REG_ADDR, I2C_STATE_MASTER_READ,
    I2C_STATE_MASTER_WRITE, I2C_STATE_IDLE in *.

Lemma overflow_state_step (cfg : config) (s s' : state) :
  exec (usi_overflow_isr cfg) s = Some s' ->
  (i2c_state s' = i2c_state s \/
   documented_transition (i2c_state s) (i2c_state s')) /\
  (i2c_state s = I2C_STATE_MASTER_WRITE ->
   i2c_state s' = I2C_STATE_MASTER_WRITE) /\
  (i2c_state s' = I2C_STATE_ADDR_MATCH ->
   i2c_state s = I2C_STATE_ADDR_MATCH) /\
  (post_ack s <> 0 ->
   i2c_state s' = i2c_state s \/
   (i2c_state s = I2C_STATE_MASTER_READ /\ i2c_state s' = I2C_STATE_IDLE)).
Proof.
  isr_unfold. unfold documented_transition.
  destruct (truthy (post_ack s)) eqn:Hpa; cbn.
  - apply truthy_true in Hpa.
    isr_cases; intros [= <-]; cbn; eqb_facts; state_values;
      intuition congruence.
  - apply truthy_false in Hpa.
    isr_cases; intros [= <-]; cbn; eqb_facts; state_values;
      intuition congruence.
Qed.

(** X10: the overflow handler and the stop poller make no transition that
    the table in the source does not list: each call leaves the state or
    follows one of the lettered arrows.  The overflow handler never leaves
    MASTER_WRITE and never enters ADDR_MATCH, after the ACK slot it changes
    the state only from MASTER_READ to IDLE, and the stop poller changes it
    only from MASTER_WRITE to IDLE. *)
Theorem X10_transition_table (cfg : config) (s s' : state) :
  (exec (usi_overflow_isr cfg) s = Some s' ->
     (i2c_state s' = i2c_state s \/
      documented_transition (i2c_state s) (i2c_state s')) /\
     (i2c_state s = I2C_STATE_MASTER_WRITE ->
      i2c_state s' = I2C_STATE_MASTER_WRITE) /\
     (i2c_state s' = I2C_STATE_ADDR_MATCH ->
      i2c_state s = I2C_STATE_ADDR_MATCH) /\
     (post_ack s <> 0 ->
      i2c_state s' = i2c_state s \/
      (i2c_state s = I2C_STATE_MASTER_READ /\
       i2c_state s' = I2C_STATE_IDLE))) /\
  (exec i2c_check_stop s = Some s' ->
     i2c_state s' = i2c_state s \/
     (i2c_state s = I2C_STATE_MASTER_WRITE /\
      i2c_state s' = I2C_STATE_IDLE)).
Proof.
  split; [apply overflow_state_step|].
  isr_unfold. isr_cases; intros [= <-]; cbn; eqb_facts; auto.
  apply andb_true_iff in Heqb as [H _]. eqb_facts. auto.
Qed.

Lemma X10_transition_table_witness :
  exists s',
    exec (usi_overflow_isr (defs_example [0xFF; 0x0F]))
      (set_USIDR 0x22 (power_on [0; 0])) = Some s' /\
    (i2c_state s' = I2C_STATE_ADDR_MATCH \/
     documented_transition I2C_STATE_ADDR_MATCH (i2c_state s')).
Proof.
  destruct (exec (usi_overflow_isr (defs_example [0xFF; 0x0F]))
              (set_USIDR 0x22 (power_on [0; 0]))) as [s'|] eqn:E;
    [|vm_compute in E; discriminate].
  exists s'. split; [reflexivity|].
  exact (proj1 (proj1 (X10_transition_table (defs_example [0xFF; 0x0F])
                         (set_USIDR 0x22 (power_on [0; 0])) s') E)).
Defined.

(** ** The start handler *)

Lemma wait_scl_low_iff (cfg : config) (pinb : list Z) :
  wait_scl_low cfg pinb = Some tt
  <-> exists v, In v pinb /\ Z.land v (Z.shiftl 1 (I2C_SCL cfg)) = 0.
Proof.
  induction pinb as [|v rest IH]; cbn [wait_scl_low].
  - split; [discriminate|]. intros (v & [] & _).
  - destruct (truthy (Z.land v (Z.shiftl 1 (I2C_SCL cfg)))) eqn:Ht.
    + apply truthy_true in Ht. rewrite IH. split.
      * intros (w & Hw & Hz). exists w. split; [now right|exact Hz].
      * intros (w & [<-|Hw] & Hz); [contradiction|]. now exists w.
    + apply truthy_false in Ht. split; [|reflexivity].
      intros _. exists v. split; [now left|exact Ht].
Qed.

Lemma start_vars (cfg : config) (pinb : list Z) (s s' : state) :
  exec (usi_start_isr cfg pinb) s = Some s' ->
  vars s' = (i2c_update s, I2C_STATE_ADDR_MATCH, i2c_offset s, post_ack s,
             i2c_reg s).
Proof.
  isr_unfold. cbn. destruct (wait_scl_low cfg pinb); [|discriminate].
  now intros [= <-].
Qed.

(** X11: the start handler returns exactly when one of the values it reads
    from the input port shows SCL low.  When it returns, the state is
    ADDR_MATCH whatever it was before, the start, overflow and stop flags
    read 0 and the counter is 0; the phase flag, the update counter, the
    offset, the registers, the shift register and the port are left
    alone. *)
Theorem X11_start_handler (cfg : config) (pinb : list Z) (s : state) :
  ((exists s', exec (usi_start_isr cfg pinb) s = Some s')
   <-> exists v, In v pinb /\ Z.land v (Z.shiftl 1 (I2C_SCL cfg)) = 0) /\
  (forall s',
     exec (usi_start_isr cfg pinb) s = Some s' ->
     vars s' = (i2c_update s, I2C_STATE_ADDR_MATCH, i2c_offset s, post_ack s,
                i2c_reg s) /\
     Z.testbit (USISR s') USISIF = false /\
     Z.testbit (USISR s') USIOIF = false /\
     Z.testbit (USISR s') USIPF = false /\
     Z.land (USISR s') 0x0F = 0 /\
     USIDR s' = USIDR s /\ USI_DDR s' = USI_DDR s /\
     USI_PORT s' = USI_PORT s /\ USICR s' = USICR s /\
     sreg_i s' = sreg_i s).
Proof.
  split.
  - rewrite <- wait_scl_low_iff. isr_unfold. cbn.
    destruct (wait_scl_low cfg pinb) as [[]|]; split; eauto.
    + intros [s' H]. discriminate.
    + discriminate.
  - intros s'. isr_unfold. cbn.
    destruct (wait_scl_low cfg pinb); [|discriminate].
    intros [= <-]. cbn.
    rewrite usisr_write_counter,
      !usisr_write_testbit by (unfold USISIF, USIOIF, USIPF; lia).
    cbn. rewrite ?andb_false_r. repeat split.
Qed.

Lemma X11_start_handler_witness :
  exists s',
    exec (usi_start_isr (defs_example [0xFF; 0x0F]) [0x04; 0x04; 0x01])
      (set_USISR 0xA0 (set_post_ack 1
         (set_i2c_state I2C_STATE_MASTER_WRITE (power_on [0; 0]))))
    = Some s' /\
    i2c_state s' = I2C_STATE_ADDR_MATCH /\ post_ack s' = 1 /\
    Z.testbit (USISR s') USIPF = false.
Proof.
  destruct (X11_start_handler (defs_example [0xFF; 0x0F]) [0x04; 0x04; 0x01]
              (set_USISR 0xA0 (set_post_ack 1
                 (set_i2c_state I2C_STATE_MASTER_WRITE (power_on [0; 0])))))
    as (Hret & Heff).
  destruct (proj2 Hret) as [s' Hs'].
  - exists 0x01. split; [right; right; left; reflexivity|reflexivity].
  - exists s'. split; [exact Hs'|].
    destruct (Heff s' Hs') as (Hv & _ & _ & Hpf & _).
    injection Hv as _ Hst _ Hpa _.
    split; [exact Hst|]. split; [exact Hpa|exact Hpf].
Defined.

(** X12: the start handler does not reset the phase flag.  If a start
    condition arrives while the flag is set, the overflow that follows the
    address byte is taken for the end of an ACK slot: the byte is not
    looked at, nothing is driven on SDA, and the state is still
    ADDR_MATCH, with the phase flag now clear. *)
Theorem X12_start_keeps_phase (cfg : config) (pinb : list Z) (s s1 : state)
    (a : Z) :
  0 <= I2C_SDA cfg < 8 ->
  post_ack s <> 0 ->
  exec (usi_start_isr cfg pinb) s = Some s1 ->
  exists s2,
    exec (usi_overflow_isr cfg) (hw_shift_in a s1) = Some s2 /\
    i2c_state s2 = I2C_STATE_ADDR_MATCH /\
    USIDR s2 = u8 a /\
    Z.testbit (USI_DDR s2) (I2C_SDA cfg) = false /\
    post_ack s2 = 0 /\
    i2c_update s2 = i2c_update s /\
    i2c_reg s2 = i2c_reg s.
Proof.
  intros Hsda Hpa Hs1.
  pose proof (start_vars cfg pinb s s1 Hs1) as Hv.
  injection Hv as Hu1 Hst1 Hoff1 Hpa1 Hreg1.
  eexists. split.
  - unfold exec. rewrite overflow_post_idle; [reflexivity| |].
    + cbn. rewrite Hpa1. now apply truthy_true.
    + cbn. rewrite Hst1. discriminate.
  - rewrite exit_state, exit_USIDR, exit_post_ack, exit_update, exit_reg,
      exit_sda_in by assumption.
    cbn. repeat split; assumption.
Qed.

Lemma X12_start_keeps_phase_witness :
  exists s1 s2,
    exec (usi_start_isr (defs_example [0xFF; 0x0F]) [0])
      (set_post_ack 1 (set_i2c_state I2C_STATE_MASTER_WRITE (power_on [0; 0])))
    = Some s1 /\
    exec (usi_overflow_isr (defs_example [0xFF; 0x0F])) (hw_shift_in 0x80 s1)
    = Some s2 /\
    i2c_state s2 = I2C_STATE_ADDR_MATCH /\ USIDR s2 = 0x80.
Proof.
  destruct (exec (usi_start_isr (defs_example [0xFF; 0x0F]) [0])
              (set_post_ack 1 (set_i2c_state I2C_STATE_MASTER_WRITE
                                 (power_on [0; 0])))) as [s1|] eqn:E;
    [|vm_compute in E; discriminate].
  destruct (X12_start_keeps_phase (defs_example [0xFF; 0x0F]) [0]
              (set_post_ack 1 (set_i2c_state I2C_STATE_MASTER_WRITE
                                 (power_on [0; 0]))) s1 0x80)
    as (s2 & Hs2 & Hst & Hd & _); [closed_goal | closed_goal | exact E |].
  exists s1, s2. split; [reflexivity|]. split; [exact Hs2|].
  split; [exact Hst|exact Hd].
Defined.

(** ** Initialisation of the port *)

Lemma testbit_set_other x j k :
  0 <= j -> 0 <= k -> j <> k ->
  Z.testbit (Z.lor x (Z.shiftl 1 j)) k = Z.testbit x k.
Proof.
  intros Hj Hk Hne.
  rewrite Z.lor_spec, Z.shiftl_1_l, Z.pow2_bits_false by lia.
  apply orb_false_r.
Qed.

Lemma testbit_clear_other x j k :
  0 <= j -> 0 <= k -> j <> k ->
  Z.testbit (Z.land x (Z.lnot (Z.shiftl 1 j))) k = Z.testbit x k.
Proof.
  intros Hj Hk Hne.
  rewrite Z.land_spec, Z.lnot_spec, Z.shiftl_1_l, Z.pow2_bits_false by lia.
  apply andb_true_r.
Qed.

Lemma testbit_set_same x k :
  0 <= k -> Z.testbit (Z.lor x (Z.shiftl 1 k)) k = true.
Proof.
  intros Hk. rewrite Z.lor_spec, Z.shiftl_1_l, Z.pow2_bits_true by lia.
  apply orb_true_r.
Qed.

(** X13: [i2c_init] makes SCL an output and SDA an input, turns the
    pull-ups of both pins on and leaves every other pin of the port as it
    was, provided SDA and SCL are two different pins of the port.  It loads
    the control register with 0xF8 (both interrupts, two-wire mode holding
    SCL on overflow, external clock), clears the three flags and the
    counter, and resets only the protocol state: update counter, offset,
    phase flag and registers keep their values. *)
Theorem X13_init_port (cfg : config) (s : state) :
  0 <= I2C_SDA cfg < 8 ->
  0 <= I2C_SCL cfg < 8 ->
  I2C_SDA cfg <> I2C_SCL cfg ->
  exists s',
    exec (i2c_init cfg) s = Some s' /\
    Z.testbit (USI_DDR s') (I2C_SCL cfg) = true /\
    Z.testbit (USI_DDR s') (I2C_SDA cfg) = false /\
    Z.testbit (USI_PORT s') (I2C_SDA cfg) = true /\
    Z.testbit (USI_PORT s') (I2C_SCL cfg) = true /\
    (forall k, 0 <= k < 8 -> k <> I2C_SDA cfg -> k <> I2C_SCL cfg ->
       Z.testbit (USI_DDR s') k = Z.testbit (USI_DDR s) k /\
       Z.testbit (USI_PORT s') k = Z.testbit (USI_PORT s) k) /\
    USICR s' = 0xF8 /\
    Z.testbit (USISR s') USISIF = false /\
    Z.testbit (USISR s') USIOIF = false /\
    Z.testbit (USISR s') USIPF = false /\
    Z.land (USISR s') 0x0F = 0 /\
    vars s' = (i2c_update s, I2C_STATE_ADDR_MATCH, i2c_offset s, post_ack s,
               i2c_reg s).
Proof.
  intros Hsda Hscl Hne. isr_unfold. cbn. eexists. split; [reflexivity|]. cbn.
  rewrite usisr_write_counter,
    !usisr_write_testbit by (unfold USISIF, USIOIF, USIPF; lia).
  repeat split.
  all: try (destruct (Z.testbit (USISR s) _); reflexivity).
  - rewrite u8_testbit, testbit_clear_other, u8_testbit, testbit_set_same by lia.
    reflexivity.
  - now apply ddr_clear_bit.
  - rewrite u8_testbit, Z.lor_assoc, testbit_set_other, testbit_set_same by lia.
    reflexivity.
  - rewrite u8_testbit, Z.lor_assoc, testbit_set_same by lia. reflexivity.
  - rewrite u8_testbit, testbit_clear_other, u8_testbit, testbit_set_other
      by lia. reflexivity.
  - rewrite u8_testbit, Z.lor_assoc, !testbit_set_other by lia. reflexivity.
Qed.

Lemma X13_init_port_witness :
  exists s',
    exec (i2c_init defs_leds)
      (set_USI_PORT 0x03 (set_USI_DDR 0x23 (set_i2c_update 2
         (set_i2c_offset 7 (power_on []))))) = Some s' /\
    USI_DDR s' = 0x83 /\ USI_PORT s' = 0xA3 /\ i2c_update s' = 2.
Proof.
  destruct (X13_init_port defs_leds
              (set_USI_PORT 0x03 (set_USI_DDR 0x23 (set_i2c_update 2
                 (set_i2c_offset 7 (power_on []))))))
    as (s' & Hs' & _); [closed_goal .. |].
  exists s'. split; [exact Hs'|].
  vm_compute in Hs'. injection Hs' as <-. repeat split.
Defined.

(** ** The stop poller and the ongoing query *)

(** X14: right after the address byte, [i2c_transaction_ongoing] tells
    whether the address was taken: it returns 1 when the upper seven bits
    are our address or zero and 0 otherwise, and changes nothing. *)
Theorem X14_ongoing_after_address (cfg : config) (s : state) :
  byte (USIDR s) ->
  post_ack s = 0 ->
  i2c_state s = I2C_STATE_ADDR_MATCH ->
  exists s' r,
    exec (usi_overflow_isr cfg) s = Some s' /\
    i2c_transaction_ongoing s' = Some (r, s') /\
    (Z.shiftr (USIDR s) 1 = 0 \/ Z.shiftr (USIDR s) 1 = I2C_SLAVE_ADDR cfg ->
     r = 1) /\
    (Z.shiftr (USIDR s) 1 <> 0 /\ Z.shiftr (USIDR s) 1 <> I2C_SLAVE_ADDR cfg ->
     r = 0).
Proof.
  intros Bd Hpa Hst. apply truthy_false in Hpa.
  pose proof (addr_mismatch_iff cfg (USIDR s) Bd) as Hiff.
  unfold exec.
  destruct (truthy (u8 (Z.shiftr (USIDR s) 1))
            && negb (u8 (Z.shiftr (USIDR s) 1) =? I2C_SLAVE_ADDR cfg)) eqn:Hm.
  - rewrite overflow_h by assumption. eexists. exists 0.
    split; [reflexivity|]. split.
    + unfold i2c_transaction_ongoing, bind, load. rewrite exit_state.
      reflexivity.
    + split; [|reflexivity]. intros H.
      destruct (proj1 Hiff eq_refl). tauto.
  - assert (Hno : ~ (Z.shiftr (USIDR s) 1 <> 0 /\
                     Z.shiftr (USIDR s) 1 <> I2C_SLAVE_ADDR cfg)).
    { intros H. apply Hiff in H. discriminate. }
    destruct (truthy (Z.land (USIDR s) 1)) eqn:Hrw.
    + rewrite overflow_b by assumption. eexists. exists 1.
      split; [reflexivity|]. split.
      * unfold i2c_transaction_ongoing, bind, load. rewrite exit_state.
        reflexivity.
      * split; [reflexivity|tauto].
    + rewrite overflow_a by assumption. eexists. exists 1.
      split; [reflexivity|]. split.
      * unfold i2c_transaction_ongoing, bind, load. rewrite exit_state.
        reflexivity.
      * split; [reflexivity|tauto].
Qed.

Lemma X14_ongoing_after_address_witness :
  exists s' r,
    exec (usi_overflow_isr defs_leds) (set_USIDR 0x81 (power_on [])) = Some s' /\
    i2c_transaction_ongoing s' = Some (r, s') /\ r = 1.
Proof.
  destruct (X14_ongoing_after_address defs_leds (set_USIDR 0x81 (power_on [])))
    as (s' & r & Hs' & Hr & Hyes & _); [closed_goal .. |].
  exists s', r. split; [exact Hs'|]. split; [exact Hr|].
  apply Hyes. right. reflexivity.
Defined.

(** X15: the poller reports a transaction once.  Called again with nothing
    having happened in between it returns 0 and changes nothing; and after a
    call that returned a non-zero value [i2c_transaction_ongoing] returns
    0. *)
Theorem X15_poll_reports_once (s s' : state) (r : Z) :
  i2c_check_stop s = Some (r, s') ->
  i2c_check_stop s' = Some (0, s') /\
  (r <> 0 -> i2c_transaction_ongoing s' = Some (0, s')).
Proof.
  destruct s as [u st off pa reg dr sr cr ddr port i].
  isr_unfold. cbn.
  destruct (st =? I2C_STATE_MASTER_WRITE) eqn:Est; cbn;
    [destruct (truthy u) eqn:Eu; cbn;
     [destruct (truthy (Z.land sr (Z.shiftl 1 USIPF))) eqn:Epf; cbn|]|];
    intros [= <- <-]; cbn; rewrite ?Est, ?Eu; cbn; rewrite ?Epf; cbn;
    (split; [reflexivity|]); intros H; try contradiction.
  reflexivity.
Qed.

Lemma X15_poll_reports_once_witness :
  exists s',
    i2c_check_stop
      (set_USISR 0x20 (set_i2c_update 3
         (set_i2c_state I2C_STATE_MASTER_WRITE (power_on [0; 0]))))
    = Some (3, s') /\
    i2c_check_stop s' = Some (0, s').
Proof.
  eexists. split; [vm_compute; reflexivity|].
  refine (proj1 (X15_poll_reports_once
                   (set_USISR 0x20 (set_i2c_update 3
                      (set_i2c_state I2C_STATE_MASTER_WRITE (power_on [0; 0]))))
                   _ 3 _)).
  vm_compute. reflexivity.
Defined.

(** X16: the poller touches no hardware register, so it does not clear the
    stop flag it acts on, and it moves neither the offset nor the phase
    flag.  Whenever it gets as far as reading the flag (state MASTER_WRITE,
    counter not 0) it leaves interrupts enabled, also when they were
    disabled at the call; otherwise the interrupt flag stays. *)
Theorem X16_poller_footprint (s s' : state) (r : Z) :
  i2c_check_stop s = Some (r, s') ->
  USISR s' = USISR s /\ USIDR s' = USIDR s /\ USICR s' = USICR s /\
  USI_DDR s' = USI_DDR s /\ USI_PORT s' = USI_PORT s /\
  i2c_offset s' = i2c_offset s /\ post_ack s' = post_ack s /\
  (i2c_state s = I2C_STATE_MASTER_WRITE /\ i2c_update s <> 0 ->
   sreg_i s' = true) /\
  (~ (i2c_state s = I2C_STATE_MASTER_WRITE /\ i2c_update s <> 0) ->
   sreg_i s' = sreg_i s).
Proof.
  isr_unfold. cbn.
  destruct (Z.eqb_spec (i2c_state s) I2C_STATE_MASTER_WRITE) as [Est|Est];
    cbn; [destruct (truthy (i2c_update s)) eqn:Eu; cbn|].
  - apply truthy_true in Eu.
    destruct (truthy (Z.land (USISR s) (Z.shiftl 1 USIPF)));
      intros [= <- <-]; cbn; repeat split; tauto.
  - apply truthy_false in Eu. intros [= <- <-].
    repeat split; tauto.
  - intros [= <- <-]. repeat split; tauto.
Qed.

Lemma X16_poller_footprint_witness :
  exists r s',
    i2c_check_stop
      (set_i2c_update 1 (set_i2c_state I2C_STATE_MASTER_WRITE (power_on [0])))
    = Some (r, s') /\
    sreg_i (power_on [0]) = false /\ sreg_i s' = true /\ r = 0.
Proof.
  eexists. eexists. split; [vm_compute; reflexivity|].
  split; [reflexivity|]. split; [|reflexivity].
  refine (proj1 (proj2 (proj2 (proj2 (proj2 (proj2 (proj2 (proj2
    (X16_poller_footprint
       (set_i2c_update 1 (set_i2c_state I2C_STATE_MASTER_WRITE (power_on [0])))
       _ 0 _)))))))) _).
  - vm_compute. reflexivity.
  - vm_compute. split; [reflexivity|discriminate].
Defined.

(** ** Writable bits *)

(** X17: a data byte in MASTER_WRITE changes one register only, the one
    under the offset, and every bit of it that the write mask marks
    writable takes the value of the same bit of the received byte. *)
Theorem X17_writable_bits (cfg : config) (s : state) (old mask p : Z) :
  post_ack s = 0 ->
  i2c_state s = I2C_STATE_MASTER_WRITE ->
  i2c_reg s !! Z.to_nat (i2c_offset s) = Some old ->
  write_mask cfg (Z.to_nat (i2c_offset s)) = Some mask ->
  0 <= p < 8 ->
  Z.testbit mask p = true ->
  exists s' v',
    usi_overflow_isr cfg s = Some (tt, s') /\
    i2c_reg s' !! Z.to_nat (i2c_offset s) = Some v' /\
    Z.testbit v' p = Z.testbit (USIDR s) p /\
    length (i2c_reg s') = length (i2c_reg s) /\
    (forall j, j <> Z.to_nat (i2c_offset s) ->
       i2c_reg s' !! j = i2c_reg s !! j).
Proof.
  intros Hpa Hst Hold Hmask Hp Hbit. apply truthy_false in Hpa.
  pose proof (effective_write_mask _ _ _ Hmask) as Hm.
  assert (Hbit8 : Z.testbit (u8 mask) p = true) by (now rewrite u8_testbit).
  assert (Ht : truthy (u8 mask) = true).
  { apply truthy_true. intros E. rewrite E, Z.bits_0 in Hbit8. discriminate. }
  eexists. eexists.
  split; [now apply (overflow_g cfg s (u8 mask) old)|].
  rewrite exit_reg. cbn.
  rewrite list_lookup_insert_eq by (eapply lookup_lt_Some; eassumption).
  split; [reflexivity|]. split; [|split].
  - rewrite merge_masked_testbit, Hbit8 by assumption. cbn.
    now rewrite andb_false_r, andb_true_r.
  - apply length_insert.
  - intros j Hj. now apply list_lookup_insert_ne.
Qed.

Lemma X17_writable_bits_witness :
  exists s' v',
    usi_overflow_isr (defs_example [0xFF; 0x0F])
      (set_USIDR 0x35 (set_i2c_offset 1
         (set_i2c_state I2C_STATE_MASTER_WRITE (power_on [0x77; 0xAA]))))
    = Some (tt, s') /\
    i2c_reg s' !! 1%nat = Some v' /\ Z.testbit v' 2 = true /\
    i2c_reg s' !! 0%nat = Some 0x77.
Proof.
  destruct (X17_writable_bits (defs_example [0xFF; 0x0F])
              (set_USIDR 0x35 (set_i2c_offset 1
                 (set_i2c_state I2C_STATE_MASTER_WRITE (power_on [0x77; 0xAA]))))
              0xAA 0x0F 2)
    as (s' & v' & Hs' & Hv' & Hb & _ & Hother); [closed_goal .. |].
  exists s', v'. split; [exact Hs'|]. split; [exact Hv'|].
  split; [exact Hb|]. rewrite Hother; [reflexivity|discriminate].
Defined.

(** ** Transactions that are not for us, or not valid *)

Section IgnoredBytes.

Variables (cfg : config).

(** An address byte that does not match. *)
Lemma run_byte_mismatch (s : state) (a : Z) :
  post_ack s = 0 ->
  i2c_state s = I2C_STATE_ADDR_MATCH ->
  0 <= i2c_offset s < I2C_N_REG cfg ->
  byte a ->
  Z.shiftr a 1 <> 0 /\ Z.shiftr a 1 <> I2C_SLAVE_ADDR cfg ->
  exists s',
    run_event cfg (BYTE a) s = Some s' /\
    vars s' = (i2c_update s, I2C_STATE_IDLE, i2c_offset s, 0, i2c_reg s).
Proof.
  intros Hpa Hst Hoff Ba Hm.
  edestruct (run_byte cfg a s) as (s' & Hs' & Hv).
  - apply overflow_h.
    + cbn. now rewrite Hpa.
    + exact Hst.
    + cbn. rewrite (u8_small a Ba). now apply addr_mismatch_iff.
  - now rewrite exit_post_ack.
  - rewrite exit_state. cbn. discriminate.
  - rewrite exit_offset. cbn. rewrite clamp_in_range by assumption. lia.
  - exists s'. split; [exact Hs'|]. rewrite Hv.
    rewrite exit_update, exit_state, exit_offset, exit_reg. cbn.
    now rewrite clamp_in_range.
Qed.

(** Any byte while the engine is idle. *)
Lemma run_byte_idle (s : state) (b : Z) :
  post_ack s = 0 ->
  i2c_state s = I2C_STATE_IDLE ->
  0 <= i2c_offset s < I2C_N_REG cfg ->
  exists s',
    run_event cfg (BYTE b) s = Some s' /\
    vars s' = (i2c_update s, I2C_STATE_IDLE, i2c_offset s, 0, i2c_reg s).
Proof.
  intros Hpa Hst Hoff.
  edestruct (run_byte cfg b s) as (s' & Hs' & Hv).
  - apply overflow_default; cbn; rewrite ?Hpa, ?Hst; try reflexivity;
      discriminate.
  - now rewrite exit_post_ack.
  - rewrite exit_state. cbn. rewrite Hst. discriminate.
  - rewrite exit_offset. cbn. rewrite clamp_in_range by assumption. lia.
  - exists s'. split; [exact Hs'|]. rewrite Hv.
    rewrite exit_update, exit_state, exit_offset, exit_reg. cbn.
    now rewrite clamp_in_range, Hst.
Qed.

Lemma run_bytes_idle (bs : list Z) :
  forall s : state,
    post_ack s = 0 ->
    i2c_state s = I2C_STATE_IDLE ->
    0 <= i2c_offset s < I2C_N_REG cfg ->
    exists s',
      run_bus cfg (BYTE <$> bs) s = Some s' /\
      vars s' = (i2c_update s, I2C_STATE_IDLE, i2c_offset s, 0, i2c_reg s).
Proof.
  induction bs as [|b bs IH]; intros s Hpa Hst Hoff.
  - exists s. split; [reflexivity|]. unfold vars. now rewrite Hpa, Hst.
  - destruct (run_byte_idle s b Hpa Hst Hoff) as (s1 & Hs1 & Hv1).
    injection Hv1 as Hu1 Hst1 Hoff1 Hpa1 Hreg1.
    destruct (IH s1) as (s' & Hs' & Hv'); try assumption; [lia|].
    exists s'. split.
    + change (run_bus cfg (BYTE b :: (BYTE <$> bs)) s = Some s').
      cbn [run_bus]. now rewrite Hs1.
    + rewrite Hv'. congruence.
Qed.

End IgnoredBytes.

(** X18: after an address byte that is neither ours nor zero the engine
    ignores the bus until the next start: whatever bytes follow, registers,
    offset and update counter are as before the transaction, the state is
    IDLE, [i2c_transaction_ongoing] returns 0 and the poller returns 0. *)
Theorem X18_foreign_address_ignored (cfg : config) (s : state)
    (pinb : list Z) (a : Z) (bs : list Z) :
  post_ack s = 0 ->
  0 <= i2c_offset s < I2C_N_REG cfg ->
  wait_scl_low cfg pinb = Some tt ->
  byte a ->
  Z.shiftr a 1 <> 0 /\ Z.shiftr a 1 <> I2C_SLAVE_ADDR cfg ->
  exists s',
    run_bus cfg (START pinb :: BYTE a :: (BYTE <$> bs)) s = Some s' /\
    vars s' = (i2c_update s, I2C_STATE_IDLE, i2c_offset s, 0, i2c_reg s) /\
    i2c_transaction_ongoing s' = Some (0, s') /\
    i2c_check_stop s' = Some (0, s').
Proof.
  intros Hpa Hoff Hw Ba Hm.
  destruct (run_start cfg pinb s Hw) as (s1 & Hs1 & Hv1).
  injection Hv1 as Hu1 Hst1 Hoff1 Hpa1 Hreg1.
  destruct (run_byte_mismatch cfg s1 a ltac:(congruence) Hst1 ltac:(lia) Ba Hm)
    as (s2 & Hs2 & Hv2).
  injection Hv2 as Hu2 Hst2 Hoff2 Hpa2 Hreg2.
  destruct (run_bytes_idle cfg bs s2 Hpa2 Hst2 ltac:(lia))
    as (s' & Hs' & Hv').
  exists s'. split; [cbn [run_bus]; now rewrite Hs1, Hs2|].
  split; [rewrite Hv'; congruence|].
  injection Hv' as _ Hst' _ _ _. split.
  - unfold i2c_transaction_ongoing, bind, load. now rewrite Hst'.
  - apply check_stop_quiet. left. rewrite Hst'. discriminate.
Qed.

Lemma X18_foreign_address_ignored_witness :
  exists s',
    run_bus (defs_example [0xFF; 0x0F])
      (START [0] :: BYTE 0x22 :: (BYTE <$> [0x01; 0xAB; 0xCD]))
      (power_on [0x12; 0x34]) = Some s' /\
    i2c_reg s' = [0x12; 0x34] /\ i2c_state s' = I2C_STATE_IDLE.
Proof.
  destruct (X18_foreign_address_ignored (defs_example [0xFF; 0x0F])
              (power_on [0x12; 0x34]) [0] 0x22 [0x01; 0xAB; 0xCD])
    as (s' & Hs' & Hv & _); [closed_goal .. |].
  exists s'. split; [exact Hs'|].
  injection Hv as _ Hst _ _ Hreg. split; [exact Hreg|exact Hst].
Defined.

(** X19: a register offset that is not below I2C_N_REG ends the write
    before it begins: the data bytes that follow are ignored, the registers
    are as before, and after the stop the poller returns 0, although the
    update counter was set to 1 by the address match. *)
Theorem X19_bad_offset_ignored (cfg : config) (s : state) (pinb : list Z)
    (a b : Z) (ds : list Z) :
  0 < I2C_N_REG cfg ->
  post_ack s = 0 ->
  wait_scl_low cfg pinb = Some tt ->
  byte a ->
  Z.shiftr a 1 = 0 \/ Z.shiftr a 1 = I2C_SLAVE_ADDR cfg ->
  Z.testbit a 0 = false ->
  I2C_N_REG cfg <= b < 256 ->
  exists s',
    run_bus cfg ([START pinb; BYTE a; BYTE b] ++ (BYTE <$> ds) ++ [STOP]) s
    = Some s' /\
    vars s' = (1, I2C_STATE_IDLE, 0, 0, i2c_reg s) /\
    i2c_check_stop s' = Some (0, s').
Proof.
  intros Hn Hpa Hw Ba Hm Hrw Hb.
  destruct (run_start cfg pinb s Hw) as (s1 & Hs1 & Hv1).
  injection Hv1 as Hu1 Hst1 Hoff1 Hpa1 Hreg1.
  destruct (run_byte_addr_w cfg s1 ltac:(congruence) a) as (s2 & Hs2 & Hv2);
    try assumption.
  injection Hv2 as Hu2 Hst2 Hoff2 Hpa2 Hreg2.
  destruct (run_byte_offset_bad cfg s2 Hpa2 b Hst2 Hn ltac:(lia) Hb)
    as (s3 & Hs3 & Hv3).
  injection Hv3 as Hu3 Hst3 Hoff3 Hpa3 Hreg3.
  destruct (run_bytes_idle cfg ds s3 Hpa3 Hst3 ltac:(lia))
    as (s4 & Hs4 & Hv4).
  destruct (run_stop cfg s4) as (s5 & Hs5 & Hv5 & _).
  exists s5. split; [|split].
  - cbn [app run_bus]. rewrite Hs1, Hs2, Hs3.
    rewrite run_bus_app, Hs4. cbn [run_bus]. now rewrite Hs5.
  - rewrite Hv5, Hv4. congruence.
  - apply check_stop_quiet. left.
    injection Hv5 as _ Hst5 _ _ _. injection Hv4 as _ Hst4 _ _ _.
    rewrite Hst5, Hst4. discriminate.
Qed.

Lemma X19_bad_offset_ignored_witness :
  exists s',
    run_bus (defs_example [0xFF; 0x0F])
      ([START [0]; BYTE 0x80; BYTE 0x05] ++ (BYTE <$> [0xAB]) ++ [STOP])
      (power_on [0x12; 0x34]) = Some s' /\
    i2c_reg s' = [0x12; 0x34] /\ i2c_check_stop s' = Some (0, s').
Proof.
  destruct (X19_bad_offset_ignored (defs_example [0xFF; 0x0F])
              (power_on [0x12; 0x34]) [0] 0x80 0x05 [0xAB])
    as (s' & Hs' & Hv & Hp); [closed_goal .. |].
  exists s'. split; [exact Hs'|].
  injection Hv as _ _ _ _ Hreg. split; [exact Hreg|exact Hp].
Defined.

(** ** The stop flag along a transaction *)

Lemma overflow_stop_flag (cfg : config) (s s' : state) :
  exec (usi_overflow_isr cfg) s = Some s' ->
  Z.testbit (USISR s') USIPF = Z.testbit (USISR s) USIPF.
Proof.
  intros H. destruct (overflow_hw cfg s s' H) as (_ & Hsr & _).
  rewrite Hsr, usisr_write_testbit by (unfold USIPF; lia).
  destruct (truthy (post_ack s)), (Z.testbit (USISR s) USIPF); reflexivity.
Qed.

Lemma hw_overflow_stop_flag (s : state) :
  Z.testbit (USISR (hw_overflow s)) USIPF = Z.testbit (USISR s) USIPF.
Proof.
  cbn. rewrite Z.lor_spec, Z.land_spec.
  destruct (Z.testbit (USISR s) USIPF); reflexivity.
Qed.

Lemma byte_stop_flag (cfg : config) (b : Z) (s s' : state) :
  run_event cfg (BYTE b) s = Some s' ->
  Z.testbit (USISR s') USIPF = Z.testbit (USISR s) USIPF.
Proof.
  cbn [run_event].
  destruct (exec (usi_overflow_isr cfg) (hw_shift_in b s)) as [s1|] eqn:E1;
    [|discriminate].
  intros E2.
  rewrite (overflow_stop_flag _ _ _ E2).
  unfold hw_ack_clock. rewrite hw_overflow_stop_flag.
  change (USISR (set_USIDR _ s1)) with (USISR s1).
  rewrite (overflow_stop_flag _ _ _ E1).
  unfold hw_shift_in. now rewrite hw_overflow_stop_flag.
Qed.

Lemma bytes_stop_flag (cfg : config) (bs : list Z) :
  forall s s',
    run_bus cfg (BYTE <$> bs) s = Some s' ->
    Z.testbit (USISR s') USIPF = Z.testbit (USISR s) USIPF.
Proof.
  induction bs as [|b bs IH]; intros s s'.
  - now intros [= <-].
  - intros H. change (run_bus cfg (BYTE b :: (BYTE <$> bs)) s = Some s') in H.
    cbn [run_bus] in H.
    destruct (run_event cfg (BYTE b) s) as [s1|] eqn:E1; [|discriminate].
    rewrite (IH _ _ H). exact (byte_stop_flag _ _ _ _ E1).
Qed.

Lemma start_stop_flag (cfg : config) (pinb : list Z) (s s' : state) :
  run_event cfg (START pinb) s = Some s' ->
  Z.testbit (USISR s') USIPF = false.
Proof.
  cbn [run_event]. isr_unfold. cbn.
  destruct (wait_scl_low cfg pinb); [|discriminate].
  intros [= <-]. cbn.
  rewrite usisr_write_testbit by (unfold USIPF; lia).
  destruct (Z.testbit _ USIPF); reflexivity.
Qed.

Lemma check_stop_waits (s : state) :
  Z.testbit (USISR s) USIPF = false ->
  exists s', i2c_check_stop s = Some (0, s') /\ vars s' = vars s.
Proof.
  intros Hpf.
  pose proof (truthy_flag (USISR s) USIPF ltac:(unfold USIPF; lia)) as Hf.
  rewrite Hpf in Hf.
  isr_unfold. cbn.
  destruct ((i2c_state s =? I2C_STATE_MASTER_WRITE) && truthy (i2c_update s));
    cbn; [rewrite Hf|]; eexists; split; reflexivity.
Qed.

(** X20: the poller does not end a write that is still going on.  After the
    start, the address, a valid offset and any number of data bytes, with no
    stop yet, the stop flag reads 0 (the start handler cleared it and the
    overflow handler never sets it), so the poller returns 0 and leaves the
    state at MASTER_WRITE with the counter as it was. *)
Theorem X20_no_stop_no_report (cfg : config) (s : state) (pinb : list Z)
    (a b : Z) (ds : list Z) :
  wf_config cfg ->
  wf_regs cfg (i2c_reg s) ->
  post_ack s = 0 ->
  wait_scl_low cfg pinb = Some tt ->
  byte a ->
  Z.shiftr a 1 = 0 \/ Z.shiftr a 1 = I2C_SLAVE_ADDR cfg ->
  Z.testbit a 0 = false ->
  0 <= b < I2C_N_REG cfg ->
  Forall byte ds ->
  exists s' s'',
    run_bus cfg (START pinb :: (BYTE <$> a :: b :: ds)) s = Some s' /\
    i2c_state s' = I2C_STATE_MASTER_WRITE /\
    i2c_update s' = (1 + Z.of_nat (length ds)) mod 256 /\
    i2c_check_stop s' = Some (0, s'') /\
    vars s'' = vars s'.
Proof.
  intros Hcfg Hreg Hpa Hw Ba Hm Hrw Hb Hds.
  pose proof Hcfg as [Hn _].
  destruct (run_write_header cfg s pinb a b) as (s1 & Hs1 & Hv1);
    try assumption; try lia.
  injection Hv1 as Hu1 Hst1 Hoff1 Hpa1 Hreg1.
  destruct (run_data_bytes cfg Hcfg ds s1) as (s2 & Hs2 & Hv2);
    try assumption.
  { rewrite Hu1. unfold byte. lia. }
  { now rewrite Hoff1. }
  { now rewrite Hreg1. }
  injection Hv2 as Hu2 Hst2 Hoff2 Hpa2 Hreg2.
  assert (Hrun : run_bus cfg (START pinb :: (BYTE <$> a :: b :: ds)) s = Some s2).
  { change (START pinb :: (BYTE <$> a :: b :: ds))
      with ([START pinb; BYTE a; BYTE b] ++ (BYTE <$> ds)).
    now rewrite run_bus_app, Hs1. }
  assert (Hpf : Z.testbit (USISR s2) USIPF = false).
  { revert Hrun. cbn [run_bus].
    destruct (run_event cfg (START pinb) s) as [s0|] eqn:E0; [|discriminate].
    intros E. rewrite (bytes_stop_flag cfg (a :: b :: ds) _ _ E).
    exact (start_stop_flag _ _ _ _ E0). }
  destruct (check_stop_waits s2 Hpf) as (s3 & Hs3 & Hv3).
  exists s2, s3. split; [exact Hrun|]. split; [exact Hst2|].
  split; [rewrite Hu2, Hu1; reflexivity|]. split; [exact Hs3|exact Hv3].
Qed.

Lemma X20_no_stop_no_report_witness :
  exists s' s'',
    run_bus (defs_example [0xFF; 0x0F])
      (START [0] :: (BYTE <$> [0x80; 0x00; 0xAB])) (power_on [0; 0])
    = Some s' /\
    i2c_check_stop s' = Some (0, s'') /\
    i2c_state s'' = I2C_STATE_MASTER_WRITE /\ i2c_update s'' = 2.
Proof.
  destruct (X20_no_stop_no_report (defs_example [0xFF; 0x0F])
              (power_on [0; 0]) [0] 0x80 0x00 [0xAB])
    as (s' & s'' & Hs' & Hst & Hu & Hp & Hv).
  - apply defs_example_wf; [reflexivity|bytes].
  - split; [reflexivity|bytes].
  - reflexivity.
  - reflexivity.
  - unfold byte. lia.
  - right. reflexivity.
  - reflexivity.
  - vm_compute. split; [discriminate|reflexivity].
  - bytes.
  - exists s', s''. split; [exact Hs'|]. split; [exact Hp|].
    injection Hv as Hu' Hst' _ _ _.
    split; [rewrite Hst'; exact Hst|rewrite Hu'; exact Hu].
Defined.

(** ** Writing the same byte twice *)

Lemma masked_write_idem old d m :
  masked_write (masked_write old d m) d m = masked_write old d m.
Proof.
  apply Z.bits_inj'. intros n _. rewrite !masked_write_testbit.
  destruct (Z.testbit old n), (Z.testbit d n), (Z.testbit m n); reflexivity.
Qed.

(** X21: a write transaction of one data byte, repeated, leaves the
    register file as the first one left it. *)
Theorem X21_same_write_twice (cfg : config) (s : state) (p1 p2 : list Z)
    (a b d : Z) :
  wf_config cfg ->
  wf_regs cfg (i2c_reg s) ->
  post_ack s = 0 ->
  wait_scl_low cfg p1 = Some tt ->
  wait_scl_low cfg p2 = Some tt ->
  byte a ->
  Z.shiftr a 1 = 0 \/ Z.shiftr a 1 = I2C_SLAVE_ADDR cfg ->
  Z.testbit a 0 = false ->
  0 <= b < I2C_N_REG cfg ->
  byte d ->
  exists s1 s2,
    run_bus cfg [START p1; BYTE a; BYTE b; BYTE d; STOP] s = Some s1 /\
    run_bus cfg [START p2; BYTE a; BYTE b; BYTE d; STOP] s1 = Some s2 /\
    i2c_reg s2 = i2c_reg s1.
Proof.
  intros Hcfg Hreg Hpa Hw1 Hw2 Ba Hm Hrw Hb Bd.
  assert (Hds : Forall byte [d]) by (constructor; [exact Bd|constructor]).
  destruct (wf_lookup cfg _ _ Hcfg Hreg Hb)
    as (old & mask & Hold & Hmask & Bold & Bmask).
  destruct (run_write_transaction cfg s p1 a b [d])
    as (s1 & Hs1 & Hv1 & _); try assumption.
  injection Hv1 as Hu1 Hst1 Hoff1 Hpa1 Hreg1.
  cbn [write_burst] in Hreg1. rewrite Hold, Hmask in Hreg1. cbn [snd] in Hreg1.
  assert (Hlt : (Z.to_nat b < length (i2c_reg s))%nat)
    by (eapply lookup_lt_Some; eassumption).
  assert (Hreg1' : wf_regs cfg (i2c_reg s1)).
  { rewrite Hreg1. destruct Hreg as [Hlen Hbytes]. split.
    - now rewrite length_insert.
    - apply Forall_insert; [assumption|].
      rewrite <- (u8_small mask Bmask). now apply masked_write_byte. }
  destruct (run_write_transaction cfg s1 p2 a b [d])
    as (s2 & Hs2 & Hv2 & _); try assumption.
  injection Hv2 as Hu2 Hst2 Hoff2 Hpa2 Hreg2.
  exists s1, s2. split; [exact Hs1|]. split; [exact Hs2|].
  rewrite Hreg2. cbn [write_burst]. rewrite Hmask.
  rewrite Hreg1 at 1. rewrite list_lookup_insert_eq by assumption.
  cbn [snd]. rewrite masked_write_idem.
  rewrite Hreg1. now rewrite list_insert_insert_eq.
Qed.

Lemma X21_same_write_twice_witness :
  exists s1 s2,
    run_bus (defs_example [0xFF; 0x0F])
      [START [0]; BYTE 0x80; BYTE 0x01; BYTE 0xF5; STOP] (power_on [0; 0xA0])
    = Some s1 /\
    run_bus (defs_example [0xFF; 0x0F])
      [START [4; 0]; BYTE 0x80; BYTE 0x01; BYTE 0xF5; STOP] s1 = Some s2 /\
    i2c_reg s2 = i2c_reg s1.
Proof.
  apply (X21_same_write_twice (defs_example [0xFF; 0x0F]) (power_on [0; 0xA0])
           [0] [4; 0] 0x80 0x01 0xF5).
  - apply defs_example_wf; [reflexivity|bytes].
  - split; [reflexivity|bytes].
  - reflexivity.
  - reflexivity.
  - reflexivity.
  - unfold byte. lia.
  - right. reflexivity.
  - reflexivity.
  - vm_compute. split; [discriminate|reflexivity].
  - unfold byte. lia.
Defined.

(** ** The master reads *)

Lemma set_USIDR_same (s : state) : set_USIDR (USIDR s) s = s.
Proof. now destruct s. Qed.

Lemma sda_level_driven (cfg : config) (s : state) :
  Z.testbit (USI_DDR s) (I2C_SDA cfg) = true ->
  Z.testbit (USI_PORT s) (I2C_SDA cfg) = true ->
  sda_level cfg s = if Z.testbit (USIDR s) 7 then 1 else 0.
Proof.
  intros Hd Hp. unfold sda_level. rewrite Hd, Hp.
  now destruct (Z.testbit (USIDR s) 7).
Qed.

Lemma sda_level_released (cfg : config) (s : state) :
  Z.testbit (USI_DDR s) (I2C_SDA cfg) = false -> sda_level cfg s = 1.
Proof. intros Hd. unfold sda_level. now rewrite Hd. Qed.

Lemma clock_out_driven (cfg : config) (n : nat) :
  forall (acc : Z) (s : state),
    Z.testbit (USI_DDR s) (I2C_SDA cfg) = true ->
    Z.testbit (USI_PORT s) (I2C_SDA cfg) = true ->
    clock_out cfg n acc s
    = ((rot_out n acc (USIDR s)).1, set_USIDR (rot_out n acc (USIDR s)).2 s).
Proof.
  induction n as [|n IH]; intros acc s Hd Hp; cbn [clock_out rot_out].
  - cbn. now rewrite set_USIDR_same.
  - rewrite IH by assumption.
    unfold hw_clock. rewrite (sda_level_driven cfg s Hd Hp). reflexivity.
Qed.

Lemma rot_out_bytes :
  forallb (fun n => let r := rot_out 8 0 (Z.of_nat n) in
                    (r.1 =? Z.of_nat n) && (r.2 =? Z.of_nat n))
          (seq 0 256) = true.
Proof. vm_compute. reflexivity. Qed.

(** Eight clocks bring a byte back to where it was, and the master has seen
    it. *)
Lemma rot_out_byte (d : Z) : byte d -> rot_out 8 0 d = (d, d).
Proof.
  intros Bd. pose proof rot_out_bytes as H.
  rewrite forallb_forall in H. specialize (H (Z.to_nat d)).
  rewrite Z2Nat.id in H by (unfold byte in Bd; lia).
  assert (Hin : In (Z.to_nat d) (seq 0 256)).
  { apply in_seq. unfold byte in Bd. lia. }
  specialize (H Hin). cbn zeta in H.
  apply andb_true_iff in H as [H1 H2]. apply Z.eqb_eq in H1, H2.
  destruct (rot_out 8 0 d) as [x y]. cbn in H1, H2. congruence.
Qed.

Section Reading.

Variables (cfg : config).

Hypothesis Hsda : 0 <= I2C_SDA cfg < 8.
Hypothesis Hn : I2C_N_REG cfg <= 256.

(** The address byte with the read bit: the first register is loaded. *)
Lemma run_byte_addr_r (s : state) (a v : Z) :
  post_ack s = 0 ->
  i2c_state s = I2C_STATE_ADDR_MATCH ->
  0 <= i2c_offset s < I2C_N_REG cfg ->
  i2c_reg s !! Z.to_nat (i2c_offset s) = Some v ->
  Z.testbit (USI_PORT s) (I2C_SDA cfg) = true ->
  byte a ->
  Z.shiftr a 1 = 0 \/ Z.shiftr a 1 = I2C_SLAVE_ADDR cfg ->
  Z.testbit a 0 = true ->
  exists s',
    run_event cfg (BYTE a) s = Some s' /\
    offering cfg (i2c_offset s) s' /\
    i2c_update s' = i2c_update s /\
    i2c_reg s' = i2c_reg s.
Proof.
  intros Hpa Hst Hoff Hv Hport Ba Hm Hrw.
  change (run_event cfg (BYTE a) s)
    with (match exec (usi_overflow_isr cfg) (hw_shift_in a s) with
          | Some s1 => exec (usi_overflow_isr cfg) (hw_ack_clock cfg s1)
          | None => None
          end).
  unfold exec. rewrite (overflow_b cfg (hw_shift_in a s)).
  2:{ cbn. now rewrite Hpa. }
  2:{ exact Hst. }
  2:{ cbn. rewrite (u8_small a Ba). now apply addr_match_bool. }
  2:{ cbn. rewrite (u8_small a Ba), truthy_lsb. exact Hrw. }
  set (s1 := overflow_exit cfg I2C_SDA_DIR_OUT 0xDE _).
  assert (Hd1 : USIDR s1 = 0) by (unfold s1; now rewrite exit_USIDR).
  assert (Hddr1 : Z.testbit (USI_DDR s1) (I2C_SDA cfg) = true)
    by (unfold s1; now apply exit_sda_out).
  assert (Hoff1 : i2c_offset s1 = i2c_offset s).
  { unfold s1. rewrite exit_offset. cbn. now apply clamp_in_range. }
  assert (Hpa1 : post_ack s1 = 1) by (unfold s1; now rewrite exit_post_ack).
  assert (Hst1 : i2c_state s1 = I2C_STATE_MASTER_READ)
    by (unfold s1; now rewrite exit_state).
  assert (Hreg1 : i2c_reg s1 = i2c_reg s) by (unfold s1; now rewrite exit_reg).
  assert (Hu1 : i2c_update s1 = i2c_update s)
    by (unfold s1; now rewrite exit_update).
  assert (Hport1 : USI_PORT s1 = USI_PORT s)
    by (unfold s1; now rewrite exit_USI_PORT).
  assert (Hl1 : sda_level cfg s1 = 0).
  { unfold sda_level. rewrite Hddr1, Hd1. reflexivity. }
  clearbody s1.
  rewrite (overflow_f cfg (hw_ack_clock cfg s1) v).
  - eexists. split; [reflexivity|]. unfold offering.
    rewrite exit_state, exit_post_ack, exit_USI_PORT, exit_reg, exit_USIDR,
      exit_offset, exit_update, exit_sda_out by assumption.
    cbn. rewrite Hoff1, exit_offset_next, Hst1, Hport1, Hreg1, Hu1 by assumption.
    repeat split; assumption.
  - cbn. now rewrite Hpa1.
  - cbn. exact Hst1.
  - cbn. rewrite Hd1, Hl1. reflexivity.
  - cbn. now rewrite Hoff1, Hreg1.
Qed.

(** After the handler has listened for the master's answer. *)
Lemma listen_state (s : state) :
  post_ack s = 0 ->
  i2c_state s = I2C_STATE_MASTER_READ ->
  0 <= i2c_offset s < I2C_N_REG cfg ->
  exists s2,
    usi_overflow_isr cfg (hw_overflow s) = Some (tt, s2) /\
    USIDR s2 = 0 /\
    Z.testbit (USI_DDR s2) (I2C_SDA cfg) = false /\
    USI_PORT s2 = USI_PORT s /\
    vars s2 = (i2c_update s, I2C_STATE_MASTER_READ, i2c_offset s, 1,
               i2c_reg s).
Proof.
  intros Hpa Hst Hoff. eexists. split.
  - apply overflow_read_pre; cbn; [now rewrite Hpa|exact Hst].
  - unfold vars.
    rewrite exit_USIDR, exit_USI_PORT, exit_update, exit_state, exit_offset,
      exit_post_ack, exit_reg, exit_sda_in by assumption.
    cbn. rewrite clamp_in_range, Hst by assumption. repeat split.
Qed.

(** One byte read and ACKed: the next register is loaded. *)
Lemma master_read_ack (s : state) (cur v : Z) :
  offering cfg cur s ->
  byte (USIDR s) ->
  0 <= i2c_offset s < I2C_N_REG cfg ->
  i2c_reg s !! Z.to_nat (i2c_offset s) = Some v ->
  exists s',
    master_read cfg true s = Some (USIDR s, s') /\
    offering cfg (i2c_offset s) s' /\
    i2c_update s' = i2c_update s /\
    i2c_reg s' = i2c_reg s.
Proof.
  intros (Hst & Hpa & Hddr & Hport & Hcur & Hoffc) Bd Hoff Hv.
  unfold master_read. rewrite clock_out_driven, rot_out_byte by assumption.
  cbn [fst snd]. rewrite set_USIDR_same.
  destruct (listen_state s Hpa Hst Hoff)
    as (s2 & Hs2 & Hd2 & Hddr2 & Hport2 & Hv2).
  injection Hv2 as Hu2 Hst2 Hoff2 Hpa2 Hreg2.
  unfold exec. rewrite Hs2.
  rewrite (overflow_f cfg (hw_ack_clock_by_master cfg true s2) v).
  - eexists. split; [reflexivity|]. unfold offering.
    rewrite exit_state, exit_post_ack, exit_USI_PORT, exit_reg, exit_USIDR,
      exit_offset, exit_update, exit_sda_out by assumption.
    cbn. rewrite Hoff2, exit_offset_next, Hst2, Hport2, Hreg2, Hu2 by assumption.
    repeat split; assumption.
  - cbn. now rewrite Hpa2.
  - cbn. exact Hst2.
  - cbn. rewrite Hd2. reflexivity.
  - cbn. now rewrite Hoff2, Hreg2.
Qed.

(** One byte read and NAKed: the read is over. *)
Lemma master_read_nak (s : state) (cur : Z) :
  offering cfg cur s ->
  byte (USIDR s) ->
  0 <= i2c_offset s < I2C_N_REG cfg ->
  exists s',
    master_read cfg false s = Some (USIDR s, s') /\
    vars s' = (i2c_update s, I2C_STATE_IDLE, 0, 0, i2c_reg s) /\
    Z.testbit (USI_DDR s') (I2C_SDA cfg) = false.
Proof.
  intros (Hst & Hpa & Hddr & Hport & Hcur & Hoffc) Bd Hoff.
  unfold master_read. rewrite clock_out_driven, rot_out_byte by assumption.
  cbn [fst snd]. rewrite set_USIDR_same.
  destruct (listen_state s Hpa Hst Hoff)
    as (s2 & Hs2 & Hd2 & Hddr2 & Hport2 & Hv2).
  injection Hv2 as Hu2 Hst2 Hoff2 Hpa2 Hreg2.
  unfold exec. rewrite Hs2.
  rewrite (overflow_e cfg (hw_ack_clock_by_master cfg false s2)).
  - eexists. split; [reflexivity|]. unfold vars.
    rewrite exit_state, exit_post_ack, exit_reg, exit_offset, exit_update,
      exit_sda_in by assumption.
    cbn. rewrite clamp_in_range, Hreg2, Hu2 by lia. repeat split.
  - cbn. now rewrite Hpa2.
  - cbn. exact Hst2.
  - cbn. rewrite Hd2, (sda_level_released cfg s2 Hddr2). reflexivity.
Qed.

End Reading.

(** No bus event touches the port register. *)
Lemma run_event_port (cfg : config) (e : bus_event) (s s' : state) :
  run_event cfg e s = Some s' -> USI_PORT s' = USI_PORT s.
Proof.
  destruct e as [pinb|b|]; cbn [run_event].
  - isr_unfold. cbn. destruct (wait_scl_low cfg pinb); [|discriminate].
    now intros [= <-].
  - destruct (exec (usi_overflow_isr cfg) (hw_shift_in b s)) as [s1|] eqn:E1;
      [|discriminate].
    intros E2.
    destruct (overflow_hw _ _ _ E1) as (_ & _ & H1 & _).
    destruct (overflow_hw _ _ _ E2) as (_ & _ & H2 & _).
    rewrite H2. cbn. rewrite H1. reflexivity.
  - now intros [= <-].
Qed.

Lemma run_bus_port (cfg : config) (es : list bus_event) :
  forall s s', run_bus cfg es s = Some s' -> USI_PORT s' = USI_PORT s.
Proof.
  induction es as [|e es IH]; intros s s'; cbn [run_bus].
  - now intros [= <-].
  - destruct (run_event cfg e s) as [s1|] eqn:E1; [|discriminate].
    intros E2. rewrite (IH _ _ E2). exact (run_event_port _ _ _ _ E1).
Qed.

Lemma reg_lookup (cfg : config) (reg : list Z) (off : Z) :
  wf_config cfg -> wf_regs cfg reg -> 0 <= off < I2C_N_REG cfg ->
  exists v, reg !! Z.to_nat off = Some v /\ byte v.
Proof.
  intros Hcfg Hreg Hoff.
  destruct (wf_lookup cfg reg off Hcfg Hreg Hoff) as (v & _ & Hv & _ & Bv & _).
  now exists v.
Qed.

Section ReadBursts.

Variables (cfg : config).

Hypothesis Hsda : 0 <= I2C_SDA cfg < 8.
Hypothesis Hcfg : wf_config cfg.

(** [k] bytes ACKed and a last one NAKed, from a state that has the
    register at [cur] on offer. *)
Lemma reads_burst (k : nat) :
  forall (s : state) (cur : Z),
    offering cfg cur s ->
    0 <= cur < I2C_N_REG cfg ->
    wf_regs cfg (i2c_reg s) ->
    exists s',
      master_reads cfg (replicate k true ++ [false]) s
      = Some (read_seq cfg cur (S k) (i2c_reg s), s') /\
      vars s' = (i2c_update s, I2C_STATE_IDLE, 0, 0, i2c_reg s) /\
      Z.testbit (USI_DDR s') (I2C_SDA cfg) = false.
Proof.
  pose proof Hcfg as [[Hpos Hn] _].
  induction k as [|k IH]; intros s cur Hof Hcur Hreg.
  - pose proof Hof as (_ & _ & _ & _ & Hv & Hoff).
    assert (Bd : byte (USIDR s))
      by exact (Forall_lookup_1 byte _ _ _ (proj2 Hreg) Hv).
    assert (Hoffr : 0 <= i2c_offset s < I2C_N_REG cfg)
      by (rewrite Hoff; now apply next_offset_range).
    destruct (master_read_nak cfg Hsda s cur Hof Bd Hoffr)
      as (s' & Hs' & Hv' & Hddr').
    exists s'. cbn [replicate app master_reads read_seq].
    rewrite Hs', Hv. split; [reflexivity|]. split; assumption.
  - pose proof Hof as (_ & _ & _ & _ & Hv & Hoff).
    assert (Bd : byte (USIDR s))
      by exact (Forall_lookup_1 byte _ _ _ (proj2 Hreg) Hv).
    assert (Hoffr : 0 <= i2c_offset s < I2C_N_REG cfg)
      by (rewrite Hoff; now apply next_offset_range).
    destruct (reg_lookup cfg _ _ Hcfg Hreg Hoffr) as (v & Hvn & _).
    destruct (master_read_ack cfg Hsda Hn s cur v Hof Bd Hoffr Hvn)
      as (s1 & Hs1 & Hof1 & Hu1 & Hreg1).
    destruct (IH s1 (i2c_offset s) Hof1 Hoffr) as (s' & Hs' & Hv' & Hddr');
      [now rewrite Hreg1|].
    exists s'. cbn [replicate app master_reads].
    rewrite Hs1, Hs', Hreg1.
    change (read_seq cfg cur (S (S k)) (i2c_reg s))
      with (match i2c_reg s !! Z.to_nat cur with
            | Some v => v :: read_seq cfg (next_offset cfg cur) (S k) (i2c_reg s)
            | None => []
            end).
    rewrite Hv, <- Hoff. split; [reflexivity|].
    split; [|assumption]. rewrite Hv'. congruence.
Qed.

(** A read from wherever the offset is: START, the address with the read
    bit, then [k] bytes ACKed and one NAKed. *)
Lemma read_from_offset (s : state) (p : list Z) (a : Z) (k : nat) :
  wf_regs cfg (i2c_reg s) ->
  post_ack s = 0 ->
  0 <= i2c_offset s < I2C_N_REG cfg ->
  Z.testbit (USI_PORT s) (I2C_SDA cfg) = true ->
  wait_scl_low cfg p = Some tt ->
  byte a ->
  Z.shiftr a 1 = 0 \/ Z.shiftr a 1 = I2C_SLAVE_ADDR cfg ->
  Z.testbit a 0 = true ->
  exists s1 s2,
    run_bus cfg [START p; BYTE a] s = Some s1 /\
    master_reads cfg (replicate k true ++ [false]) s1
    = Some (read_seq cfg (i2c_offset s) (S k) (i2c_reg s), s2) /\
    vars s2 = (i2c_update s, I2C_STATE_IDLE, 0, 0, i2c_reg s).
Proof.
  intros Hreg Hpa Hoff Hport Hw Ba Hm Hrw.
  pose proof Hcfg as [[Hpos Hn] _].
  destruct (run_start cfg p s Hw) as (s0 & Hs0 & Hv0).
  pose proof (run_event_port _ _ _ _ Hs0) as Hport0.
  injection Hv0 as Hu0 Hst0 Hoff0 Hpa0 Hreg0.
  destruct (reg_lookup cfg _ _ Hcfg Hreg Hoff) as (v & Hv & _).
  assert (Hpa0' : post_ack s0 = 0) by congruence.
  assert (Hoff0' : 0 <= i2c_offset s0 < I2C_N_REG cfg) by (now rewrite Hoff0).
  assert (Hv0 : i2c_reg s0 !! Z.to_nat (i2c_offset s0) = Some v)
    by (now rewrite Hreg0, Hoff0).
  assert (Hport0' : Z.testbit (USI_PORT s0) (I2C_SDA cfg) = true)
    by (now rewrite Hport0).
  destruct (run_byte_addr_r cfg Hsda Hn s0 a v Hpa0' Hst0 Hoff0' Hv0 Hport0'
              Ba Hm Hrw) as (s1 & Hs1 & Hof1 & Hu1 & Hreg1).
  destruct (reads_burst k s1 (i2c_offset s0) Hof1) as (s2 & Hs2 & Hv2 & _).
  { rewrite Hoff0. exact Hoff. }
  { rewrite Hreg1, Hreg0. exact Hreg. }
  exists s1, s2. split; [cbn [run_bus]; now rewrite Hs0, Hs1|].
  split.
  - rewrite Hs2. congruence.
  - rewrite Hv2. congruence.
Qed.

End ReadBursts.

Lemma masked_write_full old d : byte old -> byte d -> masked_write old d 0xFF = d.
Proof.
  intros Bo Bd. apply Z.bits_inj'. intros n Hn.
  rewrite masked_write_testbit.
  destruct (Z.lt_ge_cases n 8) as [Hlt|Hge].
  - change 0xFF with (Z.ones 8). rewrite Z.ones_spec_low by lia.
    cbn. now rewrite andb_false_r, andb_true_r.
  - rewrite (byte_testbit_high old), (byte_testbit_high d) by assumption.
    reflexivity.
Qed.

(** X22: a read starts at the offset the engine happens to have.  After a
    start and the address with the read bit, [k] bytes ACKed by the master
    and a last one NAKed are the [k + 1] registers from that offset on,
    wrapping at I2C_N_REG.  The NAK ends the read: state IDLE, offset 0,
    registers and update counter untouched, and [i2c_transaction_ongoing]
    returns 0. *)
Theorem X22_read_burst (cfg : config) (s : state) (p : list Z) (a : Z)
    (k : nat) :
  0 <= I2C_SDA cfg < 8 ->
  wf_config cfg ->
  wf_regs cfg (i2c_reg s) ->
  post_ack s = 0 ->
  0 <= i2c_offset s < I2C_N_REG cfg ->
  Z.testbit (USI_PORT s) (I2C_SDA cfg) = true ->
  wait_scl_low cfg p = Some tt ->
  byte a ->
  Z.shiftr a 1 = 0 \/ Z.shiftr a 1 = I2C_SLAVE_ADDR cfg ->
  Z.testbit a 0 = true ->
  exists s1 s2,
    run_bus cfg [START p; BYTE a] s = Some s1 /\
    master_reads cfg (replicate k true ++ [false]) s1
    = Some (read_seq cfg (i2c_offset s) (S k) (i2c_reg s), s2) /\
    vars s2 = (i2c_update s, I2C_STATE_IDLE, 0, 0, i2c_reg s) /\
    i2c_transaction_ongoing s2 = Some (0, s2).
Proof.
  intros Hsda Hcfg Hreg Hpa Hoff Hport Hw Ba Hm Hrw.
  destruct (read_from_offset cfg Hsda Hcfg s p a k)
    as (s1 & s2 & Hs1 & Hs2 & Hv2); try assumption.
  exists s1, s2. split; [exact Hs1|]. split; [exact Hs2|].
  split; [exact Hv2|].
  injection Hv2 as _ Hst2 _ _ _.
  unfold i2c_transaction_ongoing, bind, load. now rewrite Hst2.
Qed.

Lemma X22_read_burst_witness :
  exists s1 s2,
    run_bus (defs_example [0xFF; 0x0F]) [START [0]; BYTE 0x81]
      (set_USI_PORT 0x05 (set_i2c_offset 1 (power_on [0x12; 0x34]))) = Some s1 /\
    master_reads (defs_example [0xFF; 0x0F]) [true; true; false] s1
    = Some ([0x34; 0x12; 0x34], s2) /\
    i2c_state s2 = I2C_STATE_IDLE.
Proof.
  destruct (X22_read_burst (defs_example [0xFF; 0x0F])
              (set_USI_PORT 0x05 (set_i2c_offset 1 (power_on [0x12; 0x34])))
              [0] 0x81 2)
    as (s1 & s2 & Hs1 & Hs2 & Hv2 & _).
  - closed_goal.
  - apply defs_example_wf; [reflexivity|bytes].
  - split; [reflexivity|bytes].
  - reflexivity.
  - closed_goal.
  - reflexivity.
  - reflexivity.
  - unfold byte. lia.
  - right. reflexivity.
  - reflexivity.
  - exists s1, s2. split; [exact Hs1|]. split; [exact Hs2|].
    injection Hv2 as _ Hst _ _ _. exact Hst.
Defined.

(** X23: the register read of the protocol.  START, the address with the
    write bit and a valid offset [n], a repeated START, the address with
    the read bit: the bytes the master then reads are the registers from
    [n] on, and the register file is not changed by any of it. *)
Theorem X23_register_read (cfg : config) (s : state) (p1 p2 : list Z)
    (aw ar n : Z) (k : nat) :
  0 <= I2C_SDA cfg < 8 ->
  wf_config cfg ->
  wf_regs cfg (i2c_reg s) ->
  post_ack s = 0 ->
  Z.testbit (USI_PORT s) (I2C_SDA cfg) = true ->
  wait_scl_low cfg p1 = Some tt ->
  wait_scl_low cfg p2 = Some tt ->
  byte aw -> byte ar ->
  Z.shiftr aw 1 = 0 \/ Z.shiftr aw 1 = I2C_SLAVE_ADDR cfg ->
  Z.shiftr ar 1 = 0 \/ Z.shiftr ar 1 = I2C_SLAVE_ADDR cfg ->
  Z.testbit aw 0 = false ->
  Z.testbit ar 0 = true ->
  0 <= n < I2C_N_REG cfg ->
  exists s1 s2,
    run_bus cfg [START p1; BYTE aw; BYTE n; START p2; BYTE ar] s = Some s1 /\
    master_reads cfg (replicate k true ++ [false]) s1
    = Some (read_seq cfg n (S k) (i2c_reg s), s2) /\
    i2c_reg s2 = i2c_reg s /\
    i2c_state s2 = I2C_STATE_IDLE.
Proof.
  intros Hsda Hcfg Hreg Hpa Hport Hw1 Hw2 Baw Bar Hmw Hmr Hrw Hrr Hn.
  pose proof Hcfg as [[Hpos Hmax] _].
  destruct (run_write_header cfg s p1 aw n) as (s0 & Hs0 & Hv0);
    try assumption; try lia.
  pose proof (run_bus_port _ _ _ _ Hs0) as Hport0.
  injection Hv0 as Hu0 Hst0 Hoff0 Hpa0 Hreg0.
  destruct (read_from_offset cfg Hsda Hcfg s0 p2 ar k)
    as (s1 & s2 & Hs1 & Hs2 & Hv2); try assumption.
  { now rewrite Hreg0. }
  { now rewrite Hoff0. }
  { now rewrite Hport0. }
  exists s1, s2. split.
  - change [START p1; BYTE aw; BYTE n; START p2; BYTE ar]
      with ([START p1; BYTE aw; BYTE n] ++ [START p2; BYTE ar]).
    now rewrite run_bus_app, Hs0.
  - split; [rewrite Hs2; congruence|].
    injection Hv2 as _ Hst2 _ _ Hreg2. split; congruence.
Qed.

Lemma X23_register_read_witness :
  exists s1 s2,
    run_bus (defs_example [0xFF; 0x0F])
      [START [0]; BYTE 0x80; BYTE 0x00; START [0]; BYTE 0x81]
      (set_USI_PORT 0x05 (power_on [0x12; 0x34])) = Some s1 /\
    master_reads (defs_example [0xFF; 0x0F]) [true; false] s1
    = Some ([0x12; 0x34], s2).
Proof.
  destruct (X23_register_read (defs_example [0xFF; 0x0F])
              (set_USI_PORT 0x05 (power_on [0x12; 0x34]))
              [0] [0] 0x80 0x81 0x00 1)
    as (s1 & s2 & Hs1 & Hs2 & _).
  - closed_goal.
  - apply defs_example_wf; [reflexivity|bytes].
  - split; [reflexivity|bytes].
  - reflexivity.
  - reflexivity.
  - reflexivity.
  - reflexivity.
  - unfold byte. lia.
  - unfold byte. lia.
  - right. reflexivity.
  - right. reflexivity.
  - reflexivity.
  - reflexivity.
  - closed_goal.
  - exists s1, s2. split; [exact Hs1|exact Hs2].
Defined.

(** X24: write, then read back.  After a write transaction that puts one
    byte [d] at offset [n], the register read of [n] returns the old
    register merged with [d] under the write mask; under the mask 0xFF that
    is [d] itself. *)
Theorem X24_write_read_round_trip (cfg : config) (s : state)
    (p1 p2 p3 : list Z) (aw ar n d old mask : Z) :
  0 <= I2C_SDA cfg < 8 ->
  wf_config cfg ->
  wf_regs cfg (i2c_reg s) ->
  post_ack s = 0 ->
  Z.testbit (USI_PORT s) (I2C_SDA cfg) = true ->
  wait_scl_low cfg p1 = Some tt ->
  wait_scl_low cfg p2 = Some tt ->
  wait_scl_low cfg p3 = Some tt ->
  byte aw -> byte ar ->
  Z.shiftr aw 1 = 0 \/ Z.shiftr aw 1 = I2C_SLAVE_ADDR cfg ->
  Z.shiftr ar 1 = 0 \/ Z.shiftr ar 1 = I2C_SLAVE_ADDR cfg ->
  Z.testbit aw 0 = false ->
  Z.testbit ar 0 = true ->
  0 <= n < I2C_N_REG cfg ->
  byte d ->
  i2c_reg s !! Z.to_nat n = Some old ->
  write_mask cfg (Z.to_nat n) = Some mask ->
  exists s1 s2 s3,
    run_bus cfg [START p1; BYTE aw; BYTE n; BYTE d; STOP] s = Some s1 /\
    run_bus cfg [START p2; BYTE aw; BYTE n; START p3; BYTE ar] s1 = Some s2 /\
    master_reads cfg [false] s2 = Some ([masked_write old d mask], s3) /\
    (mask = 0xFF -> masked_write old d mask = d).
Proof.
  intros Hsda Hcfg Hreg Hpa Hport Hw1 Hw2 Hw3 Baw Bar Hmw Hmr Hrw Hrr Hn Bd
    Hold Hmask.
  pose proof Hcfg as [[Hpos Hmax] _].
  destruct (wf_lookup cfg _ _ Hcfg Hreg Hn)
    as (old' & mask' & Hold' & Hmask' & Bold & Bmask).
  rewrite Hold in Hold'. injection Hold' as <-.
  rewrite Hmask in Hmask'. injection Hmask' as <-.
  assert (Hlt : (Z.to_nat n < length (i2c_reg s))%nat)
    by (eapply lookup_lt_Some; eassumption).
  (* the write *)
  destruct (run_write_transaction cfg s p1 aw n [d])
    as (s1 & Hs1 & Hv1 & _); try assumption;
    [constructor; [exact Bd|constructor]|].
  pose proof (run_bus_port _ _ _ _ Hs1) as Hport1.
  injection Hv1 as Hu1 Hst1 Hoff1 Hpa1 Hreg1.
  cbn [write_burst] in Hreg1. rewrite Hold, Hmask in Hreg1. cbn [snd] in Hreg1.
  assert (Hreg1' : wf_regs cfg (i2c_reg s1)).
  { rewrite Hreg1. destruct Hreg as [Hlen Hbytes]. split.
    - now rewrite length_insert.
    - apply Forall_insert; [assumption|].
      rewrite <- (u8_small mask Bmask). now apply masked_write_byte. }
  (* the pointer *)
  destruct (run_write_header cfg s1 p2 aw n) as (s0 & Hs0 & Hv0);
    try assumption; try lia.
  pose proof (run_bus_port _ _ _ _ Hs0) as Hport0.
  injection Hv0 as Hu0 Hst0 Hoff0 Hpa0 Hreg0.
  (* the read *)
  destruct (read_from_offset cfg Hsda Hcfg s0 p3 ar 0)
    as (s2 & s3 & Hs2 & Hs3 & Hv3); try assumption.
  { now rewrite Hreg0. }
  { now rewrite Hoff0. }
  { now rewrite Hport0, Hport1. }
  exists s1, s2, s3. split; [exact Hs1|]. split; [|split].
  - change [START p2; BYTE aw; BYTE n; START p3; BYTE ar]
      with ([START p2; BYTE aw; BYTE n] ++ [START p3; BYTE ar]).
    now rewrite run_bus_app, Hs0.
  - cbn [replicate app] in Hs3. rewrite Hs3. cbn [read_seq].
    rewrite Hoff0, Hreg0, Hreg1, list_lookup_insert_eq by assumption.
    reflexivity.
  - intros ->. now apply masked_write_full.
Qed.

Lemma X24_write_read_round_trip_witness :
  exists s1 s2 s3,
    run_bus (defs_example [0xFF; 0x0F])
      [START [0]; BYTE 0x80; BYTE 0x01; BYTE 0xF5; STOP]
      (set_USI_PORT 0x05 (power_on [0; 0xA0])) = Some s1 /\
    run_bus (defs_example [0xFF; 0x0F])
      [START [0]; BYTE 0x80; BYTE 0x01; START [0]; BYTE 0x81] s1 = Some s2 /\
    master_reads (defs_example [0xFF; 0x0F]) [false] s2 = Some ([0xA5], s3).
Proof.
  destruct (X24_write_read_round_trip (defs_example [0xFF; 0x0F])
              (set_USI_PORT 0x05 (power_on [0; 0xA0]))
              [0] [0] [0] 0x80 0x81 0x01 0xF5 0xA0 0x0F)
    as (s1 & s2 & s3 & Hs1 & Hs2 & Hs3 & _).
  - closed_goal.
  - apply defs_example_wf; [reflexivity|bytes].
  - split; [reflexivity|bytes].
  - reflexivity.
  - reflexivity.
  - reflexivity.
  - reflexivity.
  - reflexivity.
  - unfold byte. lia.
  - unfold byte. lia.
  - right. reflexivity.
  - right. reflexivity.
  - reflexivity.
  - reflexivity.
  - closed_goal.
  - unfold byte. lia.
  - reflexivity.
  - reflexivity.
  - exists s1, s2, s3. split; [exact Hs1|]. split; [exact Hs2|exact Hs3].
Defined.

(** X25: the read direction does not set the offset.  A repeated START
    with the read bit straight after a data byte does not read that byte
    back: with more than one register the master gets the register that
    follows the one just written, as it was before the write. *)
Theorem X25_read_follows_write (cfg : config) (s : state) (p1 p2 : list Z)
    (aw ar n d : Z) :
  0 <= I2C_SDA cfg < 8 ->
  wf_config cfg ->
  1 < I2C_N_REG cfg ->
  wf_regs cfg (i2c_reg s) ->
  post_ack s = 0 ->
  Z.testbit (USI_PORT s) (I2C_SDA cfg) = true ->
  wait_scl_low cfg p1 = Some tt ->
  wait_scl_low cfg p2 = Some tt ->
  byte aw -> byte ar ->
  Z.shiftr aw 1 = 0 \/ Z.shiftr aw 1 = I2C_SLAVE_ADDR cfg ->
  Z.shiftr ar 1 = 0 \/ Z.shiftr ar 1 = I2C_SLAVE_ADDR cfg ->
  Z.testbit aw 0 = false ->
  Z.testbit ar 0 = true ->
  0 <= n < I2C_N_REG cfg ->
  byte d ->
  exists s1 s2 v,
    run_bus cfg [START p1; BYTE aw; BYTE n; BYTE d; START p2; BYTE ar] s
    = Some s1 /\
    master_reads cfg [false] s1 = Some ([v], s2) /\
    i2c_reg s !! Z.to_nat (next_offset cfg n) = Some v /\
    next_offset cfg n <> n.
Proof.
  intros Hsda Hcfg Hmany Hreg Hpa Hport Hw1 Hw2 Baw Bar Hmw Hmr Hrw Hrr Hn Bd.
  pose proof Hcfg as [[Hpos Hmax] _].
  destruct (wf_lookup cfg _ _ Hcfg Hreg Hn)
    as (old & mask & Hold & Hmask & Bold & Bmask).
  pose proof (next_offset_range cfg n Hn) as Hnext.
  assert (Hne : next_offset cfg n <> n).
  { unfold next_offset. destruct (Z.eqb_spec (n + 1) (I2C_N_REG cfg)); lia. }
  destruct (reg_lookup cfg _ _ Hcfg Hreg Hnext) as (v & Hv & _).
  destruct (run_write_header cfg s p1 aw n) as (s0 & Hs0 & Hv0);
    try assumption; try lia.
  pose proof (run_bus_port _ _ _ _ Hs0) as Hport0.
  injection Hv0 as Hu0 Hst0 Hoff0 Hpa0 Hreg0.
  destruct (run_data_bytes cfg Hcfg [d] s0) as (sd & Hsd & Hvd);
    try assumption.
  { constructor; [exact Bd|constructor]. }
  { rewrite Hu0. unfold byte. lia. }
  { now rewrite Hoff0. }
  { now rewrite Hreg0. }
  pose proof (run_bus_port _ _ _ _ Hsd) as Hportd.
  injection Hvd as Hud Hstd Hoffd Hpad Hregd.
  rewrite Hoff0, Hreg0 in Hoffd, Hregd.
  cbn [write_burst] in Hoffd, Hregd. rewrite Hold, Hmask in Hoffd, Hregd.
  cbn [fst snd] in Hoffd, Hregd.
  assert (Hregd' : wf_regs cfg (i2c_reg sd)).
  { rewrite Hregd. destruct Hreg as [Hlen Hbytes]. split.
    - now rewrite length_insert.
    - apply Forall_insert; [assumption|].
      rewrite <- (u8_small mask Bmask). now apply masked_write_byte. }
  destruct (read_from_offset cfg Hsda Hcfg sd p2 ar 0)
    as (s1 & s2 & Hs1 & Hs2 & Hv2); try assumption.
  { now rewrite Hoffd. }
  { now rewrite Hportd, Hport0. }
  exists s1, s2, v. split; [|split; [|split; assumption]].
  - change [START p1; BYTE aw; BYTE n; BYTE d; START p2; BYTE ar]
      with ([START p1; BYTE aw; BYTE n] ++ (BYTE <$> [d])
            ++ [START p2; BYTE ar]).
    now rewrite run_bus_app, Hs0, run_bus_app, Hsd.
  - cbn [replicate app] in Hs2. rewrite Hs2. cbn [read_seq].
    rewrite Hoffd, Hregd, list_lookup_insert_ne, Hv; [reflexivity|].
    intros E. apply Hne. apply Z2Nat.inj in E; lia.
Qed.

Lemma X25_read_follows_write_witness :
  exists s1 s2,
    run_bus (defs_example [0xFF; 0x0F])
      [START [0]; BYTE 0x80; BYTE 0x00; BYTE 0xAB; START [0]; BYTE 0x81]
      (set_USI_PORT 0x05 (power_on [0x12; 0x34])) = Some s1 /\
    master_reads (defs_example [0xFF; 0x0F]) [false] s1 = Some ([0x34], s2).
Proof.
  destruct (X25_read_follows_write (defs_example [0xFF; 0x0F])
              (set_USI_PORT 0x05 (power_on [0x12; 0x34]))
              [0] [0] 0x80 0x81 0x00 0xAB)
    as (s1 & s2 & v & Hs1 & Hs2 & Hv & _).
  - closed_goal.
  - apply defs_example_wf; [reflexivity|bytes].
  - reflexivity.
  - split; [reflexivity|bytes].
  - reflexivity.
  - reflexivity.
  - reflexivity.
  - reflexivity.
  - unfold byte. lia.
  - unfold byte. lia.
  - right. reflexivity.
  - right. reflexivity.
  - reflexivity.
  - reflexivity.
  - closed_goal.
  - unfold byte. lia.
  - exists s1, s2. split; [exact Hs1|].
    vm_compute in Hv. injection Hv as <-. exact Hs2.
Defined.
